(** * categorize_products: the classification engine

    A shallow embedding of [src/categorize_products.py] and the properties of
    its decision cascade: the keyword matcher over the ordered [RULES] table,
    the subgroup finder over the taxonomy, the per-row loop of
    [classify_products] with its counters and its set of new categories, and
    the sorted report of that set made by [main].

    Conventions of the embedding.
    - A Python [str] is the list of its code points ([list N]); [len], [in],
      [+], [strip], [split] and [<] act on code points, as in Python.  String
      literals of the source are written as they are there and decoded from
      UTF-8 by [u].
    - The engine is embedded twice.  In the first part a text column of a
      worksheet row holds a [str] or is empty ([None]): it is an [option] of
      a string, and the columns the engine only carries along (identifiers,
      supplier) hold any cell [value].  In the module [Raw] every column
      holds any cell [value], a number included, and the methods of [str]
      raise on what is not a string; on sheets whose text columns hold text
      the two engines are shown to agree ([classify_products_refines]).
    - [str.lower] is a parameter of the engine ([lower]); [ascii_lower] is
      its restriction to text whose only cased characters are ASCII letters,
      and is the one used on concrete rows.
    - The operations of the source that can raise ([d[k] += 1] on a missing
      key, [l[0]] on an empty list, [+], [.lower()] and [.strip()] on a cell
      that is not a string) are written in the error monad [M]; where the
      engine raises and where it does not are then theorems and not
      conventions.
    - [products_ws.iter_rows(min_row=2, values_only=True)] is the list of
      data rows of the sheet, the header being skipped by [min_row=2]. *)

From Stdlib Require Import NArith ZArith Ascii.
From stdpp Require Import gmap strings list sorting lexico.

#[local] Set Warnings "-clear-no-such-hyp".

Open Scope N_scope.

(** ** Python strings *)

Abbreviation pystr := (list N).
Abbreviation cell := (option (list N)).

(** A cell of a worksheet: empty, a number or a string. *)
Inductive value :=
  | VNone
  | VInt (z : Z)
  | VStr (s : pystr).

(** UTF-8 decoding of the literals of the source. *)
Definition is_continuation (b : N) : bool := (128 <=? b) && (b <? 192).

Fixpoint utf8_decode (s : string) (acc : N) : pystr :=
  match s with
  | EmptyString => []
  | String a s' =>
      let b := N_of_ascii a in
      if b <? 128 then b :: utf8_decode s' 0
      else if b <? 192 then
        let acc' := acc * 64 + (b - 128) in
        match s' with
        | String c _ =>
            if is_continuation (N_of_ascii c) then utf8_decode s' acc'
            else acc' :: utf8_decode s' 0
        | EmptyString => [acc']
        end
      else if b <? 224 then utf8_decode s' (b - 192)
      else if b <? 240 then utf8_decode s' (b - 224)
      else utf8_decode s' (b - 240)
  end.

Definition u (s : string) : pystr := utf8_decode s 0.

(** Truth value of a cell: [None] and the empty string are false. *)
Definition truthy (c : cell) : bool :=
  match c with
  | Some (_ :: _) => true
  | _ => false
  end.

(** [c or ""] *)
Definition or_empty (c : cell) : pystr :=
  match c with
  | Some s => s
  | None => []
  end.

(** [a or b] *)
Definition py_or (a b : cell) : cell := if truthy a then a else b.

(** [str(c)] of a cell that is known to be true, hence a string. *)
Definition str (c : cell) : pystr := or_empty c.

(** [a == b] on strings, and [s == c] for a string [s] and a cell [c]. *)
Fixpoint str_eqb (a b : pystr) : bool :=
  match a, b with
  | [], [] => true
  | x :: a', y :: b' => (x =? y) && str_eqb a' b'
  | _, _ => false
  end.

Definition eq_cell (s : pystr) (c : cell) : bool :=
  match c with
  | Some s' => str_eqb s s'
  | None => false
  end.

(** [str.isspace] on one code point. *)
Definition isspace (c : N) : bool :=
  ((9 <=? c) && (c <=? 13)) || ((28 <=? c) && (c <=? 32))
  || (c =? 133) || (c =? 160) || (c =? 5760)
  || ((8192 <=? c) && (c <=? 8202))
  || (c =? 8232) || (c =? 8233) || (c =? 8239) || (c =? 8287)
  || (c =? 12288).

Fixpoint lstrip (s : pystr) : pystr :=
  match s with
  | [] => []
  | c :: s' => if isspace c then lstrip s' else s
  end.

Definition rstrip (s : pystr) : pystr := rev (lstrip (rev s)).

(** [s.strip()] *)
Definition strip (s : pystr) : pystr := rstrip (lstrip s).

(** [s.split()]: the maximal runs of characters that are not white space. *)
Fixpoint split_from (s : pystr) (word : pystr) : list pystr :=
  match s with
  | [] => match word with [] => [] | _ => [rev word] end
  | c :: s' =>
      if isspace c then
        match word with
        | [] => split_from s' []
        | _ => rev word :: split_from s' []
        end
      else split_from s' (c :: word)
  end.

Definition split (s : pystr) : list pystr := split_from s [].

(** [p in s] *)
Fixpoint startswith (s p : pystr) {struct p} : bool :=
  match p with
  | [] => true
  | a :: p' =>
      match s with
      | [] => false
      | b :: s' => (a =? b) && startswith s' p'
      end
  end.

Fixpoint contains (p s : pystr) : bool :=
  startswith s p
  || match s with
     | [] => false
     | _ :: s' => contains p s'
     end.

(** [sep.join(parts)] *)
Fixpoint join (sep : pystr) (parts : list pystr) : pystr :=
  match parts with
  | [] => []
  | [p] => p
  | p :: rest => p ++ sep ++ join sep rest
  end.

(** [a < b] on strings: lexicographic on code points. *)
Fixpoint str_ltb (a b : pystr) : bool :=
  match a, b with
  | _, [] => false
  | [], _ :: _ => true
  | x :: a', y :: b' => (x <? y) || ((x =? y) && str_ltb a' b')
  end.

(** [str.lower] on text whose only cased characters are ASCII letters. *)
Definition ascii_lower_char (c : N) : N :=
  if (65 <=? c) && (c <=? 90) then c + 32 else c.

Definition ascii_lower (s : pystr) : pystr := map ascii_lower_char s.

(** Characters of the keywords of the rule table: Hebrew letters and the
    space.  They have no case. *)
Definition hebrew_or_space (c : N) : bool :=
  (c =? 32) || ((1488 <=? c) && (c <=? 1514)).

(** ** Exceptions *)

Inductive exn := KeyError | IndexError | TypeError | AttributeError.

Inductive M (A : Type) :=
  | Ok (a : A)
  | Raise (e : exn).
Arguments Ok {A} a.
Arguments Raise {A} e.

#[global] Instance M_ret : MRet M := fun A a => Ok a.
#[global] Instance M_bind : MBind M := fun A B f m =>
  match m with
  | Ok a => f a
  | Raise e => Raise e
  end.
#[global] Instance M_fmap : FMap M := fun A B f m =>
  match m with
  | Ok a => Ok (f a)
  | Raise e => Raise e
  end.

(** [l[0]] *)
Definition first {A} (l : list A) : M A :=
  match l with
  | x :: _ => Ok x
  | [] => Raise IndexError
  end.

(** [c + s] for a cell [c] and a string [s]. *)
Definition add_str (c : cell) (s : pystr) : M cell :=
  match c with
  | Some x => Ok (Some (x ++ s))
  | None => Raise TypeError
  end.

(** [d[k] += 1] *)
Definition incr (k : string) (d : gmap string nat) : M (gmap string nat) :=
  match d !! k with
  | Some n => Ok (<[k := S n]> d)
  | None => Raise KeyError
  end.

(** ** Data *)

(** A row of the taxonomy, as [load_taxonomy] builds it. *)
Module Tax.
Record entry := {
  domain_id : value;
  domain_name : cell;
  dept_id : value;
  dept_name : cell;
  grp_id : value;
  grp_name : cell;
  sub_id : value;
  sub_name : cell
}.
End Tax.

(** A data row of the products sheet. *)
Module Row.
Record t := {
  item_id : value;
  item_name : cell;
  domain : cell;
  dept : cell;
  group : cell;
  subgroup : cell;
  supplier_id : value;
  supplier_name : value
}.
End Row.

Inductive Status :=
  | Skipped
  | AutoFull
  | AutoSubgroup
  | PartialAuto
  | NewCategory
  | Unknown.

(** The string the source writes for a status. *)
Definition status_key (s : Status) : string :=
  match s with
  | Skipped => "skipped"
  | AutoFull => "auto_full"
  | AutoSubgroup => "auto_subgroup"
  | PartialAuto => "partial_auto"
  | NewCategory => "new_category"
  | Unknown => "unknown"
  end.

#[global] Instance Status_eq_dec : EqDecision Status.
Proof. solve_decision. Defined.

(** An element of [results]. *)
Module Res.
Record t := {
  item_id : value;
  item_name : cell;
  domain : cell;
  dept : cell;
  group : cell;
  subgroup : cell;
  supplier_id : value;
  supplier_name : value;
  status : Status
}.
End Res.

(** [(domain, dept, group, subgroup)] *)
Abbreviation category := (list N * list N * list N * list N)%type.
Abbreviation rule := (list (list N) * (list N * list N * list N * list N))%type.

(** ** The rule table *)

Definition RULES : list rule :=
  [
    ([u "מגילת אסתר"; u "מגילות אסתר"],
     (u "NF", u "חגים", u "פורים", u "מגילות אסתר"));
    ([u "תחפושת"; u "מסכה"],
     (u "NF", u "חגים", u "פורים", u "תחפושות ואביזרים"));
    ([u "משלוח מנות"; u "שקית פורים"; u "קופסת פורים"],
     (u "NF", u "חגים", u "פורים", u "אביזרים למשלוחי מנות"));
    ([u "פורים"],
     (u "NF", u "חגים", u "פורים", u "אביזרים למשלוחי מנות"));
    ([u "סביבון"; u "חנוכיה"; u "חנוכה"],
     (u "NF", u "חגים", u "חנוכה", u "סביבונים"));
    ([u "שקית חג"; u "שקיות חג"],
     (u "NF", u "חגים", u "חגים כללי", u "שקיות חג"));
    ([u "מדבקות לפסח"; u "פסח"],
     (u "NF", u "חגים", u "חגים כללי", u "שקיות חג"));
    ([u "ציצית"; u "טלית"; u "פתיל"; u "פתילים"],
     (u "NF", u "יודאיקה *חדש*", u "ציצית וטלית *חדש*", u "פתילים וציצית *חדש*"));
    ([u "מזוזה"; u "תפילין"; u "שופר"],
     (u "NF", u "יודאיקה *חדש*", u "יודאיקה *חדש*", u "יודאיקה *חדש*"));
    ([u "חזרת"],
     (u "פירות וירקות", u "ירקות", u "שורשיים", u "שורש"));
    ([u "לוף"],
     (u "פירות וירקות", u "ירקות", u "ירקות לבישול", u "ירקות לבישול *חדש*"));
    ([u "נענע"; u "כוסברה"; u "פטרוזיליה"; u "שמיר"; u "עשב"],
     (u "פירות וירקות", u "ירקות", u "ירקות עלים", u "פטרוזיליה כוסברה נענע שמיר"));
    ([u "בוטן"; u "בוטנים"],
     (u "פירות וירקות", u "פיצוחים", u "בוטנים *חדש*", u "בוטנים *חדש*"));
    ([u "שקד"; u "שקדים"],
     (u "פירות וירקות", u "פיצוחים", u "שקדים *חדש*", u "שקדים *חדש*"));
    ([u "פיסטוק"],
     (u "פירות וירקות", u "פיצוחים", u "פיסטוק *חדש*", u "פיסטוק *חדש*"));
    ([u "קשיו"],
     (u "פירות וירקות", u "פיצוחים", u "קשיו *חדש*", u "קשיו *חדש*"));
    ([u "פקאן"],
     (u "פירות וירקות", u "פיצוחים", u "פקאן ומקדמיה *חדש*", u "פקאן *חדש*"));
    ([u "מקדמיה"],
     (u "פירות וירקות", u "פיצוחים", u "פקאן ומקדמיה *חדש*", u "מקדמיה *חדש*"));
    ([u "בונדוק"; u "אגוז ברזיל"; u "אגוז"],
     (u "פירות וירקות", u "פיצוחים", u "אגוזים *חדש*", u "אגוזים *חדש*"));
    ([u "גרעיני חמניה"; u "גרעיני אבטיח"; u "גרעיני דלעת"; u "גרעינים"],
     (u "פירות וירקות", u "פיצוחים", u "גרעינים *חדש*", u "גרעינים *חדש*"));
    ([u "גרעינים דלעת"; u "גרעיני אבטיח זריפה"],
     (u "פירות וירקות", u "פיצוחים", u "גרעינים *חדש*", u "גרעינים *חדש*"));
    ([u "חומוס קלוי"],
     (u "פירות וירקות", u "פיצוחים", u "חומוס ודגנים קלויים *חדש*", u "חומוס קלוי *חדש*"));
    ([u "תירס מטוגן"; u "תירס"],
     (u "פירות וירקות", u "פיצוחים", u "חטיפי פיצוחים *חדש*", u "חטיפי תירס *חדש*"));
    ([u "קבוקים"; u "קרנצוס"; u "רביולי גריל"],
     (u "פירות וירקות", u "פיצוחים", u "חטיפי פיצוחים *חדש*", u "חטיפי פיצוחים *חדש*"));
    ([u "מעורב"; u "מארז פיצוחים"],
     (u "פירות וירקות", u "פיצוחים", u "תערובות פיצוחים *חדש*", u "תערובות פיצוחים *חדש*"));
    ([u "ממתק פרי"],
     (u "פירות וירקות", u "פיצוחים", u "ממתקי פיצוחים *חדש*", u "ממתקי פיצוחים *חדש*"));
    ([u "דג טרי"; u "פילה"; u "דניס"; u "לברק"; u "אמנון"; u "קרפיון"; u "סלמון"; u "טונה טרי"; u "אינטיאס"; u "ברי"; u "פרידה"; u "כוקיה"; u "מוסר"; u "בקלה"; u "פגריה"],
     (u "מצוננים", u "דגים טריים", u "דגים טריים", u "דגים שלמים טריים *חדש*"));
    ([u "דג ארוז"; u "פילה ארוז"; u "דג מנוקה"],
     (u "מצוננים", u "דגים טריים", u "דגים טריים ארוזים", u "דגים ארוזים *חדש*"));
    ([u "אנטריקוט"; u "סינטה"; u "פילה בקר"; u "אסאדו"; u "שפונדרה"; u "צלעות בקר"; u "כתף בקר"; u "שייטל"; u "לשון"],
     (u "מצוננים", u "קצביה בקר טרי", u "חלקי בשר טרי", u "נתחי בקר *חדש*"));
    ([u "בשר טחון"; u "קציצות"],
     (u "מצוננים", u "קצביה בקר טרי", u "בשר טרי טחון", u "בשר טחון *חדש*"));
    ([u "בשר ארוז"],
     (u "מצוננים", u "קצביה בקר טרי", u "בשר טרי ארוז", u "בשר ארוז *חדש*"));
    ([u "עוף שלם"; u "פרגית שלמה"],
     (u "מצוננים", u "קצביה עופות טריים", u "עוף טרי שלם", u "עוף שלם *חדש*"));
    ([u "חזה עוף"; u "שוק עוף"; u "כנף עוף"; u "ירך עוף"; u "חלקי עוף"],
     (u "מצוננים", u "קצביה עופות טריים", u "חלקי עוף טרי", u "חלקי עוף *חדש*"));
    ([u "הודו"; u "פרגית הודו"; u "חזה הודו"; u "שוק הודו"],
     (u "מצוננים", u "קצביה עופות טריים", u "הודו טרי", u "חלקי הודו *חדש*"));
    ([u "עוף טחון"; u "הודו טחון"],
     (u "מצוננים", u "קצביה עופות טריים", u "עוף והודו טחון", u "עוף טחון *חדש*"));
    ([u "מצעים"; u "סדין"; u "ציפית"],
     (u "NF", u "טקסטיל", u "כלי מיטה", u "מצעים"));
    ([u "שמיכה"; u "שמיכות"],
     (u "NF", u "טקסטיל", u "כלי מיטה", u "שמיכות קיץ"));
    ([u "כרית"; u "כריות"],
     (u "NF", u "טקסטיל", u "כלי מיטה", u "כריות"));
    ([u "מגבת"; u "מגבות"],
     (u "NF", u "טקסטיל", u "מגבות", u "מגבות גוף"));
    ([u "מפה"; u "מפות"],
     (u "NF", u "טקסטיל", u "טקסטיל לבית", u "מפות"));
    ([u "שטיח"],
     (u "NF", u "טקסטיל", u "טקסטיל לבית", u "שטיחים"));
    ([u "גרב"; u "גרביים"],
     (u "NF", u "טקסטיל", u "ביגוד", u "גרבי גברים"));
    ([u "צעיף"],
     (u "NF", u "טקסטיל", u "אביזרי חורף", u "צעיפים"));
    ([u "כפפות"],
     (u "NF", u "טקסטיל", u "אביזרי חורף", u "כפפות"));
    ([u "מטריה"],
     (u "NF", u "טקסטיל", u "אביזרי חורף", u "מטריות"));
    ([u "כבל"; u "תקע"; u "שקע"],
     (u "NF", u "מוצרי חשמל", u "אביזרי חשמל ותאורה", u "תקעים וכבלים"));
    ([u "נורה"; u "גוף תאורה"],
     (u "NF", u "מוצרי חשמל", u "אביזרי חשמל ותאורה", u "נורות וגופי תאורה"));
    ([u "סוללה"; u "סוללות"],
     (u "NF", u "מוצרי חשמל", u "אלקטרוניקה", u "סוללות"));
    ([u "אוזניות"],
     (u "NF", u "מוצרי חשמל", u "אלקטרוניקה", u "אוזניות"));
    ([u "מטען"; u "כבל טעינה"],
     (u "NF", u "מוצרי חשמל", u "אלקטרוניקה", u "מטענים וכבלים"));
    ([u "מברשת שיניים"; u "חוט דנטלי"; u "מגרד לשון"; u "קיסם"],
     (u "פארם", u "היגיינת הפה", u "מברשות שיניים", u "מברשות שיניים *חדש*"));
    ([u "פח"; u "פחים"],
     (u "NF", u "כלי בית", u "מוצרים לבית", u "פחים"));
    ([u "מעצור דלת"],
     (u "NF", u "כלי בית", u "מוצרים לבית", u "מוצרים לבית *חדש*"));
    ([u "פרלטור"; u "ברז"; u "צינור"],
     (u "NF", u "כלי בית", u "מוצרים לאמבטיה", u "ברזים וחסכמים"));
    ([u "בלון"],
     (u "NF", u "פנאי", u "אביזרי מסיבה", u "בלונים"));
    ([u "פנקס"; u "מחברת"],
     (u "NF", u "פנאי", u "ציוד משרדי", u "מחברות בלוקים ומעטפות"));
    ([u "מדבקות"],
     (u "NF", u "פנאי", u "יצירה", u "מדבקות"));
    ([u "צנצנת"; u "קוצץ ציפורניים"],
     (u "NF", u "כלי בית", u "כלי אחסון", u "מוצרי אחסון פלסטיק"));
    ([u "בצל מטוגן"; u "בצל פריך"],
     (u "מזון יבש", u "מוצרים לבישול ואפיה", u "תבלינים", u "תבלינים בשקית"));
    ([u "מיץ"; u "נקטר"],
     (u "משקאות", u "משקאות קלים", u "נקטרים ומיצים", u "מיצים *חדש*"));
    ([u "לוונדר"; u "צמח"; u "עציץ"; u "פרח"],
     (u "NF", u "גינה *חדש*", u "צמחים *חדש*", u "צמחים וזרעים *חדש*"))
  ].

(** ** Constants of the source *)

Definition skip_sentinel : pystr := u "פריט חדש".
Definition skipped_subgroup : pystr := u "פריט לא קיים - לדילוג".
Definition new_marker : pystr := u "*חדש*".
Definition review_suffix : pystr := u " *לבדיקה*".
Definition unknown_domain : pystr := u "לא ידוע".
Definition needs_review : pystr := u "לבדיקה".
Definition manual_review : pystr := u "לבדיקה ידנית".

(** ** Order of the report: [sorted] on 4-tuples of strings *)

Definition category_ltb (a b : category) : bool :=
  let '(a1, a2, a3, a4) := a in
  let '(b1, b2, b3, b4) := b in
  str_ltb a1 b1
  || (str_eqb a1 b1
      && (str_ltb a2 b2
          || (str_eqb a2 b2
              && (str_ltb a3 b3
                  || (str_eqb a3 b3 && str_ltb a4 b4))))).

Definition category_le (a b : category) : Prop := category_ltb b a = false.

#[global] Instance category_le_dec : RelDecision category_le.
Proof. intros a b. unfold category_le. apply _. Defined.

(** [sorted(new_categories)] *)
Definition sorted (s : gset category) : list category :=
  merge_sort category_le (elements s).

(** ** The state of the loop of [classify_products] *)

Record state := {
  results : list Res.t;
  stats : gmap string nat;
  new_categories : gset category
}.

Definition initial_stats : gmap string nat :=
  <["auto_full" := 0%nat]> (<["auto_subgroup" := 0%nat]>
  (<["new_category" := 0%nat]> (<["skipped" := 0%nat]>
  (<["unknown" := 0%nat]> ∅)))).

Definition initial : state :=
  {| results := []; stats := initial_stats; new_categories := ∅ |}.

(** [stats[k] += 1; results.append(r)] *)
Definition count_and_append (k : string) (r : Res.t) (st : state) : M state :=
  d ← incr k (stats st);
  mret {| results := results st ++ [r];
          stats := d;
          new_categories := new_categories st |}.

(** [new_categories.add(c)] *)
Definition add_category (c : category) (st : state) : state :=
  {| results := results st;
     stats := stats st;
     new_categories := {[c]} ∪ new_categories st |}.

(** ** Rows and taxonomies to run the engine on *)

Module Sample.

Definition entry (dept grp sub : string) : Tax.entry :=
  {| Tax.domain_id := VInt 1; Tax.domain_name := Some (u "Food");
     Tax.dept_id := VInt 10; Tax.dept_name := Some (u dept);
     Tax.grp_id := VInt 100; Tax.grp_name := Some (u grp);
     Tax.sub_id := VInt 1000; Tax.sub_name := Some (u sub) |}.

Definition product (id : Z) (name dept group : cell) : Row.t :=
  {| Row.item_id := VInt id; Row.item_name := name;
     Row.domain := None; Row.dept := dept; Row.group := group;
     Row.subgroup := None;
     Row.supplier_id := VInt 7; Row.supplier_name := VStr (u "Supplier") |}.

Definition bakery : list Tax.entry := [entry "Bakery" "Loaves" "Bread"].

Definition fruit : list Tax.entry :=
  [entry "Fruit" "Apples" "Red Apples"; entry "Fruit" "Apples" "green pears"].

Definition apples : list Tax.entry :=
  [entry "Fruit" "Apples" "Red Apples";
   entry "Fruit" "Apples" "Green Apples"].

(** The first rule of [RULES] with the new-category marker, and the rule
    for peanuts. *)
Definition judaica : category :=
  (u "NF", u "יודאיקה *חדש*", u "ציצית וטלית *חדש*", u "פתילים וציצית *חדש*").

Definition peanuts : category :=
  (u "פירות וירקות", u "פיצוחים", u "בוטנים *חדש*", u "בוטנים *חדש*").

Definition costumes : category :=
  (u "NF", u "חגים", u "פורים", u "תחפושות ואביזרים").

End Sample.

(** ** Vocabulary of the statements *)

(** [p] occurs in [s]. *)
Definition substring (p s : pystr) : Prop := ∃ l r, s = l ++ p ++ r.

(** The name of the row contains the skip sentinel. *)
Definition has_sentinel (row : Row.t) : Prop :=
  ∃ name, Row.item_name row = Some name ∧ substring skip_sentinel name.

(** The result that carries the identifying columns of [row] along. *)
Definition carry (row : Row.t) (domain dept group subgroup : cell)
    (status : Status) : Res.t :=
  {| Res.item_id := Row.item_id row; Res.item_name := Row.item_name row;
     Res.domain := domain; Res.dept := dept; Res.group := group;
     Res.subgroup := subgroup;
     Res.supplier_id := Row.supplier_id row;
     Res.supplier_name := Row.supplier_name row;
     Res.status := status |}.

(** The identifying columns of the row are those of the result. *)
Definition same_item (row : Row.t) (r : Res.t) : Prop :=
  Res.item_id r = Row.item_id row
  ∧ Res.item_name r = Row.item_name row
  ∧ Res.supplier_id r = Row.supplier_id row
  ∧ Res.supplier_name r = Row.supplier_name row.

(** Some keyword of the rule occurs in [name_lower]. *)
Definition has_keyword (name_lower : pystr) (r : rule) : Prop :=
  ∃ kw, kw ∈ r.1 ∧ substring kw name_lower.

(** The new-category marker occurs in the department, the group or the
    subgroup of the tuple. *)
Definition marked_new (cat : category) : Prop :=
  substring new_marker cat.1.1.2
  ∨ substring new_marker cat.1.2
  ∨ substring new_marker cat.2.

(** The resolved 4-tuple of a result. *)
Definition resolved (r : Res.t) : category :=
  (or_empty (Res.domain r), or_empty (Res.dept r), or_empty (Res.group r),
   or_empty (Res.subgroup r)).

(** The counter the loop increments when it appends a result of status [s]. *)
Definition counted_as (s : Status) : string :=
  match s with
  | Skipped => "skipped"
  | AutoFull => "auto_full"
  | AutoSubgroup => "auto_subgroup"
  | PartialAuto => "auto_subgroup"
  | NewCategory => "new_category"
  | Unknown => "unknown"
  end.

(** Number of results counted under the key [k]. *)
Definition counted (k : string) (rs : list Res.t) : nat :=
  length (List.filter (fun r => bool_decide (counted_as (Res.status r) = k)) rs).

(** Number of results bearing the status [s]. *)
Definition bearing (s : Status) (rs : list Res.t) : nat :=
  length (List.filter (fun r => bool_decide (Res.status r = s)) rs).

(** The tuples of the results of status [NewCategory]. *)
Definition new_tuples (rs : list Res.t) : list category :=
  resolved <$> List.filter (fun r => bool_decide (Res.status r = NewCategory)) rs.

(** The statuses of the results of a run, in order. *)
Definition statuses (out : M (list Res.t * gmap string nat * gset category))
  : list Status :=
  match out with
  | Ok (rs, _, _) => Res.status <$> rs
  | Raise _ => []
  end.

(** The report of the new categories of a run, as [main] lists it. *)
Definition report (out : M (list Res.t * gmap string nat * gset category))
  : list category :=
  match out with
  | Ok (_, _, nc) => sorted nc
  | Raise _ => []
  end.

(** A counter of a run. *)
Definition counter (k : string)
    (out : M (list Res.t * gmap string nat * gset category)) : option nat :=
  match out with
  | Ok (_, d, _) => d !! k
  | Raise _ => None
  end.

(** The counters have the keys they were created with. *)
Definition stats_ok (d : gmap string nat) : Prop := dom d = dom initial_stats.

Section Engine.

(** [str.lower] *)
Variable lower : pystr → pystr.

(** *** 1. [build_lookup] *)

Definition build_lookup (taxonomy : list Tax.entry)
  : gmap (pystr * pystr) (list Tax.entry) * gmap pystr (list Tax.entry) :=
  foldl
    (fun '(by_dept_group, by_dept) t =>
       let dept := strip (or_empty (Tax.dept_name t)) in
       let grp := strip (or_empty (Tax.grp_name t)) in
       let sub := strip (or_empty (Tax.sub_name t)) in
       let by_dept_group' :=
         if truthy (Some dept) && truthy (Some grp) && truthy (Some sub) then
           let k := (lower dept, lower grp) in
           <[k := default [] (by_dept_group !! k) ++ [t]]> by_dept_group
         else by_dept_group in
       let by_dept' :=
         if truthy (Some dept) then
           let k := lower dept in
           <[k := default [] (by_dept !! k) ++ [t]]> by_dept
         else by_dept in
       (by_dept_group', by_dept'))
    (∅, ∅) taxonomy.

(** *** 2. [match_by_keyword] *)

(** The two nested loops over a rule table: the category of the first rule
    one of whose keywords, lower-cased, occurs in [name_lower]. *)
Fixpoint match_rules (rules : list rule) (name_lower : pystr)
  : option category :=
  match rules with
  | [] => None
  | (keywords, cat) :: rest =>
      if existsb (fun kw => contains (lower kw) name_lower) keywords
      then Some cat
      else match_rules rest name_lower
  end.

Definition match_by_keyword (name : cell) : option category :=
  let name_lower := if truthy name then lower (or_empty name) else [] in
  match_rules RULES name_lower.

(** *** 3. [find_subgroup] *)

(** The rows kept by the comprehension of [find_subgroup]. *)
Definition group_matches (dept_name group_name : cell)
    (taxonomy : list Tax.entry) : list Tax.entry :=
  List.filter
    (fun t => eq_cell (strip (or_empty (Tax.dept_name t))) dept_name
              && eq_cell (strip (or_empty (Tax.grp_name t))) group_name
              && truthy (Tax.sub_name t))
    taxonomy.

(** [any(w in name_lower for w in words if len(w) > 2)] *)
Definition word_in_name (name_lower : pystr) (m : Tax.entry) : bool :=
  let sub_lower := lower (or_empty (Tax.sub_name m)) in
  let words := split sub_lower in
  existsb (fun w => contains w name_lower)
          (List.filter (fun w => (2 <? length w)%nat) words).

(** The loop over several matches: the first one a word of which is in the
    name. *)
Fixpoint first_by_words (name_lower : pystr) (ms : list Tax.entry)
  : option Tax.entry :=
  match ms with
  | [] => None
  | m :: ms' =>
      if word_in_name name_lower m then Some m
      else first_by_words name_lower ms'
  end.

Definition find_subgroup (dept_name group_name product_name : cell)
    (taxonomy : list Tax.entry) : M cell :=
  let matches := group_matches dept_name group_name taxonomy in
  if bool_decide (matches = []) then mret None
  else if (length matches =? 1)%nat then
    m ← first matches; mret (Tax.sub_name m)
  else
    let name_lower := lower (or_empty product_name) in
    match first_by_words name_lower matches with
    | Some m => mret (Tax.sub_name m)
    | None => m ← first matches; mret (Tax.sub_name m)
    end.

(** *** 4. [classify_products] *)

(** The rows kept by the comprehension of case 4. *)
Definition dept_matches (dept : cell) (taxonomy : list Tax.entry)
  : list Tax.entry :=
  List.filter
    (fun t => eq_cell (strip (or_empty (Tax.dept_name t))) dept
              && truthy (Tax.sub_name t))
    taxonomy.

(** ["*חדש*" in " ".join([new_dept, new_group, new_sub])] *)
Definition has_new_marker (cat : category) : bool :=
  let '(_, new_dept, new_group, new_sub) := cat in
  contains new_marker (join (u " ") [new_dept; new_group; new_sub]).

(** The body of the loop, on one row.  The local definitions are the parts
    of the body a row falls through to, last part first. *)
Definition loop_body (taxonomy : list Tax.entry)
    (row : Row.t) (st : state) : M state :=
  let item_id := Row.item_id row in
  let item_name := Row.item_name row in
  let domain := Row.domain row in
  let dept := Row.dept row in
  let group := Row.group row in
  let supplier_id := Row.supplier_id row in
  let supplier_name := Row.supplier_name row in
  let unknown :=
    count_and_append "unknown"
      {| Res.item_id := item_id; Res.item_name := item_name;
         Res.domain := py_or domain (Some unknown_domain);
         Res.dept := py_or dept (Some needs_review);
         Res.group := py_or group (Some needs_review);
         Res.subgroup := Some manual_review;
         Res.supplier_id := supplier_id;
         Res.supplier_name := supplier_name;
         Res.status := Unknown |} st in
  let case4 :=
    if truthy dept && negb (truthy group) then
      let dept_matches := dept_matches dept taxonomy in
      if negb (bool_decide (dept_matches = [])) then
        t ← first dept_matches;
        sub ← add_str (Tax.sub_name t) review_suffix;
        count_and_append "auto_subgroup"
          {| Res.item_id := item_id; Res.item_name := item_name;
             Res.domain := py_or domain (Tax.domain_name t);
             Res.dept := dept;
             Res.group := Tax.grp_name t;
             Res.subgroup := sub;
             Res.supplier_id := supplier_id;
             Res.supplier_name := supplier_name;
             Res.status := PartialAuto |} st
      else unknown
    else unknown in
  let case23 :=
    match match_by_keyword item_name with
    | Some (new_domain, new_dept, new_group, new_sub) =>
        let is_new := has_new_marker (new_domain, new_dept, new_group, new_sub) in
        let r status :=
          {| Res.item_id := item_id; Res.item_name := item_name;
             Res.domain := Some new_domain; Res.dept := Some new_dept;
             Res.group := Some new_group; Res.subgroup := Some new_sub;
             Res.supplier_id := supplier_id;
             Res.supplier_name := supplier_name;
             Res.status := status |} in
        if is_new then
          count_and_append "new_category" (r NewCategory)
            (add_category (new_domain, new_dept, new_group, new_sub) st)
        else
          count_and_append "auto_full" (r AutoFull) st
    | None => case4
    end in
  if truthy item_name && contains skip_sentinel (str item_name) then
    count_and_append "skipped"
      {| Res.item_id := item_id; Res.item_name := item_name;
         Res.domain := domain; Res.dept := dept; Res.group := group;
         Res.subgroup := Some skipped_subgroup;
         Res.supplier_id := supplier_id;
         Res.supplier_name := supplier_name;
         Res.status := Skipped |} st
  else if truthy dept && truthy group then
    found_sub ← find_subgroup dept group item_name taxonomy;
    if truthy found_sub then
      count_and_append "auto_subgroup"
        {| Res.item_id := item_id; Res.item_name := item_name;
           Res.domain := domain; Res.dept := dept; Res.group := group;
           Res.subgroup := found_sub;
           Res.supplier_id := supplier_id;
           Res.supplier_name := supplier_name;
           Res.status := AutoSubgroup |} st
    else case23
  else case23.

(** The [for] loop. *)
Fixpoint loop (taxonomy : list Tax.entry) (rows : list Row.t) (st : state)
  : M state :=
  match rows with
  | [] => mret st
  | row :: rest =>
      st' ← loop_body taxonomy row st;
      loop taxonomy rest st'
  end.

Definition classify_products (taxonomy : list Tax.entry)
    (products_ws : list Row.t)
  : M (list Res.t * gmap string nat * gset category) :=
  st ← loop taxonomy products_ws initial;
  mret (results st, stats st, new_categories st).

(** *** Vocabulary of the statements *)

(** The lower-cased name [match_by_keyword] searches. *)
Definition lower_name (name : cell) : pystr :=
  if truthy name then lower (or_empty name) else [].

(** Some keyword of the rule occurs in [name_lower]. *)
Definition keyword_in (name_lower : pystr) (r : rule) : bool :=
  existsb (fun kw => contains kw name_lower) r.1.

(** The skip check of the loop. *)
Definition is_skipped (row : Row.t) : bool :=
  truthy (Row.item_name row)
  && contains skip_sentinel (str (Row.item_name row)).

(** The subgroup step of the loop appends the result of the row. *)
Definition resolved_by_subgroup (taxonomy : list Tax.entry) (row : Row.t)
  : bool :=
  truthy (Row.dept row) && truthy (Row.group row)
  && match find_subgroup (Row.dept row) (Row.group row)
             (Row.item_name row) taxonomy with
     | Ok found_sub => truthy found_sub
     | Raise _ => false
     end.

(** The body of the loop on one row alone. *)
Definition verdict (taxonomy : list Tax.entry) (row : Row.t) : M state :=
  loop_body taxonomy row initial.

(** [r] is the result the engine gives for [row]. *)
Definition is_verdict (taxonomy : list Tax.entry) (row : Row.t) (r : Res.t)
  : Prop :=
  ∃ d nc, verdict taxonomy row
          = Ok {| results := [r]; stats := d; new_categories := nc |}.

(** What the body does to the state, given the result [r] it appends. *)
Definition appends (taxonomy : list Tax.entry) (row : Row.t) (r : Res.t)
  : Prop :=
  ∀ st, loop_body taxonomy row st
        = count_and_append (counted_as (Res.status r)) r
            (if bool_decide (Res.status r = NewCategory)
             then add_category (resolved r) st else st).

(** A word of the lower-cased subgroup name of [m], longer than 2
    characters, occurs in [name_lower]. *)
Definition has_word (name_lower : pystr) (m : Tax.entry) : Prop :=
  ∃ w, w ∈ split (lower (or_empty (Tax.sub_name m)))
       ∧ (2 < length w)%nat ∧ substring w name_lower.

(** A word of the subgroup name, as it is written in the taxonomy, occurs
    in the name: the test of [find_subgroup] without the lower-casing of
    the subgroup name. *)
Definition written_word_in_name (name_lower : pystr) (m : Tax.entry)
  : bool :=
  existsb (fun w => contains w name_lower)
          (List.filter (fun w => (2 <? length w)%nat)
                       (split (or_empty (Tax.sub_name m)))).

(** [find_subgroup] as the specification words it: among several
    candidates, the first one that has a token of its subgroup name, longer
    than 2 characters, in the lower-cased item name. *)
Definition find_subgroup_as_specified (dept_name group_name product_name : cell)
    (taxonomy : list Tax.entry) : cell :=
  match group_matches dept_name group_name taxonomy with
  | [] => None
  | [m] => Tax.sub_name m
  | m :: ms =>
      let name_lower := lower (or_empty product_name) in
      match List.find (written_word_in_name name_lower) (m :: ms) with
      | Some m' => Tax.sub_name m'
      | None => Tax.sub_name m
      end
  end.

End Engine.

(** ** The rest of the program *)

(** *** 1. [load_taxonomy] *)

(** A data row of the taxonomy sheet: nine columns, the last one a count. *)
Module Sheet.
Record t := {
  domain_id : value;
  domain_name : cell;
  dept_id : value;
  dept_name : cell;
  grp_id : value;
  grp_name : cell;
  sub_id : value;
  sub_name : cell;
  count : value
}.
End Sheet.

(** The loop of [load_taxonomy] over the data rows of the active sheet
    ([ws.iter_rows(min_row=2, values_only=True)]): a row whose domain name
    is [None] is passed over, any other row is appended as an entry. *)
Fixpoint load_taxonomy (ws : list Sheet.t) : list Tax.entry :=
  match ws with
  | [] => []
  | row :: rest =>
      match Sheet.domain_name row with
      | None => load_taxonomy rest
      | Some _ =>
          {| Tax.domain_id := Sheet.domain_id row;
             Tax.domain_name := Sheet.domain_name row;
             Tax.dept_id := Sheet.dept_id row;
             Tax.dept_name := Sheet.dept_name row;
             Tax.grp_id := Sheet.grp_id row;
             Tax.grp_name := Sheet.grp_name row;
             Tax.sub_id := Sheet.sub_id row;
             Tax.sub_name := Sheet.sub_name row |}
          :: load_taxonomy rest
      end
  end.

(** *** 5. [write_output]: what is written for a result *)

Definition STATUS_COLORS : gmap string string :=
  list_to_map
    [("auto_full", "C6EFCE"); ("auto_subgroup", "DDEBF7");
     ("new_category", "FFEB9C"); ("partial_auto", "FCE4D6");
     ("unknown", "FFCCCC"); ("skipped", "D9D9D9")]%string.

Definition STATUS_LABELS : gmap string pystr :=
  list_to_map
    [("auto_full"%string, u "סווג אוטומטי");
     ("auto_subgroup"%string, u "קבוצת משנה אוטומטית");
     ("new_category"%string, u "קטגוריה חדשה נדרשת");
     ("partial_auto"%string, u "לבדיקה - חלקי");
     ("unknown"%string, u "לבדיקה ידנית");
     ("skipped"%string, u "פריט לא קיים")].

(** The status string of a result, as a Python string. *)
Definition status_str (s : Status) : pystr := u (status_key s).

(** [STATUS_LABELS.get(r["status"], r["status"])] *)
Definition status_label (s : Status) : pystr :=
  default (status_str s) (STATUS_LABELS !! status_key s).

(** [STATUS_COLORS.get(r["status"], "FFFFFF")] *)
Definition status_color (s : Status) : string :=
  default "FFFFFF"%string (STATUS_COLORS !! status_key s).

(** A cell of the output sheet. *)
Definition of_cell (c : cell) : value :=
  match c with
  | Some s => VStr s
  | None => VNone
  end.

Definition headers : list pystr :=
  [u "פריט"; u "שם פריט"; u "תאור מחלקת על"; u "שם מחלקה";
   u "שם קבוצה"; u "שם קבוצת משנה"; u "ספק"; u "שם ספק"; u "סטטוס"].

(** [row_data] of the loop of [write_output]. *)
Definition row_data (r : Res.t) : list value :=
  [Res.item_id r; of_cell (Res.item_name r);
   of_cell (Res.domain r); of_cell (Res.dept r); of_cell (Res.group r);
   of_cell (Res.subgroup r);
   Res.supplier_id r; Res.supplier_name r;
   VStr (status_label (Res.status r))].

(** The rows appended to the sheet, each with the colour its nine cells are
    filled with; the first one is the header row, filled with the header
    colour. *)
Definition written_rows (results : list Res.t) : list (list value * string) :=
  (VStr <$> headers, "4472C4"%string)
  :: ((fun r => (row_data r, status_color (Res.status r))) <$> results).

(** *** 6. [main]: the total of the summary *)

(** [sum(stats.values())] *)
Definition stats_total (stats : gmap string nat) : nat :=
  map_fold (fun _ v acc => (v + acc)%nat) 0%nat stats.

(** ** Vocabulary of the further statements *)

(** [t] is the entry made of the row [row]. *)
Definition entry_of (row : Sheet.t) : Tax.entry :=
  {| Tax.domain_id := Sheet.domain_id row;
     Tax.domain_name := Sheet.domain_name row;
     Tax.dept_id := Sheet.dept_id row;
     Tax.dept_name := Sheet.dept_name row;
     Tax.grp_id := Sheet.grp_id row;
     Tax.grp_name := Sheet.grp_name row;
     Tax.sub_id := Sheet.sub_id row;
     Tax.sub_name := Sheet.sub_name row |}.

(** The trimmed department, group and subgroup names of an entry. *)
Definition dept_of (t : Tax.entry) : pystr := strip (or_empty (Tax.dept_name t)).
Definition grp_of (t : Tax.entry) : pystr := strip (or_empty (Tax.grp_name t)).
Definition sub_of (t : Tax.entry) : pystr := strip (or_empty (Tax.sub_name t)).

(** The row has a department and a group, and the taxonomy has a candidate
    for them. *)
Definition has_candidates (taxonomy : list Tax.entry) (row : Row.t) : Prop :=
  truthy (Row.dept row) = true ∧ truthy (Row.group row) = true
  ∧ group_matches (Row.dept row) (Row.group row) taxonomy ≠ [].

(** Two rows with the same name, department and group. *)
Definition same_request (row row' : Row.t) : Prop :=
  Row.item_name row = Row.item_name row'
  ∧ Row.dept row = Row.dept row'
  ∧ Row.group row = Row.group row'.

(** All the characters of [s] are white space. *)
Definition blank (s : pystr) : Prop := Forall (fun c => isspace c = true) s.

(** The entry [t] with white space added around its department and group
    names. *)
Definition padded (l1 r1 l2 r2 : pystr) (t : Tax.entry) : Tax.entry :=
  {| Tax.domain_id := Tax.domain_id t;
     Tax.domain_name := Tax.domain_name t;
     Tax.dept_id := Tax.dept_id t;
     Tax.dept_name := Some (l1 ++ or_empty (Tax.dept_name t) ++ r1);
     Tax.grp_id := Tax.grp_id t;
     Tax.grp_name := Some (l2 ++ or_empty (Tax.grp_name t) ++ r2);
     Tax.sub_id := Tax.sub_id t;
     Tax.sub_name := Tax.sub_name t |}.

(** The keywords of [RULES] that contain a keyword of an earlier rule of
    another category. *)
Definition shadowed_keywords : list pystr :=
  [u "פילה ארוז"; u "פילה בקר"; u "הודו טחון"; u "כבל טעינה"; u "מגרד לשון"].

(** The rule table lists [kw] for the category [cat]. *)
Definition listed (kw : pystr) (cat : category) : Prop :=
  ∃ r : rule, r ∈ RULES ∧ kw ∈ r.1 ∧ r.2 = cat.

(** A keyword of the rule at position [j] occurs in [kw], and no rule up to
    [j] has the category of a rule that lists [kw]. *)
Definition shadowed_at (kw : pystr) (j : nat) : bool :=
  match RULES !! j with
  | Some rj =>
      existsb (fun kw' => contains kw' kw) rj.1
      && forallb
           (fun r : rule =>
              negb (bool_decide (kw ∈ r.1))
              || forallb (fun r' : rule => negb (bool_decide (r'.2 = r.2)))
                   (take (S j) RULES))
           RULES
  | None => false
  end.

Section Further.

Variable lower : pystr → pystr.

(** The result the body of the loop appends for a row, read off the run
    of the body on that row alone. *)
Definition result_of (taxonomy : list Tax.entry) (row : Row.t)
  : option Res.t :=
  match verdict lower taxonomy row with
  | Ok st => head (results st)
  | Raise _ => None
  end.

(** The entry is filed under the key [k] of the index by department and
    group. *)
Definition filed_under_group (k : pystr * pystr) (t : Tax.entry) : Prop :=
  dept_of t ≠ [] ∧ grp_of t ≠ [] ∧ sub_of t ≠ []
  ∧ (lower (dept_of t), lower (grp_of t)) = k.

(** The entry is filed under the key [k] of the index by department. *)
Definition filed_under_dept (k : pystr) (t : Tax.entry) : Prop :=
  dept_of t ≠ [] ∧ lower (dept_of t) = k.

#[global] Instance filed_under_group_dec k t :
  Decision (filed_under_group k t).
Proof. unfold filed_under_group. apply _. Defined.

#[global] Instance filed_under_dept_dec k t :
  Decision (filed_under_dept k t).
Proof. unfold filed_under_dept. apply _. Defined.

(** What a lookup in an index returns for the entries a key selects. *)
Definition bucket (l : list Tax.entry) : option (list Tax.entry) :=
  match l with
  | [] => None
  | _ => Some l
  end.

(** The status the cascade gives a row, from its five tests. *)
Definition status_of (taxonomy : list Tax.entry) (row : Row.t) : Status :=
  if is_skipped row then Skipped
  else if resolved_by_subgroup lower taxonomy row then AutoSubgroup
  else match match_by_keyword lower (Row.item_name row) with
       | Some cat => if has_new_marker cat then NewCategory else AutoFull
       | None =>
           if truthy (Row.dept row) && negb (truthy (Row.group row))
              && negb (bool_decide
                         (dept_matches (Row.dept row) taxonomy = []))
           then PartialAuto else Unknown
       end.

(** The result of the cascade as a function of the row alone; the loop is
    shown to append it ([appends_result_for]). *)
Definition result_for (taxonomy : list Tax.entry) (row : Row.t) : Res.t :=
  let unknown :=
    carry row (py_or (Row.domain row) (Some unknown_domain))
      (py_or (Row.dept row) (Some needs_review))
      (py_or (Row.group row) (Some needs_review))
      (Some manual_review) Unknown in
  if is_skipped row then
    carry row (Row.domain row) (Row.dept row) (Row.group row)
      (Some skipped_subgroup) Skipped
  else if resolved_by_subgroup lower taxonomy row then
    carry row (Row.domain row) (Row.dept row) (Row.group row)
      match find_subgroup lower (Row.dept row) (Row.group row)
              (Row.item_name row) taxonomy with
      | Ok found_sub => found_sub
      | Raise _ => None
      end
      AutoSubgroup
  else
    match match_by_keyword lower (Row.item_name row) with
    | Some cat =>
        carry row (Some cat.1.1.1) (Some cat.1.1.2) (Some cat.1.2)
          (Some cat.2)
          (if has_new_marker cat then NewCategory else AutoFull)
    | None =>
        if truthy (Row.dept row) && negb (truthy (Row.group row)) then
          match dept_matches (Row.dept row) taxonomy with
          | t :: _ =>
              carry row (py_or (Row.domain row) (Tax.domain_name t))
                (Row.dept row) (Tax.grp_name t)
                (Some (or_empty (Tax.sub_name t) ++ review_suffix))
                PartialAuto
          | [] => unknown
          end
        else unknown
    end.

End Further.

(** ** The engine on the cells of a worksheet *)

(** [iter_rows(values_only=True)] gives the cells of a row as they are in
    the sheet: [None], a number or a string, in any column.  The records
    below hold such cells, and the functions of the module [Raw] are the
    functions of the source on them: [.lower()] and [.strip()] are methods
    of [str] and raise [AttributeError] on a number, [+] with a string
    raises [TypeError] on a number, [==] between a string and a number is
    false and a number is true unless it is zero.  Numbers are integers
    here: under each of these operations a float, a boolean or a date
    behaves as an integer does (as zero when it is false), and its text has
    no Hebrew letter either. *)

(** A row of the taxonomy, as [load_taxonomy] builds it from the cells. *)
Module RawTax.
Record entry := {
  domain_id : value;
  domain_name : value;
  dept_id : value;
  dept_name : value;
  grp_id : value;
  grp_name : value;
  sub_id : value;
  sub_name : value
}.
End RawTax.

(** A data row of the products sheet. *)
Module RawRow.
Record t := {
  item_id : value;
  item_name : value;
  domain : value;
  dept : value;
  group : value;
  subgroup : value;
  supplier_id : value;
  supplier_name : value
}.
End RawRow.

(** An element of [results]. *)
Module RawRes.
Record t := {
  item_id : value;
  item_name : value;
  domain : value;
  dept : value;
  group : value;
  subgroup : value;
  supplier_id : value;
  supplier_name : value;
  status : Status
}.
End RawRes.

Module Raw.

(** [bool(v)] *)
Definition truthy (v : value) : bool :=
  match v with
  | VNone => false
  | VInt z => negb (z =? 0)%Z
  | VStr [] => false
  | VStr (_ :: _) => true
  end.

(** [a or b] *)
Definition py_or (a b : value) : value := if truthy a then a else b.

(** The decimal digits of a number, as code points. *)
Fixpoint digits (d : Decimal.uint) : pystr :=
  match d with
  | Decimal.Nil => []
  | Decimal.D0 d' => 48 :: digits d'
  | Decimal.D1 d' => 49 :: digits d'
  | Decimal.D2 d' => 50 :: digits d'
  | Decimal.D3 d' => 51 :: digits d'
  | Decimal.D4 d' => 52 :: digits d'
  | Decimal.D5 d' => 53 :: digits d'
  | Decimal.D6 d' => 54 :: digits d'
  | Decimal.D7 d' => 55 :: digits d'
  | Decimal.D8 d' => 56 :: digits d'
  | Decimal.D9 d' => 57 :: digits d'
  end.

(** [str(v)] *)
Definition str (v : value) : pystr :=
  match v with
  | VNone => u "None"
  | VInt z =>
      match Z.to_int z with
      | Decimal.Pos d => digits d
      | Decimal.Neg d => 45 :: digits d
      end
  | VStr s => s
  end.

(** [s == v] for a string [s] *)
Definition eq_str (s : pystr) (v : value) : bool :=
  match v with
  | VStr s' => str_eqb s s'
  | _ => false
  end.

(** [v.strip()] *)
Definition strip_of (v : value) : M pystr :=
  match v with
  | VStr s => Ok (strip s)
  | _ => Raise AttributeError
  end.

(** [v + s] for a string [s] *)
Definition add_str (v : value) (s : pystr) : M value :=
  match v with
  | VStr x => Ok (VStr (x ++ s))
  | _ => Raise TypeError
  end.

(** [[x for x in l if f(x)]], the test [f(x)] possibly raising. *)
Fixpoint filterM {A} (f : A → M bool) (l : list A) : M (list A) :=
  match l with
  | [] => mret []
  | x :: l' =>
      f x ≫= fun b : bool =>
      rest ← filterM f l';
      mret (if b then x :: rest else rest)
  end.

Record state := {
  results : list RawRes.t;
  stats : gmap string nat;
  new_categories : gset category
}.

Definition initial : state :=
  {| results := []; stats := initial_stats; new_categories := ∅ |}.

(** [stats[k] += 1; results.append(r)] *)
Definition count_and_append (k : string) (r : RawRes.t) (st : state)
  : M state :=
  d ← incr k (stats st);
  mret {| results := results st ++ [r];
          stats := d;
          new_categories := new_categories st |}.

(** [new_categories.add(c)] *)
Definition add_category (c : category) (st : state) : state :=
  {| results := results st;
     stats := stats st;
     new_categories := {[c]} ∪ new_categories st |}.

Section Cells.

(** [str.lower] *)
Variable lower : pystr → pystr.

(** [v.lower()] *)
Definition lower_of (v : value) : M pystr :=
  match v with
  | VStr s => Ok (lower s)
  | _ => Raise AttributeError
  end.

(** *** 2. [match_by_keyword] *)

Definition match_by_keyword (name : value) : M (option category) :=
  name_lower ← (if truthy name then lower_of name else mret []);
  mret (match_rules lower RULES name_lower).

(** *** 3. [find_subgroup] *)

(** The test of the comprehension of [find_subgroup]; [and] does not
    evaluate its right operand when the left one is false. *)
Definition group_test (dept_name group_name : value) (t : RawTax.entry)
  : M bool :=
  dept ← strip_of (py_or (RawTax.dept_name t) (VStr []));
  if eq_str dept dept_name then
    grp ← strip_of (py_or (RawTax.grp_name t) (VStr []));
    if eq_str grp group_name then mret (truthy (RawTax.sub_name t))
    else mret false
  else mret false.

(** [any(w in name_lower for w in words if len(w) > 2)] *)
Definition word_in_name (name_lower : pystr) (m : RawTax.entry) : M bool :=
  sub_lower ← lower_of (py_or (RawTax.sub_name m) (VStr []));
  let words := split sub_lower in
  mret (existsb (fun w => contains w name_lower)
          (List.filter (fun w => (2 <? length w)%nat) words)).

(** The loop over several matches. *)
Fixpoint first_by_words (name_lower : pystr) (ms : list RawTax.entry)
  : M (option RawTax.entry) :=
  match ms with
  | [] => mret None
  | m :: ms' =>
      word_in_name name_lower m ≫= fun b : bool =>
      if b then mret (Some m) else first_by_words name_lower ms'
  end.

Definition find_subgroup (dept_name group_name product_name : value)
    (taxonomy : list RawTax.entry) : M value :=
  matches ← filterM (group_test dept_name group_name) taxonomy;
  if bool_decide (matches = []) then mret VNone
  else if (length matches =? 1)%nat then
    m ← first matches; mret (RawTax.sub_name m)
  else
    name_lower ← lower_of (py_or product_name (VStr []));
    found ← first_by_words name_lower matches;
    match found with
    | Some m => mret (RawTax.sub_name m)
    | None => m ← first matches; mret (RawTax.sub_name m)
    end.

(** *** 4. [classify_products] *)

(** The test of the comprehension of case 4. *)
Definition dept_test (dept : value) (t : RawTax.entry) : M bool :=
  d ← strip_of (py_or (RawTax.dept_name t) (VStr []));
  mret (eq_str d dept && truthy (RawTax.sub_name t)).

(** The body of the loop, on one row.  The local definitions are the parts
    of the body a row falls through to, last part first.  In case 4 the
    counter is incremented before the result is built, as in the source. *)
Definition loop_body (taxonomy : list RawTax.entry)
    (row : RawRow.t) (st : state) : M state :=
  let item_id := RawRow.item_id row in
  let item_name := RawRow.item_name row in
  let domain := RawRow.domain row in
  let dept := RawRow.dept row in
  let group := RawRow.group row in
  let supplier_id := RawRow.supplier_id row in
  let supplier_name := RawRow.supplier_name row in
  let unknown :=
    count_and_append "unknown"
      {| RawRes.item_id := item_id; RawRes.item_name := item_name;
         RawRes.domain := py_or domain (VStr unknown_domain);
         RawRes.dept := py_or dept (VStr needs_review);
         RawRes.group := py_or group (VStr needs_review);
         RawRes.subgroup := VStr manual_review;
         RawRes.supplier_id := supplier_id;
         RawRes.supplier_name := supplier_name;
         RawRes.status := Unknown |} st in
  let case4 :=
    if truthy dept && negb (truthy group) then
      dept_matches ← filterM (dept_test dept) taxonomy;
      if negb (bool_decide (dept_matches = [])) then
        t ← first dept_matches;
        d ← incr "auto_subgroup" (stats st);
        sub ← add_str (RawTax.sub_name t) review_suffix;
        mret {| results :=
                  results st
                  ++ [{| RawRes.item_id := item_id;
                         RawRes.item_name := item_name;
                         RawRes.domain := py_or domain (RawTax.domain_name t);
                         RawRes.dept := dept;
                         RawRes.group := RawTax.grp_name t;
                         RawRes.subgroup := sub;
                         RawRes.supplier_id := supplier_id;
                         RawRes.supplier_name := supplier_name;
                         RawRes.status := PartialAuto |}];
                stats := d;
                new_categories := new_categories st |}
      else unknown
    else unknown in
  let case23 :=
    kw_result ← match_by_keyword item_name;
    match kw_result with
    | Some (new_domain, new_dept, new_group, new_sub) =>
        let is_new :=
          has_new_marker (new_domain, new_dept, new_group, new_sub) in
        let r status :=
          {| RawRes.item_id := item_id; RawRes.item_name := item_name;
             RawRes.domain := VStr new_domain; RawRes.dept := VStr new_dept;
             RawRes.group := VStr new_group; RawRes.subgroup := VStr new_sub;
             RawRes.supplier_id := supplier_id;
             RawRes.supplier_name := supplier_name;
             RawRes.status := status |} in
        if is_new then
          count_and_append "new_category" (r NewCategory)
            (add_category (new_domain, new_dept, new_group, new_sub) st)
        else
          count_and_append "auto_full" (r AutoFull) st
    | None => case4
    end in
  if truthy item_name && contains skip_sentinel (str item_name) then
    count_and_append "skipped"
      {| RawRes.item_id := item_id; RawRes.item_name := item_name;
         RawRes.domain := domain; RawRes.dept := dept; RawRes.group := group;
         RawRes.subgroup := VStr skipped_subgroup;
         RawRes.supplier_id := supplier_id;
         RawRes.supplier_name := supplier_name;
         RawRes.status := Skipped |} st
  else if truthy dept && truthy group then
    found_sub ← find_subgroup dept group item_name taxonomy;
    if truthy found_sub then
      count_and_append "auto_subgroup"
        {| RawRes.item_id := item_id; RawRes.item_name := item_name;
           RawRes.domain := domain; RawRes.dept := dept;
           RawRes.group := group;
           RawRes.subgroup := found_sub;
           RawRes.supplier_id := supplier_id;
           RawRes.supplier_name := supplier_name;
           RawRes.status := AutoSubgroup |} st
    else case23
  else case23.

(** The [for] loop. *)
Fixpoint loop (taxonomy : list RawTax.entry) (rows : list RawRow.t)
    (st : state) : M state :=
  match rows with
  | [] => mret st
  | row :: rest =>
      st' ← loop_body taxonomy row st;
      loop taxonomy rest st'
  end.

Definition classify_products (taxonomy : list RawTax.entry)
    (products_ws : list RawRow.t)
  : M (list RawRes.t * gmap string nat * gset category) :=
  st ← loop taxonomy products_ws initial;
  mret (results st, stats st, new_categories st).

End Cells.

(** *** Sheets whose text columns hold text *)

(** The cell is empty or holds a string. *)
Definition text (v : value) : Prop :=
  match v with
  | VInt _ => False
  | _ => True
  end.

(** A taxonomy entry and a product row whose text columns hold text. *)
Definition text_entry (t : RawTax.entry) : Prop :=
  text (RawTax.domain_name t) ∧ text (RawTax.dept_name t)
  ∧ text (RawTax.grp_name t) ∧ text (RawTax.sub_name t).

Definition text_row (row : RawRow.t) : Prop :=
  text (RawRow.item_name row) ∧ text (RawRow.domain row)
  ∧ text (RawRow.dept row) ∧ text (RawRow.group row)
  ∧ text (RawRow.subgroup row).

(** The results of a run, and the exception it ends with. *)
Definition results_of
    (out : M (list RawRes.t * gmap string nat * gset category))
  : list RawRes.t :=
  match out with
  | Ok (rs, _, _) => rs
  | Raise _ => []
  end.

Definition raised
    (out : M (list RawRes.t * gmap string nat * gset category))
  : option exn :=
  match out with
  | Ok _ => None
  | Raise e => Some e
  end.

End Raw.

(** The rows, entries and results of the first part, as cells. *)
Definition of_entry (t : Tax.entry) : RawTax.entry :=
  {| RawTax.domain_id := Tax.domain_id t;
     RawTax.domain_name := of_cell (Tax.domain_name t);
     RawTax.dept_id := Tax.dept_id t;
     RawTax.dept_name := of_cell (Tax.dept_name t);
     RawTax.grp_id := Tax.grp_id t;
     RawTax.grp_name := of_cell (Tax.grp_name t);
     RawTax.sub_id := Tax.sub_id t;
     RawTax.sub_name := of_cell (Tax.sub_name t) |}.

Definition of_row (row : Row.t) : RawRow.t :=
  {| RawRow.item_id := Row.item_id row;
     RawRow.item_name := of_cell (Row.item_name row);
     RawRow.domain := of_cell (Row.domain row);
     RawRow.dept := of_cell (Row.dept row);
     RawRow.group := of_cell (Row.group row);
     RawRow.subgroup := of_cell (Row.subgroup row);
     RawRow.supplier_id := Row.supplier_id row;
     RawRow.supplier_name := Row.supplier_name row |}.

Definition of_res (r : Res.t) : RawRes.t :=
  {| RawRes.item_id := Res.item_id r;
     RawRes.item_name := of_cell (Res.item_name r);
     RawRes.domain := of_cell (Res.domain r);
     RawRes.dept := of_cell (Res.dept r);
     RawRes.group := of_cell (Res.group r);
     RawRes.subgroup := of_cell (Res.subgroup r);
     RawRes.supplier_id := Res.supplier_id r;
     RawRes.supplier_name := Res.supplier_name r;
     RawRes.status := Res.status r |}.

Definition of_state (st : state) : Raw.state :=
  {| Raw.results := of_res <$> results st;
     Raw.stats := stats st;
     Raw.new_categories := new_categories st |}.

(** The outcome of a run of the first part, as cells. *)
Definition of_outcome
    (out : list Res.t * gmap string nat * gset category)
  : list RawRes.t * gmap string nat * gset category :=
  (of_res <$> out.1.1, out.1.2, out.2).

(** ** Vocabulary of the statements on cells *)

(** The entry is one the department-only fallback keeps for [dept]: its
    trimmed department name is [dept], character for character, and it has
    a subgroup. *)
Definition exactly_under (dept : pystr) (t : Tax.entry) : Prop :=
  dept_of t = dept ∧ truthy (Tax.sub_name t) = true.

(** The identifying columns of the row are those of the result. *)
Definition same_cells (row : RawRow.t) (r : RawRes.t) : Prop :=
  RawRes.item_id r = RawRow.item_id row
  ∧ RawRes.item_name r = RawRow.item_name row
  ∧ RawRes.supplier_id r = RawRow.supplier_id row
  ∧ RawRes.supplier_name r = RawRow.supplier_name row.

(** A taxonomy of two departments, a taxonomy entry that holds numbers
    only, and a product row on cells. *)
Definition pantry : list Tax.entry :=
  [Sample.entry "Dairy" "Milk" "Cream";
   Sample.entry "Bakery" "Loaves" "Bread";
   Sample.entry "Bakery" "Cakes" "Muffins"].

Definition numbered_entry : RawTax.entry :=
  {| RawTax.domain_id := VInt 1; RawTax.domain_name := VInt 2;
     RawTax.dept_id := VInt 10; RawTax.dept_name := VInt 20;
     RawTax.grp_id := VInt 100; RawTax.grp_name := VInt 200;
     RawTax.sub_id := VInt 1000; RawTax.sub_name := VInt 2000 |}.

Definition cells (id : Z) (name dept group : value) : RawRow.t :=
  {| RawRow.item_id := VInt id; RawRow.item_name := name;
     RawRow.domain := VNone; RawRow.dept := dept; RawRow.group := group;
     RawRow.subgroup := VNone;
     RawRow.supplier_id := VInt 7;
     RawRow.supplier_name := VStr (u "Supplier") |}.

(** * Properties *)

(** ** The string operations on small inputs *)

Example utf8_decode_hebrew : u "פריט" = [1508; 1512; 1497; 1496].
Proof. by vm_compute. Qed.

Example strip_inner_spaces : strip (u "  Red   Apples x ") = u "Red   Apples x".
Proof. by vm_compute. Qed.

Example split_runs :
  split (u "  Red   Apples x ") = [u "Red"; u "Apples"; u "x"].
Proof. by vm_compute. Qed.

Example contains_inside :
  contains (u "apple") (u "red apples") = true
  ∧ contains (u "Apple") (u "red apples") = false
  ∧ contains [] (u "red") = true.
Proof. by vm_compute. Qed.

Example str_ltb_prefix :
  str_ltb (u "NF") (u "NFC") = true ∧ str_ltb (u "NF") (u "NF") = false
  ∧ str_ltb (u "b") (u "ab") = false.
Proof. by vm_compute. Qed.

(** ** Substrings *)

Lemma startswith_prefix (p s : pystr) :
  startswith s p = true ↔ ∃ r, s = p ++ r.
Proof.
  revert s. induction p as [|a p IH]; intros s; simpl.
  - split; [by exists s|done].
  - destruct s as [|b s].
    + split; [done|]. intros [r Hr]. discriminate Hr.
    + rewrite andb_true_iff, N.eqb_eq, IH. split.
      * intros [-> [r ->]]. eauto.
      * intros [r Hr]. injection Hr as -> ->. eauto.
Qed.

Lemma contains_substring (p s : pystr) :
  contains p s = true ↔ substring p s.
Proof.
  unfold substring. induction s as [|b s IH]; simpl.
  - rewrite orb_false_r, startswith_prefix. split.
    + intros [r Hr]. exists [], r. done.
    + intros (l & r & Hr). symmetry in Hr.
      apply app_eq_nil in Hr as [-> Hr]. apply app_eq_nil in Hr as [-> ->].
      exists []. done.
  - rewrite orb_true_iff, startswith_prefix, IH. split.
    + intros [[r Hr]|(l & r & Hr)].
      * exists [], r. done.
      * exists (b :: l), r. simpl. by rewrite Hr.
    + intros (l & r & Hr). destruct l as [|c l].
      * left. eauto.
      * right. injection Hr as -> ->. eauto.
Qed.

Lemma contains_refl (s : pystr) : contains s s = true.
Proof.
  apply contains_substring. exists [], []. by rewrite app_nil_r.
Qed.

Lemma startswith_before_sep (sep : N) (p a b : pystr) :
  sep ∉ p → startswith (a ++ sep :: b) p = startswith a p.
Proof.
  revert a. induction p as [|y p IH]; intros a Hsep; [by destruct a|].
  apply not_elem_of_cons in Hsep as [Hy Hp].
  destruct a as [|x a]; simpl.
  - apply andb_false_intro1, N.eqb_neq. congruence.
  - by rewrite IH.
Qed.

Lemma contains_around_sep (sep : N) (p a b : pystr) :
  sep ∉ p →
  contains p (a ++ sep :: b) = contains p a || contains p b.
Proof.
  intros Hsep. induction a as [|x a IH].
  - simpl. destruct p as [|y p]; [by destruct b|].
    apply not_elem_of_cons in Hsep as [Hy _].
    simpl. replace (y =? sep) with false; [done|].
    symmetry. apply N.eqb_neq. congruence.
  - change (contains p ((x :: a) ++ sep :: b))
      with (startswith ((x :: a) ++ sep :: b) p || contains p (a ++ sep :: b)).
    rewrite startswith_before_sep, IH by done.
    simpl. by rewrite orb_assoc.
Qed.

(** ** The order of the report *)

Lemma str_ltb_lexico (a b : pystr) : str_ltb a b = true ↔ lexico a b.
Proof.
  revert b. induction a as [|x a IH]; intros [|y b]; simpl; try done.
  rewrite orb_true_iff, andb_true_iff, N.ltb_lt, N.eqb_eq, IH.
  done.
Qed.

Lemma str_eqb_eq (a b : pystr) : str_eqb a b = true ↔ a = b.
Proof.
  revert b. induction a as [|x a IH]; intros [|y b]; simpl; try done.
  rewrite andb_true_iff, N.eqb_eq, IH. split; [by intros [-> ->]|].
  by intros [= -> ->].
Qed.

Lemma category_ltb_lexico (a b : category) :
  category_ltb a b = true ↔ lexico a b.
Proof.
  destruct a as [[[a1 a2] a3] a4], b as [[[b1 b2] b3] b4].
  unfold category_ltb, lexico, prod_lexico; simpl.
  rewrite !orb_true_iff, !andb_true_iff, !orb_true_iff, !andb_true_iff,
    !orb_true_iff, !andb_true_iff, !str_ltb_lexico, !str_eqb_eq.
  unfold lexico, prod_lexico; simpl.
  naive_solver.
Qed.

Lemma category_le_lexico (a b : category) : category_le a b ↔ ¬ lexico b a.
Proof.
  unfold category_le. rewrite <-category_ltb_lexico.
  by destruct (category_ltb b a).
Qed.

Lemma category_le_total : Total category_le.
Proof.
  intros a b. rewrite !category_le_lexico.
  destruct (trichotomy lexico a b) as [H|[->|H]].
  - left. intros H'. by apply (irreflexivity lexico a); trans b.
  - left. apply irreflexivity, _.
  - right. intros H'. by apply (irreflexivity lexico a); trans b.
Qed.

Lemma category_le_trans : Transitive category_le.
Proof.
  intros a b c. rewrite !category_le_lexico. intros Hba Hcb Hca.
  destruct (trichotomy lexico a b) as [H|[->|H]]; [|done..].
  apply Hcb. by trans a.
Qed.

Lemma category_le_antisym (a b : category) :
  category_le a b → category_le b a → a = b.
Proof.
  rewrite !category_le_lexico. intros Hba Hab.
  by destruct (trichotomy lexico a b) as [H|[->|H]].
Qed.

Lemma sorted_strict (s : gset category) :
  StronglySorted lexico (sorted s).
Proof.
  assert (Hs : StronglySorted category_le (sorted s))
    by apply (StronglySorted_merge_sort _ (Transitive0 := category_le_trans)
      (Total0 := category_le_total)).
  assert (Hn : NoDup (sorted s)).
  { unfold sorted. rewrite merge_sort_Permutation. apply NoDup_elements. }
  induction Hs as [|a l Hs IH Ha]; [constructor|].
  apply NoDup_cons in Hn as [Hal Hn].
  constructor; [by apply IH|].
  apply Forall_forall. intros b Hb.
  rewrite Forall_forall in Ha. specialize (Ha b Hb).
  apply category_le_lexico in Ha.
  destruct (trichotomy lexico a b) as [H|[->|H]]; done.
Qed.

Lemma elem_of_sorted (s : gset category) (c : category) :
  c ∈ sorted s ↔ c ∈ s.
Proof.
  unfold sorted. by rewrite merge_sort_Permutation, elem_of_elements.
Qed.

Lemma NoDup_sorted (s : gset category) : NoDup (sorted s).
Proof.
  unfold sorted. rewrite merge_sort_Permutation. apply NoDup_elements.
Qed.

(** ** The counters *)

Lemma stats_ok_initial : stats_ok initial_stats.
Proof. done. Qed.

Lemma stats_ok_lookup (d : gmap string nat) (k : string) :
  stats_ok d → k ∈ dom initial_stats → ∃ n, d !! k = Some n.
Proof.
  intros Hd Hk. rewrite <-Hd in Hk. apply elem_of_dom in Hk as [n Hn]. eauto.
Qed.

Lemma stats_ok_insert (d : gmap string nat) (k : string) (n : nat) :
  stats_ok d → k ∈ dom initial_stats → stats_ok (<[k := n]> d).
Proof.
  unfold stats_ok. intros Hd Hk. rewrite dom_insert_L, Hd. set_solver.
Qed.

Lemma counted_as_key (s : Status) : counted_as s ∈ dom initial_stats.
Proof. destruct s; vm_compute; done. Qed.

Lemma count_and_append_ok (k : string) (r : Res.t) (st : state) :
  stats_ok (stats st) → k ∈ dom initial_stats →
  ∃ n, stats st !! k = Some n
       ∧ count_and_append k r st
         = Ok {| results := results st ++ [r];
                 stats := <[k := S n]> (stats st);
                 new_categories := new_categories st |}.
Proof.
  intros Hd Hk. destruct (stats_ok_lookup _ _ Hd Hk) as [n Hn].
  exists n. split; [done|].
  unfold count_and_append, incr. by rewrite Hn.
Qed.

Section EngineFacts.

Variable lower : pystr → pystr.

(** ** The keyword matcher *)

Lemma match_rules_find (rules : list rule) (name_lower : pystr) :
  Forall (λ r : rule, Forall (λ kw, lower kw = kw) r.1) rules →
  match_rules lower rules name_lower
  = snd <$> List.find (keyword_in name_lower) rules.
Proof.
  induction 1 as [|[keywords cat] rules Hkw _ IH]; [done|].
  simpl. unfold keyword_in at 1. simpl.
  replace (existsb (λ kw, contains (lower kw) name_lower) keywords)
    with (existsb (λ kw, contains kw name_lower) keywords).
  - destruct (existsb _ keywords); [done|apply IH].
  - simpl in Hkw. induction Hkw as [|kw kws Hk _ IHk]; [done|].
    simpl. by rewrite Hk, IHk.
Qed.

(** ** The subgroup finder *)

Lemma first_by_words_find (name_lower : pystr) (ms : list Tax.entry) :
  first_by_words lower name_lower ms
  = List.find (word_in_name lower name_lower) ms.
Proof.
  induction ms as [|m ms IH]; [done|].
  simpl. by rewrite IH.
Qed.

Lemma first_by_words_elem (name_lower : pystr) (ms : list Tax.entry)
    (m : Tax.entry) :
  first_by_words lower name_lower ms = Some m → m ∈ ms.
Proof.
  induction ms as [|m' ms IH]; [done|].
  simpl. destruct (word_in_name lower name_lower m').
  - intros [= ->]. left.
  - intros H. right. by apply IH.
Qed.

Lemma group_matches_truthy (dept_name group_name : cell)
    (taxonomy : list Tax.entry) (m : Tax.entry) :
  m ∈ group_matches dept_name group_name taxonomy →
  truthy (Tax.sub_name m) = true.
Proof.
  unfold group_matches. rewrite list_elem_of_In, filter_In.
  intros [_ H]. by apply andb_true_iff in H as [_ H].
Qed.

Lemma find_subgroup_cases (dept_name group_name product_name : cell)
    (taxonomy : list Tax.entry) :
  match group_matches dept_name group_name taxonomy with
  | [] =>
      find_subgroup lower dept_name group_name product_name taxonomy
      = Ok None
  | [m] =>
      find_subgroup lower dept_name group_name product_name taxonomy
      = Ok (Tax.sub_name m)
  | m :: ms =>
      find_subgroup lower dept_name group_name product_name taxonomy
      = Ok (Tax.sub_name
              (default m (List.find
                            (word_in_name lower
                               (lower (or_empty product_name)))
                            (m :: ms))))
  end.
Proof.
  unfold find_subgroup.
  destruct (group_matches dept_name group_name taxonomy)
    as [|m [|m' ms]] eqn:Hm; [done..|].
  rewrite first_by_words_find.
  rewrite bool_decide_eq_false_2 by done.
  change (length (m :: m' :: ms) =? 1)%nat with false.
  by destruct (List.find _ _).
Qed.

Lemma find_subgroup_ok (dept_name group_name product_name : cell)
    (taxonomy : list Tax.entry) :
  ∃ found_sub,
    find_subgroup lower dept_name group_name product_name taxonomy
    = Ok found_sub
    ∧ truthy found_sub
      = negb (bool_decide
                (group_matches dept_name group_name taxonomy = [])).
Proof.
  pose proof (find_subgroup_cases dept_name group_name product_name
                taxonomy) as H.
  pose proof (group_matches_truthy dept_name group_name taxonomy) as Ht.
  destruct (group_matches dept_name group_name taxonomy)
    as [|m [|m' ms]] eqn:Hm.
  - eauto.
  - eexists. split; [exact H|]. apply Ht. left.
  - eexists. split; [exact H|].
    destruct (List.find _ _) as [m''|] eqn:Hf; simpl.
    + apply Ht. apply find_some in Hf as [Hf _].
      rewrite list_elem_of_In. exact Hf.
    + apply Ht. left.
Qed.

End EngineFacts.

Section LoopFacts.

Variable lower : pystr → pystr.
Variable taxonomy : list Tax.entry.

(** ** The body of the loop, branch by branch *)

Lemma is_skipped_sentinel (row : Row.t) :
  is_skipped row = true ↔ has_sentinel row.
Proof.
  unfold is_skipped, has_sentinel.
  rewrite andb_true_iff, contains_substring. split.
  - intros [Ht Hs]. destruct (Row.item_name row) as [name|]; [|done].
    eauto.
  - intros (name & -> & Hs). split; [|done].
    destruct name as [|c name]; [|done].
    apply contains_substring in Hs. by vm_compute in Hs.
Qed.

Lemma body_skipped (row : Row.t) (st : state) :
  is_skipped row = true →
  loop_body lower taxonomy row st
  = count_and_append "skipped"
      (carry row (Row.domain row) (Row.dept row) (Row.group row)
         (Some skipped_subgroup) Skipped) st.
Proof.
  unfold is_skipped, loop_body. by intros ->.
Qed.

Lemma body_subgroup (row : Row.t) (st : state) :
  is_skipped row = false →
  resolved_by_subgroup lower taxonomy row = true →
  ∃ found_sub,
    find_subgroup lower (Row.dept row) (Row.group row) (Row.item_name row)
      taxonomy = Ok found_sub
    ∧ truthy found_sub = true
    ∧ loop_body lower taxonomy row st
      = count_and_append "auto_subgroup"
          (carry row (Row.domain row) (Row.dept row) (Row.group row)
             found_sub AutoSubgroup) st.
Proof.
  unfold is_skipped, resolved_by_subgroup, loop_body. intros -> H.
  apply andb_true_iff in H as [-> H].
  destruct (find_subgroup _ _ _ _ _) as [found_sub|]; [|done].
  exists found_sub. simpl. by rewrite H.
Qed.

(** What is left of the body once the skip check and the subgroup step
    have let the row through. *)
Lemma body_falls_through (row : Row.t) (st : state) :
  is_skipped row = false →
  resolved_by_subgroup lower taxonomy row = false →
  loop_body lower taxonomy row st
  = match match_by_keyword lower (Row.item_name row) with
    | Some cat =>
        if has_new_marker cat then
          count_and_append "new_category"
            (carry row (Some cat.1.1.1) (Some cat.1.1.2) (Some cat.1.2)
               (Some cat.2) NewCategory) (add_category cat st)
        else
          count_and_append "auto_full"
            (carry row (Some cat.1.1.1) (Some cat.1.1.2) (Some cat.1.2)
               (Some cat.2) AutoFull) st
    | None =>
        if truthy (Row.dept row) && negb (truthy (Row.group row)) then
          match dept_matches (Row.dept row) taxonomy with
          | t :: _ =>
              count_and_append "auto_subgroup"
                (carry row (py_or (Row.domain row) (Tax.domain_name t))
                   (Row.dept row) (Tax.grp_name t)
                   (Some (or_empty (Tax.sub_name t) ++ review_suffix))
                   PartialAuto) st
          | [] =>
              count_and_append "unknown"
                (carry row (py_or (Row.domain row) (Some unknown_domain))
                   (py_or (Row.dept row) (Some needs_review))
                   (py_or (Row.group row) (Some needs_review))
                   (Some manual_review) Unknown) st
          end
        else
          count_and_append "unknown"
            (carry row (py_or (Row.domain row) (Some unknown_domain))
               (py_or (Row.dept row) (Some needs_review))
               (py_or (Row.group row) (Some needs_review))
               (Some manual_review) Unknown) st
    end.
Proof.
  unfold is_skipped, resolved_by_subgroup. intros Hs Hr.
  assert (Hcase4 :
    ∀ t ts, dept_matches (Row.dept row) taxonomy = t :: ts →
      add_str (Tax.sub_name t) review_suffix
      = Ok (Some (or_empty (Tax.sub_name t) ++ review_suffix))).
  { intros t ts Ht.
    assert (Hin : In t (dept_matches (Row.dept row) taxonomy))
      by (rewrite Ht; by left).
    apply filter_In in Hin as [_ Hin].
    apply andb_true_iff in Hin as [_ Hin].
    by destruct (Tax.sub_name t). }
  unfold loop_body. rewrite Hs.
  destruct (find_subgroup_ok lower (Row.dept row) (Row.group row)
              (Row.item_name row) taxonomy) as (found_sub & Hf & _).
  rewrite Hf in Hr |- *.
  assert (Hgoal : ∀ X : M state,
    (if truthy (Row.dept row) && truthy (Row.group row) then
       found_sub ← Ok found_sub;
       if truthy found_sub
       then count_and_append "auto_subgroup"
              {| Res.item_id := Row.item_id row;
                 Res.item_name := Row.item_name row;
                 Res.domain := Row.domain row; Res.dept := Row.dept row;
                 Res.group := Row.group row; Res.subgroup := found_sub;
                 Res.supplier_id := Row.supplier_id row;
                 Res.supplier_name := Row.supplier_name row;
                 Res.status := AutoSubgroup |} st
       else X
     else X) = X).
  { intros X. destruct (truthy (Row.dept row) && truthy (Row.group row));
      [|done]. simpl in Hr |- *. by rewrite Hr. }
  rewrite Hgoal. clear Hgoal.
  destruct (match_by_keyword lower (Row.item_name row))
    as [[[[new_domain new_dept] new_group] new_sub]|]; [done|].
  destruct (truthy (Row.dept row) && negb (truthy (Row.group row))); [|done].
  destruct (dept_matches (Row.dept row) taxonomy) as [|t ts] eqn:Ht; [done|].
  rewrite bool_decide_eq_false_2 by done. simpl.
  by rewrite (Hcase4 t ts).
Qed.

(** ** The body of the loop, as a whole *)

Lemma body_appends (row : Row.t) :
  ∃ r, same_item row r ∧ appends lower taxonomy row r.
Proof.
  destruct (is_skipped row) eqn:Hs.
  { exists (carry row (Row.domain row) (Row.dept row) (Row.group row)
              (Some skipped_subgroup) Skipped).
    split; [done|]. intros st. by rewrite body_skipped. }
  destruct (resolved_by_subgroup lower taxonomy row) eqn:Hr.
  { destruct (body_subgroup row initial Hs Hr) as (found_sub & Hf & _ & _).
    exists (carry row (Row.domain row) (Row.dept row) (Row.group row)
              found_sub AutoSubgroup).
    split; [done|]. intros st.
    destruct (body_subgroup row st Hs Hr) as (found_sub' & Hf' & _ & ->).
    by replace found_sub' with found_sub by congruence. }
  pose proof (λ st, body_falls_through row st Hs Hr) as Hb.
  destruct (match_by_keyword lower (Row.item_name row))
    as [[[[new_domain new_dept] new_group] new_sub]|].
  { destruct (has_new_marker _).
    - exists (carry row (Some new_domain) (Some new_dept) (Some new_group)
                (Some new_sub) NewCategory).
      split; [done|]. intros st. by rewrite Hb.
    - exists (carry row (Some new_domain) (Some new_dept) (Some new_group)
                (Some new_sub) AutoFull).
      split; [done|]. intros st. by rewrite Hb. }
  destruct (truthy (Row.dept row) && negb (truthy (Row.group row)));
    [destruct (dept_matches (Row.dept row) taxonomy) as [|t ts]|].
  - exists (carry row (py_or (Row.domain row) (Some unknown_domain))
              (py_or (Row.dept row) (Some needs_review))
              (py_or (Row.group row) (Some needs_review))
              (Some manual_review) Unknown).
    split; [done|]. intros st. by rewrite Hb.
  - exists (carry row (py_or (Row.domain row) (Tax.domain_name t))
              (Row.dept row) (Tax.grp_name t)
              (Some (or_empty (Tax.sub_name t) ++ review_suffix))
              PartialAuto).
    split; [done|]. intros st. by rewrite Hb.
  - exists (carry row (py_or (Row.domain row) (Some unknown_domain))
              (py_or (Row.dept row) (Some needs_review))
              (py_or (Row.group row) (Some needs_review))
              (Some manual_review) Unknown).
    split; [done|]. intros st. by rewrite Hb.
Qed.

Lemma appends_verdict (row : Row.t) (r : Res.t) :
  appends lower taxonomy row r → is_verdict lower taxonomy row r.
Proof.
  intros Hr. unfold is_verdict, verdict. rewrite Hr.
  set (st := if bool_decide _ then _ else _).
  assert (Hd : stats_ok (stats st)) by (subst st; by case_bool_decide).
  assert (Hres : results st = []) by (subst st; by case_bool_decide).
  destruct (count_and_append_ok (counted_as (Res.status r)) r st Hd
              (counted_as_key _)) as (n & _ & ->).
  rewrite Hres. eauto.
Qed.

(** ** The loop *)

Lemma counted_cons (k : string) (r : Res.t) (rs : list Res.t) :
  counted k (r :: rs)
  = ((if bool_decide (counted_as (Res.status r) = k) then 1 else 0)
     + counted k rs)%nat.
Proof. unfold counted. simpl. by case_bool_decide. Qed.

Lemma loop_run (rows : list Row.t) (st : state) :
  stats_ok (stats st) →
  ∃ rs d,
    loop lower taxonomy rows st
    = Ok {| results := results st ++ rs;
            stats := d;
            new_categories :=
              list_to_set (new_tuples rs) ∪ new_categories st |}
    ∧ stats_ok d
    ∧ (∀ k, d !! k = (λ n, n + counted k rs)%nat <$> stats st !! k)
    ∧ Forall2 (λ row r, same_item row r ∧ appends lower taxonomy row r) rows rs.
Proof.
  revert st. induction rows as [|row rows IH]; intros st Hd.
  - exists [], (stats st). simpl. split_and!; [|done| |done].
    + destruct st as [rs d nc]; simpl. rewrite app_nil_r.
      unfold mret, M_ret. f_equal. f_equal. set_solver.
    + intros k. unfold counted. simpl.
      destruct (stats st !! k); simpl; [f_equal; lia|done].
  - destruct (body_appends row) as (r & Hitem & Hr).
    set (st1 := if bool_decide (Res.status r = NewCategory)
                then add_category (resolved r) st else st).
    assert (Hd1 : stats_ok (stats st1)) by (subst st1; by case_bool_decide).
    destruct (count_and_append_ok (counted_as (Res.status r)) r st1 Hd1
                (counted_as_key _)) as (n & Hn & Hc).
    set (st2 := {| results := results st1 ++ [r];
                   stats := <[counted_as (Res.status r) := S n]> (stats st1);
                   new_categories := new_categories st1 |}) in Hc.
    destruct (IH st2) as (rs & d & Hl & Hd2 & Hcount & Hall).
    { apply stats_ok_insert; [done|apply counted_as_key]. }
    exists (r :: rs), d. split_and!; [|done| |by constructor].
    + simpl. rewrite (Hr st). fold st1. rewrite Hc. simpl. rewrite Hl.
      f_equal. subst st2 st1. unfold new_tuples. simpl.
      case_bool_decide; simpl; f_equal;
        rewrite <-?app_assoc; try done; set_solver.
    + intros k. rewrite Hcount, counted_cons. subst st2. simpl.
      assert (Hst : stats st1 = stats st)
        by (subst st1; by case_bool_decide).
      rewrite Hst in Hn |- *. clear Hst.
      case_bool_decide as Hk.
      * subst k. rewrite lookup_insert_eq, Hn. simpl. f_equal. lia.
      * rewrite lookup_insert_ne by done.
        destruct (stats st !! k); simpl; [f_equal; lia|done].
Qed.

End LoopFacts.

(** ** Facts that do not depend on the case mapping *)

Lemma has_new_marker_marked (cat : category) :
  has_new_marker cat = true ↔ marked_new cat.
Proof.
  destruct cat as [[[new_domain new_dept] new_group] new_sub].
  unfold has_new_marker, marked_new. simpl.
  assert (Hsp : 32 ∉ new_marker) by (by apply (bool_decide_unpack _)).
  change (u " ") with [32]. simpl.
  rewrite !contains_around_sep, !orb_true_iff, !contains_substring by done.
  tauto.
Qed.

Lemma elem_of_new_tuples (rs : list Res.t) (c : category) :
  c ∈ new_tuples rs
  ↔ ∃ r, r ∈ rs ∧ Res.status r = NewCategory ∧ resolved r = c.
Proof.
  unfold new_tuples. rewrite list_elem_of_fmap. split.
  - intros (r & -> & Hr). exists r.
    apply list_elem_of_In, filter_In in Hr as [Hr Hs].
    apply bool_decide_eq_true in Hs. by rewrite list_elem_of_In.
  - intros (r & Hr & Hs & <-). exists r. split; [done|].
    apply list_elem_of_In, filter_In. rewrite <-list_elem_of_In.
    by rewrite bool_decide_eq_true.
Qed.

Lemma counted_bearing (rs : list Res.t) :
  counted "skipped" rs = bearing Skipped rs
  ∧ counted "auto_full" rs = bearing AutoFull rs
  ∧ counted "new_category" rs = bearing NewCategory rs
  ∧ counted "unknown" rs = bearing Unknown rs
  ∧ counted "auto_subgroup" rs
    = (bearing AutoSubgroup rs + bearing PartialAuto rs)%nat
  ∧ counted "partial_auto" rs = 0%nat.
Proof.
  unfold counted, bearing.
  induction rs as [|r rs (H1 & H2 & H3 & H4 & H5 & H6)]; [done|].
  simpl. destruct (Res.status r); simpl;
    rewrite ?H1, ?H2, ?H3, ?H4, ?H5, ?H6; split_and!; lia.
Qed.

Lemma keyword_in_has_keyword (name_lower : pystr) (r : rule) :
  keyword_in name_lower r = true ↔ has_keyword name_lower r.
Proof.
  unfold keyword_in, has_keyword. rewrite existsb_exists.
  split; intros (kw & Hkw & Hin); exists kw.
  - by rewrite list_elem_of_In, <-contains_substring.
  - by rewrite <-list_elem_of_In, contains_substring.
Qed.

Lemma find_first {A} (P : A → bool) (l : list A) (i : nat) (x : A) :
  l !! i = Some x → P x = true →
  ∃ k y, (k ≤ i)%nat ∧ l !! k = Some y ∧ P y = true
         ∧ (∀ k' y', (k' < k)%nat → l !! k' = Some y' → P y' = false)
         ∧ List.find P l = Some y.
Proof.
  revert i. induction l as [|a l IH]; intros i Hi Hx; [done|].
  simpl. destruct (P a) eqn:Ha.
  - exists 0%nat, a. split_and!; [lia|done..|lia|done].
  - destruct i as [|i]; [simpl in Hi; congruence|].
    destruct (IH i Hi Hx) as (k & y & Hk & Hy & HPy & Hbefore & Hfind).
    exists (S k), y. split_and!; [lia|done..| |done].
    intros [|k'] y' Hk' Hy'; simpl in Hy'; [congruence|].
    apply (Hbefore k'); [lia|done].
Qed.

Lemma find_nowhere {A} (P : A → bool) (l : list A) :
  (∀ x, x ∈ l → P x = false) → List.find P l = None.
Proof.
  induction l as [|a l IH]; intros H; [done|].
  simpl. rewrite (H a) by left. apply IH. intros x Hx. apply H. by right.
Qed.

Lemma RULES_keywords_hebrew :
  forallb (λ r : rule, forallb (forallb hebrew_or_space) r.1) RULES = true.
Proof. by vm_compute. Qed.

Lemma RULES_keywords_lower (lower : pystr → pystr) :
  (∀ s, forallb hebrew_or_space s = true → lower s = s) →
  Forall (λ r : rule, Forall (λ kw, lower kw = kw) r.1) RULES.
Proof.
  intros Hlower. pose proof RULES_keywords_hebrew as H.
  rewrite forallb_forall in H.
  apply Forall_forall. intros r Hr%list_elem_of_In.
  apply Forall_forall. intros kw Hkw%list_elem_of_In.
  apply Hlower. specialize (H r Hr). rewrite forallb_forall in H. auto.
Qed.

Section Claims.

Variable lower : pystr → pystr.

(** ** The whole run *)

Lemma classify_products_run (taxonomy : list Tax.entry)
    (rows : list Row.t) :
  ∃ rs d,
    classify_products lower taxonomy rows
    = Ok (rs, d, list_to_set (new_tuples rs))
    ∧ stats_ok d
    ∧ (∀ k, d !! k = (λ n, n + counted k rs)%nat <$> initial_stats !! k)
    ∧ Forall2 (λ row r, same_item row r ∧ appends lower taxonomy row r)
        rows rs.
Proof.
  destruct (loop_run lower taxonomy rows initial stats_ok_initial)
    as (rs & d & Hl & Hd & Hk & Hall).
  exists rs, d. split_and!; [|done..].
  unfold classify_products. rewrite Hl. simpl.
  unfold mret, M_ret. do 2 f_equal. set_solver.
Qed.

Lemma is_verdict_unique (taxonomy : list Tax.entry) (row : Row.t)
    (r r' : Res.t) :
  is_verdict lower taxonomy row r → is_verdict lower taxonomy row r' →
  r = r'.
Proof. intros (d & nc & H) (d' & nc' & H'). congruence. Qed.

Lemma is_verdict_count_and_append (taxonomy : list Tax.entry) (row : Row.t)
    (k : string) (r : Res.t) (st : state) :
  k ∈ dom initial_stats → stats_ok (stats st) → results st = [] →
  verdict lower taxonomy row = count_and_append k r st →
  is_verdict lower taxonomy row r.
Proof.
  intros Hk Hd Hres Hv. unfold is_verdict. rewrite Hv.
  destruct (count_and_append_ok k r st Hd Hk) as (n & _ & ->).
  rewrite Hres. eauto.
Qed.

(** The result at the position of a row is the verdict on that row. *)
Lemma result_at (taxonomy : list Tax.entry) (rows : list Row.t)
    (rs : list Res.t) (i : nat) (row : Row.t) (r : Res.t) :
  Forall2 (λ row r, same_item row r ∧ appends lower taxonomy row r)
    rows rs →
  rows !! i = Some row → is_verdict lower taxonomy row r →
  rs !! i = Some r.
Proof.
  intros Hall Hi Hr.
  destruct (Forall2_lookup_l _ _ _ _ _ Hall Hi) as (r' & Hi' & _ & Hr').
  rewrite Hi'. f_equal.
  eapply is_verdict_unique; [|done]. by apply appends_verdict.
Qed.

(** ** Row preservation *)

(** On rows whose text columns hold text or are empty,
    [classify_products] returns (it does not raise) a list of results of
    the length of the input, the result at each position being the verdict
    of the engine on the row at that position; each result bears one
    status. *)
Lemma text_rows_preserved (taxonomy : list Tax.entry)
    (rows : list Row.t) :
  ∃ rs d nc,
    classify_products lower taxonomy rows = Ok (rs, d, nc)
    ∧ length rs = length rows
    ∧ Forall2 (is_verdict lower taxonomy) rows rs
    ∧ Forall (λ r, exists! s, Res.status r = s) rs.
Proof.
  destruct (classify_products_run taxonomy rows)
    as (rs & d & Hrun & _ & _ & Hall).
  exists rs, d, (list_to_set (new_tuples rs)). split_and!.
  - done.
  - symmetry. by eapply Forall2_length.
  - eapply Forall2_impl; [done|]. intros row r [_ Hr].
    by apply appends_verdict.
  - apply Forall_forall. intros r _. exists (Res.status r).
    split; [done|]. by intros s <-.
Qed.

(** C10.  Every result, whatever its status, has the [item_id],
    [item_name], [supplier_id] and [supplier_name] of the row at its
    position; the other fields of a result are its domain, department,
    group, subgroup and status. *)
Theorem classify_products_carries_item (taxonomy : list Tax.entry)
    (rows : list Row.t) :
  ∃ rs d nc,
    classify_products lower taxonomy rows = Ok (rs, d, nc)
    ∧ Forall2 same_item rows rs.
Proof.
  destruct (classify_products_run taxonomy rows)
    as (rs & d & Hrun & _ & _ & Hall).
  exists rs, d, (list_to_set (new_tuples rs)). split; [done|].
  eapply Forall2_impl; [done|]. by intros row r [Hitem _].
Qed.

(** ** The cascade *)

(** C4.  A row whose name contains the skip sentinel gets the status
    [Skipped], its domain, department and group copied from the row and
    the placeholder as subgroup, whatever its department and group are;
    on such a row the body only counts it as skipped: no category is added
    and no other counter moves. *)
Theorem skip_precedence (taxonomy : list Tax.entry) (rows : list Row.t)
    (i : nat) (row : Row.t) :
  rows !! i = Some row →
  has_sentinel row →
  let r := carry row (Row.domain row) (Row.dept row) (Row.group row)
             (Some skipped_subgroup) Skipped in
  (∃ rs d nc,
     classify_products lower taxonomy rows = Ok (rs, d, nc)
     ∧ rs !! i = Some r)
  ∧ verdict lower taxonomy row
    = Ok {| results := [r];
            stats := <["skipped" := 1%nat]> initial_stats;
            new_categories := ∅ |}.
Proof.
  intros Hi Hs r. apply is_skipped_sentinel in Hs.
  assert (Hv : verdict lower taxonomy row
               = Ok {| results := [r];
                       stats := <["skipped" := 1%nat]> initial_stats;
                       new_categories := ∅ |}).
  { unfold verdict. by rewrite body_skipped. }
  split; [|done].
  destruct (classify_products_run taxonomy rows)
    as (rs & d & Hrun & _ & _ & Hall).
  exists rs, d, (list_to_set (new_tuples rs)). split; [done|].
  eapply result_at; [done..|]. unfold is_verdict. eauto.
Qed.

Lemma not_resolved_without_group (taxonomy : list Tax.entry)
    (row : Row.t) :
  truthy (Row.group row) = false →
  resolved_by_subgroup lower taxonomy row = false.
Proof.
  unfold resolved_by_subgroup. intros ->. by rewrite andb_false_r.
Qed.

Lemma not_skipped (row : Row.t) : ¬ has_sentinel row → is_skipped row = false.
Proof.
  rewrite <-is_skipped_sentinel. by destruct (is_skipped row).
Qed.

(** A row of text that is not skipped and matches no keyword rule, with a
    department and no group (so that the subgroup step does not run), when
    the comprehension of case 4 keeps an entry, gets the status
    [PartialAuto]: with [t] the first entry kept, the domain is the domain
    of the row or else that of [t], the department is that of the row, the
    group is that of [t], and the subgroup is that of [t] followed by the
    review suffix. *)
Lemma fallback_of_first_match (taxonomy : list Tax.entry)
    (rows : list Row.t) (i : nat) (row : Row.t) (t : Tax.entry)
    (ts : list Tax.entry) :
  rows !! i = Some row →
  ¬ has_sentinel row →
  match_by_keyword lower (Row.item_name row) = None →
  truthy (Row.dept row) = true →
  truthy (Row.group row) = false →
  dept_matches (Row.dept row) taxonomy = t :: ts →
  ∃ sub rs d nc,
    Tax.sub_name t = Some sub
    ∧ classify_products lower taxonomy rows = Ok (rs, d, nc)
    ∧ rs !! i
      = Some (carry row (py_or (Row.domain row) (Tax.domain_name t))
                (Row.dept row) (Tax.grp_name t)
                (Some (sub ++ review_suffix)) PartialAuto).
Proof.
  intros Hi Hs Hkw Hdept Hgroup Ht.
  assert (Hsub : ∃ sub, Tax.sub_name t = Some sub).
  { assert (Hin : In t (dept_matches (Row.dept row) taxonomy))
      by (rewrite Ht; by left).
    apply filter_In in Hin as [_ Hin].
    apply andb_true_iff in Hin as [_ Hin].
    destruct (Tax.sub_name t); [eauto|done]. }
  destruct Hsub as [sub Hsub]. exists sub.
  destruct (classify_products_run taxonomy rows)
    as (rs & d & Hrun & _ & _ & Hall).
  exists rs, d, (list_to_set (new_tuples rs)). split_and!; [done..|].
  eapply result_at; [done..|].
  eapply (is_verdict_count_and_append _ _ "auto_subgroup" _ initial);
    [by vm_compute|done..|].
  unfold verdict.
  rewrite body_falls_through
    by auto using not_skipped, not_resolved_without_group.
  by rewrite Hkw, Hdept, Hgroup, Ht, Hsub.
Qed.

(** A row of text that is not skipped, with no department, no group and a
    name matching no keyword rule, gets the status [Unknown]: the domain
    is that of the row or else the unknown-domain sentinel, department and
    group are the review sentinel, and the subgroup is the manual-review
    sentinel. *)
Lemma unknown_of_text_row (taxonomy : list Tax.entry) (rows : list Row.t)
    (i : nat) (row : Row.t) :
  rows !! i = Some row →
  ¬ has_sentinel row →
  truthy (Row.dept row) = false →
  truthy (Row.group row) = false →
  match_by_keyword lower (Row.item_name row) = None →
  ∃ rs d nc,
    classify_products lower taxonomy rows = Ok (rs, d, nc)
    ∧ rs !! i
      = Some (carry row (py_or (Row.domain row) (Some unknown_domain))
                (Some needs_review) (Some needs_review)
                (Some manual_review) Unknown).
Proof.
  intros Hi Hs Hdept Hgroup Hkw.
  destruct (classify_products_run taxonomy rows)
    as (rs & d & Hrun & _ & _ & Hall).
  exists rs, d, (list_to_set (new_tuples rs)). split; [done|].
  eapply result_at; [done..|].
  eapply (is_verdict_count_and_append _ _ "unknown" _ initial);
    [by vm_compute|done..|].
  unfold verdict.
  rewrite body_falls_through
    by auto using not_skipped, not_resolved_without_group.
  rewrite Hkw. unfold py_or. by rewrite Hdept, Hgroup.
Qed.

(** ** The keyword matcher *)

(** C5.  [lower] leaving Hebrew letters and spaces alone, as [str.lower]
    does, [match_by_keyword] returns the category of the first rule of
    [RULES], in the order of the table, one of whose keywords occurs in the
    lower-cased name, and [None] when no rule has such a keyword.  Hence a
    rule with a keyword in the name is never passed over for a later one:
    the category returned is that of the earliest such rule.  The result is
    a function of the table and the name. *)
Theorem match_by_keyword_first_rule (name : cell) :
  (∀ s, forallb hebrew_or_space s = true → lower s = s) →
  let name_lower := lower_name lower name in
  match_by_keyword lower name
  = snd <$> List.find (keyword_in name_lower) RULES
  ∧ (∀ i r1,
       RULES !! i = Some r1 → has_keyword name_lower r1 →
       ∃ k r,
         (k ≤ i)%nat ∧ RULES !! k = Some r ∧ has_keyword name_lower r
         ∧ (∀ k' r', (k' < k)%nat → RULES !! k' = Some r' →
                     ¬ has_keyword name_lower r')
         ∧ match_by_keyword lower name = Some r.2)
  ∧ ((∀ r, r ∈ RULES → ¬ has_keyword name_lower r) →
     match_by_keyword lower name = None).
Proof.
  intros Hlower name_lower.
  assert (Hfind : match_by_keyword lower name
                  = snd <$> List.find (keyword_in name_lower) RULES).
  { unfold match_by_keyword. fold (lower_name lower name).
    by apply match_rules_find, RULES_keywords_lower. }
  split_and!; [done| |].
  - intros i r1 Hi Hr1. apply keyword_in_has_keyword in Hr1.
    destruct (find_first _ _ _ _ Hi Hr1)
      as (k & r & Hk & Hr & HPr & Hbefore & Hf).
    exists k, r. split_and!; [done..| | |].
    + by apply keyword_in_has_keyword.
    + intros k' r' Hk' Hr'. rewrite <-keyword_in_has_keyword.
      by rewrite (Hbefore k' r' Hk' Hr').
    + by rewrite Hfind, Hf.
  - intros Hnone. rewrite Hfind, find_nowhere; [done|].
    intros r Hr. specialize (Hnone r Hr).
    rewrite <-keyword_in_has_keyword in Hnone.
    by destruct (keyword_in name_lower r).
Qed.

(** ** The subgroup finder *)

Lemma word_in_name_has_word (name_lower : pystr) (m : Tax.entry) :
  word_in_name lower name_lower m = true ↔ has_word lower name_lower m.
Proof.
  unfold word_in_name, has_word. rewrite existsb_exists.
  split.
  - intros (w & [Hw Hlen]%filter_In & Hin). exists w.
    rewrite list_elem_of_In, <-contains_substring.
    by apply Nat.ltb_lt in Hlen.
  - intros (w & Hw & Hlen & Hin). exists w.
    rewrite filter_In, <-list_elem_of_In, contains_substring.
    by apply Nat.ltb_lt in Hlen.
Qed.

Lemma no_word (name_lower : pystr) (m : Tax.entry) :
  word_in_name lower name_lower m = false → ¬ has_word lower name_lower m.
Proof. rewrite <-word_in_name_has_word. by intros ->. Qed.

Lemma find_after_failures {A} (P : A → bool) (pre post : list A) (x : A) :
  Forall (λ y, P y = false) pre → P x = true →
  List.find P (pre ++ x :: post) = Some x.
Proof.
  induction 1 as [|y pre Hy _ IH]; intros Hx; simpl.
  - by rewrite Hx.
  - rewrite Hy. by apply IH.
Qed.

Lemma Forall_no_word (name_lower : pystr) (ms : list Tax.entry) :
  Forall (λ m, ¬ has_word lower name_lower m) ms →
  Forall (λ m, word_in_name lower name_lower m = false) ms.
Proof.
  intros H. eapply Forall_impl; [done|]. intros m Hm. simpl in Hm.
  rewrite <-word_in_name_has_word in Hm.
  by destruct (word_in_name lower name_lower m).
Qed.

(** C6, amended.  With the candidates of [(dept, group)] in table order:
    none, [find_subgroup] returns [None]; exactly one, it returns the
    subgroup of that candidate, whatever the name; several, it returns the
    subgroup of the first candidate a word of whose LOWER-CASED subgroup
    name, longer than 2 characters, occurs in the lower-cased name, and the
    subgroup of the first candidate when there is no such candidate. *)
Theorem find_subgroup_resolution (dept_name group_name product_name : cell)
    (taxonomy : list Tax.entry) :
  let candidates := group_matches dept_name group_name taxonomy in
  let name_lower := lower (or_empty product_name) in
  let found :=
    find_subgroup lower dept_name group_name product_name taxonomy in
  (candidates = [] → found = Ok None)
  ∧ (∀ m, candidates = [m] → found = Ok (Tax.sub_name m))
  ∧ (∀ pre m post,
       (2 ≤ length candidates)%nat →
       candidates = pre ++ m :: post →
       Forall (λ m', ¬ has_word lower name_lower m') pre →
       has_word lower name_lower m →
       found = Ok (Tax.sub_name m))
  ∧ (∀ m rest,
       (2 ≤ length candidates)%nat →
       candidates = m :: rest →
       Forall (λ m', ¬ has_word lower name_lower m') (m :: rest) →
       found = Ok (Tax.sub_name m)).
Proof.
  intros candidates name_lower found.
  pose proof (find_subgroup_cases lower dept_name group_name product_name
                taxonomy) as H.
  fold candidates found name_lower in H.
  split_and!.
  - intros Hc. by rewrite Hc in H.
  - intros m Hc. by rewrite Hc in H.
  - intros pre m post Hlen Hc Hpre Hm.
    destruct candidates as [|m0 [|m1 ms]]; [simpl in Hlen; lia..|].
    rewrite H, Hc, find_after_failures; [done| |].
    + by apply Forall_no_word.
    + by apply word_in_name_has_word.
  - intros m rest Hlen Hc Hall. rewrite <-Hc in Hall.
    destruct candidates as [|m0 [|m1 ms]]; [simpl in Hlen; lia..|].
    rewrite H, find_nowhere; [simpl; congruence|].
    intros x Hx. apply Forall_no_word in Hall.
    rewrite Forall_forall in Hall. by apply Hall.
Qed.

(** ** New categories *)

(** C8, amended.  A row that reaches the keyword step (it is not skipped
    and the subgroup step does not resolve it) and for which
    [match_by_keyword] returns a tuple whose department, group or subgroup
    contains the new-category marker gets the status [NewCategory] with
    that tuple as resolved fields, and the tuple is in the set of new
    categories.  The set holds exactly the resolved tuples of the results
    of status [NewCategory]; its report [sorted] lists each of them once,
    in increasing lexicographic order of (domain, dept, group,
    subgroup). *)
Theorem new_categories_collected (taxonomy : list Tax.entry)
    (rows : list Row.t) :
  ∃ rs d nc,
    classify_products lower taxonomy rows = Ok (rs, d, nc)
    ∧ (∀ i row cat,
         rows !! i = Some row →
         ¬ has_sentinel row →
         resolved_by_subgroup lower taxonomy row = false →
         match_by_keyword lower (Row.item_name row) = Some cat →
         marked_new cat →
         rs !! i
         = Some (carry row (Some cat.1.1.1) (Some cat.1.1.2)
                   (Some cat.1.2) (Some cat.2) NewCategory)
         ∧ cat ∈ nc)
    ∧ (∀ c, c ∈ nc
            ↔ ∃ r, r ∈ rs ∧ Res.status r = NewCategory ∧ resolved r = c)
    ∧ NoDup (sorted nc)
    ∧ StronglySorted lexico (sorted nc)
    ∧ (∀ c, c ∈ sorted nc ↔ c ∈ nc).
Proof.
  destruct (classify_products_run taxonomy rows)
    as (rs & d & Hrun & _ & _ & Hall).
  exists rs, d, (list_to_set (new_tuples rs)).
  assert (Hnc : ∀ c, c ∈ (list_to_set (new_tuples rs) : gset category)
                     ↔ ∃ r, r ∈ rs ∧ Res.status r = NewCategory
                            ∧ resolved r = c).
  { intros c. by rewrite elem_of_list_to_set, elem_of_new_tuples. }
  split_and!; [done| |done|..].
  - intros i row cat Hi Hs Hr Hkw Hnew.
    apply has_new_marker_marked in Hnew.
    assert (Hi' : rs !! i
                  = Some (carry row (Some cat.1.1.1) (Some cat.1.1.2)
                            (Some cat.1.2) (Some cat.2) NewCategory)).
    { eapply result_at; [done..|].
      eapply (is_verdict_count_and_append _ _ "new_category" _
                (add_category cat initial)); [by vm_compute|done..|].
      unfold verdict.
      rewrite body_falls_through by auto using not_skipped.
      by rewrite Hkw, Hnew. }
    split; [done|]. apply Hnc. eexists. split_and!.
    + by eapply list_elem_of_lookup_2.
    + done.
    + by destruct cat as [[[??]?]?].
  - apply NoDup_sorted.
  - apply sorted_strict.
  - intros c. apply elem_of_sorted.
Qed.

(** ** The counters *)

(** What the counters hold at the end of a run: one counter per key of
    [initial_stats]; the results of status [PartialAuto] are counted with
    those of status [AutoSubgroup], and there is no counter of their
    own. *)
Lemma stats_account (taxonomy : list Tax.entry) (rows : list Row.t) :
  ∃ rs d nc,
    classify_products lower taxonomy rows = Ok (rs, d, nc)
    ∧ d !! "skipped" = Some (bearing Skipped rs)
    ∧ d !! "auto_full" = Some (bearing AutoFull rs)
    ∧ d !! "new_category" = Some (bearing NewCategory rs)
    ∧ d !! "unknown" = Some (bearing Unknown rs)
    ∧ d !! "auto_subgroup"
      = Some (bearing AutoSubgroup rs + bearing PartialAuto rs)%nat
    ∧ d !! "partial_auto" = None.
Proof.
  destruct (classify_products_run taxonomy rows)
    as (rs & d & Hrun & _ & Hk & _).
  destruct (counted_bearing rs) as (H1 & H2 & H3 & H4 & H5 & _).
  exists rs, d, (list_to_set (new_tuples rs)).
  rewrite !Hk, H1, H2, H3, H4, H5. by vm_compute.
Qed.

End Claims.

(** ** The engine on concrete rows *)

Lemma ascii_lower_hebrew (s : pystr) :
  forallb hebrew_or_space s = true → ascii_lower s = s.
Proof.
  induction s as [|c s IH]; [done|].
  simpl. intros [Hc Hs]%andb_true_iff. rewrite IH by done. f_equal.
  unfold hebrew_or_space in Hc. unfold ascii_lower_char.
  destruct (N.leb_spec 65 c), (N.leb_spec c 90); simpl; try done.
  apply orb_true_iff in Hc as [Hc|Hc].
  - apply N.eqb_eq in Hc. lia.
  - apply andb_true_iff in Hc as [Hc _]. apply N.leb_le in Hc. lia.
Qed.

Import Sample.

Lemma not_skipped_row (row : Row.t) :
  is_skipped row = false → ¬ has_sentinel row.
Proof. rewrite <-is_skipped_sentinel. by intros ->. Qed.

(** *** Skipped rows *)

Lemma skip_precedence_witness :
  let row := product 1 (Some (u "פריט חדש 7")) (Some (u "Bakery"))
               (Some (u "Loaves")) in
  let r := carry row None (Some (u "Bakery")) (Some (u "Loaves"))
             (Some skipped_subgroup) Skipped in
  (∃ rs d nc,
     classify_products ascii_lower bakery [row] = Ok (rs, d, nc)
     ∧ rs !! 0%nat = Some r)
  ∧ verdict ascii_lower bakery row
    = Ok {| results := [r];
            stats := <["skipped" := 1%nat]> initial_stats;
            new_categories := ∅ |}.
Proof.
  intros row r.
  apply (skip_precedence ascii_lower bakery [row] 0 row); [reflexivity|].
  exists (u "פריט חדש 7"). split; [reflexivity|].
  apply contains_substring. reflexivity.
Defined.

(** *** The unknown fallback *)

(** A row named by the skip sentinel alone has no department, no group and
    no keyword of a rule in its name; it is skipped, not unknown. *)
Lemma sentinel_row_is_not_unknown :
  ¬ (∀ (taxonomy : list Tax.entry) (rows : list Row.t) (i : nat)
       (row : Row.t),
       rows !! i = Some row →
       truthy (Row.dept row) = false →
       truthy (Row.group row) = false →
       match_by_keyword ascii_lower (Row.item_name row) = None →
       ∃ rs d nc r,
         classify_products ascii_lower taxonomy rows = Ok (rs, d, nc)
         ∧ rs !! i = Some r
         ∧ Res.status r = Unknown).
Proof.
  intros H.
  assert (Hkw : match_by_keyword ascii_lower (Some skip_sentinel) = None)
    by (by vm_compute).
  specialize (H [] [product 4 (Some skip_sentinel) None None] 0%nat
                (product 4 (Some skip_sentinel) None None)
                eq_refl eq_refl eq_refl Hkw).
  destruct H as (rs & d & nc & r & Hrun & Hr & Hstatus).
  assert (Hrs : Res.status <$> rs = [Skipped]).
  { assert (Hs : statuses (classify_products ascii_lower []
                             [product 4 (Some skip_sentinel) None None])
                 = [Skipped]) by (by vm_compute).
    by rewrite Hrun in Hs. }
  destruct rs as [|r' rs]; [done|]. injection Hr as ->.
  injection Hrs as Hrs _. congruence.
Qed.

(** *** The keyword matcher *)

Lemma match_by_keyword_first_rule_witness :
  let name := Some (u "מסכה לפורים") in
  let name_lower := lower_name ascii_lower name in
  match_by_keyword ascii_lower name
  = snd <$> List.find (keyword_in name_lower) RULES
  ∧ (∀ i r1,
       RULES !! i = Some r1 → has_keyword name_lower r1 →
       ∃ k r,
         (k ≤ i)%nat ∧ RULES !! k = Some r ∧ has_keyword name_lower r
         ∧ (∀ k' r', (k' < k)%nat → RULES !! k' = Some r' →
                     ¬ has_keyword name_lower r')
         ∧ match_by_keyword ascii_lower name = Some r.2)
  ∧ ((∀ r, r ∈ RULES → ¬ has_keyword name_lower r) →
     match_by_keyword ascii_lower name = None).
Proof.
  intros name.
  apply (match_by_keyword_first_rule ascii_lower name ascii_lower_hebrew).
Defined.

(** The costume rule (second of the table) and the catch-all rule of the
    same holiday (fourth) both have a keyword in this name; the second rule
    gives the category. *)
Lemma earlier_rule_wins :
  let name_lower := lower_name ascii_lower (Some (u "מסכה לפורים")) in
  keyword_in name_lower <$> RULES !! 1%nat = Some true
  ∧ keyword_in name_lower <$> RULES !! 3%nat = Some true
  ∧ snd <$> RULES !! 1%nat = Some costumes
  ∧ match_by_keyword ascii_lower (Some (u "מסכה לפורים")) = Some costumes.
Proof. by vm_compute. Qed.

(** *** The subgroup finder *)

Lemma find_subgroup_resolution_witness :
  let dept := Some (u "Fruit") in
  let group := Some (u "Apples") in
  find_subgroup ascii_lower dept group (Some (u "Organic Green Apples 1kg"))
    apples = Ok (Some (u "Red Apples"))
  ∧ find_subgroup ascii_lower dept group (Some (u "green apples")) fruit
    = Ok (Some (u "Red Apples"))
  ∧ find_subgroup ascii_lower dept group (Some (u "Mixed Fruit Box")) apples
    = Ok (Some (u "Red Apples"))
  ∧ find_subgroup ascii_lower (Some (u "Bakery")) (Some (u "Loaves"))
      (Some (u "Ripe Fruit")) bakery = Ok (Some (u "Bread"))
  ∧ find_subgroup ascii_lower (Some (u "Dairy")) (Some (u "Milk"))
      (Some (u "Ripe Fruit")) bakery = Ok None.
Proof.
  intros dept group. split_and!.
  - apply (proj1 (proj2 (proj2
             (find_subgroup_resolution ascii_lower dept group
                (Some (u "Organic Green Apples 1kg")) apples)))
             [] (entry "Fruit" "Apples" "Red Apples")
             [entry "Fruit" "Apples" "Green Apples"]).
    + vm_compute. lia.
    + vm_compute. reflexivity.
    + constructor.
    + apply word_in_name_has_word. vm_compute. reflexivity.
  - apply (proj1 (proj2 (proj2
             (find_subgroup_resolution ascii_lower dept group
                (Some (u "green apples")) fruit)))
             [] (entry "Fruit" "Apples" "Red Apples")
             [entry "Fruit" "Apples" "green pears"]).
    + vm_compute. lia.
    + vm_compute. reflexivity.
    + constructor.
    + apply word_in_name_has_word. vm_compute. reflexivity.
  - apply (proj2 (proj2 (proj2
             (find_subgroup_resolution ascii_lower dept group
                (Some (u "Mixed Fruit Box")) apples)))
             (entry "Fruit" "Apples" "Red Apples")
             [entry "Fruit" "Apples" "Green Apples"]).
    + vm_compute. lia.
    + vm_compute. reflexivity.
    + repeat constructor; (apply no_word; vm_compute; reflexivity).
  - apply (proj1 (proj2
             (find_subgroup_resolution ascii_lower (Some (u "Bakery"))
                (Some (u "Loaves")) (Some (u "Ripe Fruit")) bakery))
             (entry "Bakery" "Loaves" "Bread")).
    vm_compute. reflexivity.
  - apply (proj1
             (find_subgroup_resolution ascii_lower (Some (u "Dairy"))
                (Some (u "Milk")) (Some (u "Ripe Fruit")) bakery)).
    vm_compute. reflexivity.
Defined.

(** The words of a subgroup name are compared lower-cased.  Of the two
    candidates, ["Red Apples"] has no word, as written, in ["green apples"]
    and ["green pears"] has one; [find_subgroup] returns ["Red Apples"], for
    its word ["apples"]. *)
Lemma find_subgroup_lowers_the_words :
  let dept := Some (u "Fruit") in
  let group := Some (u "Apples") in
  let name := Some (u "green apples") in
  let name_lower := ascii_lower (or_empty name) in
  group_matches dept group fruit = fruit
  ∧ written_word_in_name name_lower <$> fruit = [false; true]
  ∧ find_subgroup_as_specified ascii_lower dept group name fruit
    = Some (u "green pears")
  ∧ find_subgroup ascii_lower dept group name fruit
    = Ok (Some (u "Red Apples"))
  ∧ find_subgroup ascii_lower dept group name fruit
    ≠ Ok (find_subgroup_as_specified ascii_lower dept group name fruit).
Proof. by vm_compute. Qed.

(** *** New categories *)

Lemma new_categories_collected_witness :
  let row := product 5 (Some (u "בוטנים קלויים")) None None in
  let rows := [row; product 6 (Some (u "ציצית")) None None;
               product 7 (Some (u "בוטן מסוכר")) None None] in
  ∃ rs d nc,
    classify_products ascii_lower bakery rows = Ok (rs, d, nc)
    ∧ rs !! 0%nat
      = Some (carry row (Some peanuts.1.1.1) (Some peanuts.1.1.2)
                (Some peanuts.1.2) (Some peanuts.2) NewCategory)
    ∧ peanuts ∈ nc
    ∧ NoDup (sorted nc)
    ∧ StronglySorted lexico (sorted nc).
Proof.
  intros row rows.
  destruct (new_categories_collected ascii_lower bakery rows)
    as (rs & d & nc & Hrun & Hrows & Hnc & Hnodup & Hsorted & Helem).
  exists rs, d, nc.
  destruct (Hrows 0%nat row peanuts) as [H0 Hp].
  - reflexivity.
  - apply not_skipped_row. vm_compute. reflexivity.
  - vm_compute. reflexivity.
  - vm_compute. reflexivity.
  - apply has_new_marker_marked. vm_compute. reflexivity.
  - split_and!; assumption.
Defined.

(** Two rows for peanuts and one for a prayer shawl: three results of
    status [NewCategory], and two tuples in the report, in order. *)
Lemma new_category_dedup :
  let out :=
    classify_products ascii_lower bakery
      [product 5 (Some (u "בוטנים קלויים")) None None;
       product 6 (Some (u "ציצית")) None None;
       product 7 (Some (u "בוטן מסוכר")) None None] in
  statuses out = [NewCategory; NewCategory; NewCategory]
  ∧ report out = [judaica; peanuts].
Proof. by vm_compute. Qed.

(** A keyword of a rule marked as new in the name of a row does not make
    the row a [NewCategory] one: the skip check and the subgroup step come
    first. *)
Lemma marked_keyword_row_can_be_skipped :
  ¬ (∀ (taxonomy : list Tax.entry) (rows : list Row.t) (i : nat)
       (row : Row.t) (cat : category),
       rows !! i = Some row →
       match_by_keyword ascii_lower (Row.item_name row) = Some cat →
       marked_new cat →
       ∃ rs d nc r,
         classify_products ascii_lower taxonomy rows = Ok (rs, d, nc)
         ∧ rs !! i = Some r
         ∧ Res.status r = NewCategory).
Proof.
  intros H.
  set (row := product 8 (Some (u "פריט חדש בוטנים")) None None).
  assert (Hkw : match_by_keyword ascii_lower (Row.item_name row)
                = Some peanuts) by (by vm_compute).
  assert (Hnew : marked_new peanuts)
    by (apply has_new_marker_marked; by vm_compute).
  destruct (H [] [row] 0%nat row peanuts eq_refl Hkw Hnew)
    as (rs & d & nc & r & Hrun & Hr & Hstatus).
  assert (Hrs : Res.status <$> rs = [Skipped]).
  { assert (Hs : statuses (classify_products ascii_lower [] [row])
                 = [Skipped]) by (by vm_compute).
    by rewrite Hrun in Hs. }
  destruct rs as [|r' rs]; [done|]. injection Hr as ->.
  injection Hrs as Hrs _. congruence.
Qed.

Lemma marked_keyword_row_can_be_resolved :
  let row := product 9 (Some (u "בוטנים")) (Some (u "Bakery"))
               (Some (u "Loaves")) in
  match_by_keyword ascii_lower (Row.item_name row) = Some peanuts
  ∧ has_new_marker peanuts = true
  ∧ is_skipped row = false
  ∧ resolved_by_subgroup ascii_lower bakery row = true
  ∧ statuses (classify_products ascii_lower bakery [row]) = [AutoSubgroup]
  ∧ report (classify_products ascii_lower bakery [row]) = [].
Proof. by vm_compute. Qed.

(** *** The counters *)

(** C2.  The loop keeps five counters, none for ["partial_auto"], and
    counts a result of status [PartialAuto] under ["auto_subgroup"]: on the
    bakery taxonomy, a row of department ["Bakery"] without group and
    without keyword gets the status [PartialAuto]; the run ends with
    ["auto_subgroup"] at 1, though no result bears [AutoSubgroup], and with
    no counter for the status of the result. *)
Theorem partial_auto_counted_as_auto_subgroup :
  let row := product 2 (Some (u "Sourdough")) (Some (u "Bakery")) None in
  let out := classify_products ascii_lower bakery [row] in
  statuses out = [PartialAuto]
  ∧ counter (status_key PartialAuto) out = None
  ∧ counter (status_key AutoSubgroup) out = Some 1%nat
  ∧ (∃ rs d nc, out = Ok (rs, d, nc)
                ∧ bearing PartialAuto rs = 1%nat
                ∧ bearing AutoSubgroup rs = 0%nat
                ∧ d !! "auto_subgroup" = Some 1%nat
                ∧ d !! "partial_auto" = None)
  ∧ initial_stats !! "partial_auto" = None
  ∧ size initial_stats = 5%nat.
Proof.
  intros row out.
  split_and!; [by vm_compute|by vm_compute|by vm_compute| |by vm_compute..].
  destruct (stats_account ascii_lower bakery [row])
    as (rs & d & nc & Hrun & _ & _ & _ & _ & Hauto & Hpartial).
  exists rs, d, nc. subst out.
  assert (Hs : statuses (classify_products ascii_lower bakery [row])
               = [PartialAuto]) by (by vm_compute).
  rewrite Hrun in Hs. simpl in Hs.
  destruct rs as [|r [|r' rs]]; [done| |done].
  injection Hs as Hs.
  assert (Hp : bearing PartialAuto [r] = 1%nat)
    by (unfold bearing; simpl; by rewrite Hs).
  assert (Ha : bearing AutoSubgroup [r] = 0%nat)
    by (unfold bearing; simpl; by rewrite Hs).
  rewrite Hp, Ha in Hauto.
  split_and!; [exact Hrun|exact Hp|exact Ha|exact Hauto|exact Hpartial].
Qed.

(** *** The lookups in the taxonomy *)

(** C3.  The lookups of the loop compare the department and the group of
    the row, as they are, with the trimmed names of the taxonomy: a row
    whose department differs from the taxonomy in letter case, or carries
    white space, finds no candidate, in [find_subgroup] as in the
    department-only fallback.  The index of [build_lookup], keyed by the
    lower-cased trimmed names, has the entry under the lower-cased key; the
    loop does not consult it. *)
Theorem lookups_are_case_sensitive :
  let name := Some (u "Rye") in
  find_subgroup ascii_lower (Some (u "Bakery")) (Some (u "Loaves")) name
    bakery = Ok (Some (u "Bread"))
  ∧ find_subgroup ascii_lower (Some (u "bakery")) (Some (u "loaves")) name
      bakery = Ok None
  ∧ find_subgroup ascii_lower (Some (u " Bakery")) (Some (u "Loaves")) name
      bakery = Ok None
  ∧ find_subgroup ascii_lower (Some (u "Bakery")) (Some (u "Loaves")) name
      [entry " Bakery " "Loaves  " "Bread"] = Ok (Some (u "Bread"))
  ∧ dept_matches (Some (u "Bakery")) bakery = bakery
  ∧ dept_matches (Some (u "BAKERY")) bakery = []
  ∧ (build_lookup ascii_lower bakery).1 !! (u "bakery", u "loaves")
    = Some bakery
  ∧ (build_lookup ascii_lower bakery).2 !! u "bakery" = Some bakery
  ∧ statuses
      (classify_products ascii_lower bakery
         [product 10 name (Some (u "Bakery")) (Some (u "Loaves"));
          product 11 name (Some (u "bakery")) (Some (u "loaves"));
          product 12 name (Some (u "Bakery")) None;
          product 13 name (Some (u "BAKERY")) None])
    = [AutoSubgroup; Unknown; PartialAuto; Unknown].
Proof. by vm_compute. Qed.

(** * Further properties *)

(** ** Loading the taxonomy *)

Lemma load_taxonomy_filter (ws : list Sheet.t) :
  load_taxonomy ws
  = entry_of <$> List.filter
                   (λ row, bool_decide (is_Some (Sheet.domain_name row))) ws.
Proof.
  induction ws as [|row ws IH]; [done|].
  simpl. destruct (Sheet.domain_name row) as [name|] eqn:Hname; simpl.
  - rewrite IH. unfold entry_of at 2. by rewrite Hname.
  - apply IH.
Qed.

(** X1.  [load_taxonomy] returns one entry for each data row whose domain
    name is not [None], in the order of the sheet, with the eight columns of
    the row and without its count; so every entry it returns has a domain
    name, which may be the empty string, and there are no more entries than
    rows. *)
Theorem load_taxonomy_keeps_named_rows (ws : list Sheet.t) :
  load_taxonomy ws
  = entry_of <$> List.filter
                   (λ row, bool_decide (is_Some (Sheet.domain_name row))) ws
  ∧ Forall (λ t, is_Some (Tax.domain_name t)) (load_taxonomy ws)
  ∧ (length (load_taxonomy ws) ≤ length ws)%nat
  ∧ (∀ row, row ∈ ws → Sheet.domain_name row = Some [] →
            entry_of row ∈ load_taxonomy ws).
Proof.
  rewrite load_taxonomy_filter. split_and!.
  - done.
  - apply Forall_fmap, Forall_forall. intros row Hrow.
    apply list_elem_of_In, filter_In in Hrow as [_ Hrow].
    by apply bool_decide_eq_true in Hrow.
  - rewrite length_fmap. apply List.filter_length_le.
  - intros row Hrow Hname. apply list_elem_of_fmap. exists row.
    split; [done|]. apply list_elem_of_In, filter_In.
    split; [by apply list_elem_of_In|].
    apply bool_decide_eq_true. rewrite Hname. eauto.
Qed.

(** ** The indexes of [build_lookup] *)

Lemma bucket_default (l : list Tax.entry) : default [] (bucket l) = l.
Proof. by destruct l. Qed.

Lemma bucket_snoc (l : list Tax.entry) (t : Tax.entry) :
  bucket (l ++ [t]) = Some (l ++ [t]).
Proof. by destruct l. Qed.

Lemma truthy_nonempty (s : pystr) : truthy (Some s) = true ↔ s ≠ [].
Proof. by destruct s. Qed.

Section IndexFacts.

Variable lower : pystr → pystr.

Lemma build_lookup_snoc (taxonomy : list Tax.entry) (t : Tax.entry) :
  build_lookup lower (taxonomy ++ [t])
  = let '(by_dept_group, by_dept) := build_lookup lower taxonomy in
    (if truthy (Some (dept_of t)) && truthy (Some (grp_of t))
        && truthy (Some (sub_of t))
     then <[(lower (dept_of t), lower (grp_of t))
            := default [] (by_dept_group
                             !! (lower (dept_of t), lower (grp_of t)))
               ++ [t]]> by_dept_group
     else by_dept_group,
     if truthy (Some (dept_of t))
     then <[lower (dept_of t)
            := default [] (by_dept !! lower (dept_of t)) ++ [t]]> by_dept
     else by_dept).
Proof.
  unfold build_lookup. rewrite foldl_app. simpl.
  by destruct (foldl _ _ taxonomy).
Qed.

Lemma build_lookup_buckets (taxonomy : list Tax.entry) :
  (∀ k, (build_lookup lower taxonomy).1 !! k
        = bucket (filter (filed_under_group lower k) taxonomy))
  ∧ (∀ k, (build_lookup lower taxonomy).2 !! k
          = bucket (filter (filed_under_dept lower k) taxonomy)).
Proof.
  induction taxonomy as [|t taxonomy [IH1 IH2]] using rev_ind; [done|].
  rewrite build_lookup_snoc.
  destruct (build_lookup lower taxonomy) as [by_dept_group by_dept].
  cbn [fst snd] in IH1, IH2. split; intros k; cbn [fst snd]; rewrite filter_app.
  - destruct (truthy (Some (dept_of t)) && truthy (Some (grp_of t))
              && truthy (Some (sub_of t))) eqn:Hc.
    + apply andb_true_iff in Hc as [[Hd Hg]%andb_true_iff Hs].
      apply truthy_nonempty in Hd, Hg, Hs.
      destruct (decide ((lower (dept_of t), lower (grp_of t)) = k))
        as [<-|Hk].
      * rewrite lookup_insert_eq, IH1, bucket_default.
        rewrite (filter_cons_True _ t), filter_nil by done.
        by rewrite bucket_snoc.
      * rewrite lookup_insert_ne, IH1 by done.
        rewrite (filter_cons_False _ t), filter_nil, app_nil_r; [done|].
        by intros (_ & _ & _ & ?).
    + rewrite IH1.
      rewrite (filter_cons_False _ t), filter_nil, app_nil_r; [done|].
      intros (Hd & Hg & Hs & _).
      apply truthy_nonempty in Hd, Hg, Hs. by rewrite Hd, Hg, Hs in Hc.
  - destruct (truthy (Some (dept_of t))) eqn:Hd.
    + apply truthy_nonempty in Hd.
      destruct (decide (lower (dept_of t) = k)) as [<-|Hk].
      * rewrite lookup_insert_eq, IH2, bucket_default.
        rewrite (filter_cons_True _ t), filter_nil by done.
        by rewrite bucket_snoc.
      * rewrite lookup_insert_ne, IH2 by done.
        rewrite (filter_cons_False _ t), filter_nil, app_nil_r; [done|].
        by intros [_ ?].
    + rewrite IH2.
      rewrite (filter_cons_False _ t), filter_nil, app_nil_r; [done|].
      intros [Hd' _]. apply truthy_nonempty in Hd'. congruence.
Qed.

(** X2.  The index by department and group of [build_lookup] holds, under
    each key, the entries of the taxonomy whose trimmed department, group
    and subgroup are not empty and whose lower-cased trimmed department and
    group are the key, in the order of the taxonomy; a key no entry has is
    absent, so no key holds an empty list. *)
Theorem by_dept_group_lookup (taxonomy : list Tax.entry) (k : pystr * pystr) :
  (build_lookup lower taxonomy).1 !! k
  = bucket (filter (filed_under_group lower k) taxonomy)
  ∧ (build_lookup lower taxonomy).1 !! k ≠ Some [].
Proof.
  destruct (build_lookup_buckets taxonomy) as [H _].
  rewrite H. split; [done|].
  by destruct (filter _ taxonomy).
Qed.

(** X3.  The index by department of [build_lookup] holds, under each key,
    the entries whose trimmed department is not empty and is the key once
    lower-cased, in the order of the taxonomy, whether they have a group or
    a subgroup or not; every entry with a department is under exactly the
    key of its department. *)
Theorem by_dept_lookup (taxonomy : list Tax.entry) (k : pystr) :
  (build_lookup lower taxonomy).2 !! k
  = bucket (filter (filed_under_dept lower k) taxonomy)
  ∧ (∀ t, t ∈ taxonomy → dept_of t ≠ [] →
          (∃ l, (build_lookup lower taxonomy).2 !! k = Some l ∧ t ∈ l)
          ↔ k = lower (dept_of t)).
Proof.
  destruct (build_lookup_buckets taxonomy) as [_ H].
  rewrite H. split; [done|]. intros t Ht Hd. split.
  - intros (l & Hl & Htl).
    destruct (filter _ taxonomy) as [|t' l'] eqn:Hf; [done|].
    injection Hl as <-. rewrite <-Hf in Htl.
    apply list_elem_of_filter in Htl as [[_ Hk] _]. done.
  - intros ->.
    assert (Hin : t ∈ filter (filed_under_dept lower (lower (dept_of t)))
                        taxonomy)
      by (by apply list_elem_of_filter).
    destruct (filter _ taxonomy) as [|t' l'] eqn:Hf.
    + by apply elem_of_nil in Hin.
    + eauto.
Qed.

(** X4.  A candidate of [find_subgroup] for a department and a group that
    are not empty, if its subgroup is not blank, is in the index by
    department and group under the lower-cased pair: the index loses none of
    the exact matches. *)
Theorem group_matches_indexed (taxonomy : list Tax.entry) (dept group : pystr)
    (t : Tax.entry) :
  dept ≠ [] → group ≠ [] →
  t ∈ group_matches (Some dept) (Some group) taxonomy →
  sub_of t ≠ [] →
  ∃ l, (build_lookup lower taxonomy).1 !! (lower dept, lower group) = Some l
       ∧ t ∈ l.
Proof.
  intros Hd Hg Ht Hs.
  destruct (build_lookup_buckets taxonomy) as [H _]. rewrite H.
  apply list_elem_of_In, filter_In in Ht as [Ht Hc].
  apply andb_true_iff in Hc as [[Hcd Hcg]%andb_true_iff _].
  apply str_eqb_eq in Hcd, Hcg.
  assert (Hin : t ∈ filter (filed_under_group lower (lower dept, lower group))
                      taxonomy).
  { apply list_elem_of_filter. split; [|by apply list_elem_of_In].
    unfold filed_under_group, dept_of, grp_of. by rewrite Hcd, Hcg. }
  destruct (filter _ taxonomy) as [|t' l'] eqn:Hf.
  - by apply elem_of_nil in Hin.
  - eauto.
Qed.

End IndexFacts.

(** ** Trimming *)

Lemma lstrip_blank (l : pystr) : blank l → lstrip l = [].
Proof. induction 1 as [|c l Hc _ IH]; [done|]. simpl. by rewrite Hc. Qed.

Lemma lstrip_blank_app (l s : pystr) : blank l → lstrip (l ++ s) = lstrip s.
Proof. induction 1 as [|c l Hc _ IH]; [done|]. simpl. by rewrite Hc. Qed.

Lemma lstrip_app_blank (s r : pystr) :
  blank r →
  lstrip (s ++ r) = match lstrip s with [] => [] | _ => lstrip s ++ r end.
Proof.
  intros Hr. induction s as [|c s IH]; simpl.
  - by rewrite lstrip_blank.
  - destruct (isspace c); [apply IH|done].
Qed.

Lemma blank_rev (l : pystr) : blank l → blank (rev l).
Proof. unfold blank. apply List.Forall_rev. Qed.

Lemma rstrip_app_blank (s r : pystr) : blank r → rstrip (s ++ r) = rstrip s.
Proof.
  intros Hr. unfold rstrip.
  by rewrite rev_app_distr, lstrip_blank_app by by apply blank_rev.
Qed.

Lemma strip_padded (l s r : pystr) :
  blank l → blank r → strip (l ++ s ++ r) = strip s.
Proof.
  intros Hl Hr. unfold strip.
  rewrite lstrip_blank_app, lstrip_app_blank by done.
  destruct (lstrip s) as [|c s'] eqn:Hs; [done|].
  by rewrite rstrip_app_blank.
Qed.

Section FinderFacts.

Variable lower : pystr → pystr.

(** ** What [find_subgroup] returns *)

Lemma find_subgroup_found (dept_name group_name product_name : cell)
    (taxonomy : list Tax.entry) :
  ∃ found,
    find_subgroup lower dept_name group_name product_name taxonomy = Ok found
    ∧ (found = None ↔ group_matches dept_name group_name taxonomy = [])
    ∧ (∀ sub, found = Some sub →
         sub ≠ []
         ∧ ∃ t, t ∈ taxonomy ∧ Tax.sub_name t = Some sub
                ∧ dept_name = Some (dept_of t)
                ∧ group_name = Some (grp_of t)).
Proof.
  assert (Hcand : ∀ m, m ∈ group_matches dept_name group_name taxonomy →
            ∃ sub, Tax.sub_name m = Some sub ∧ sub ≠ []
                   ∧ m ∈ taxonomy ∧ dept_name = Some (dept_of m)
                   ∧ group_name = Some (grp_of m)).
  { intros m [Hm Hc]%list_elem_of_In%filter_In.
    apply andb_true_iff in Hc as [[Hd Hg]%andb_true_iff Hs].
    destruct (Tax.sub_name m) as [[|c sub]|] eqn:Hsub; try done.
    exists (c :: sub). split_and!; [done..|by apply list_elem_of_In| |].
    - destruct dept_name as [d|]; [|done].
      apply str_eqb_eq in Hd. by rewrite <-Hd.
    - destruct group_name as [g|]; [|done].
      apply str_eqb_eq in Hg. by rewrite <-Hg. }
  pose proof (find_subgroup_cases lower dept_name group_name product_name
                taxonomy) as H.
  destruct (group_matches dept_name group_name taxonomy)
    as [|m [|m' ms]] eqn:Hm.
  - exists None. split_and!; [done..|]. by intros sub.
  - destruct (Hcand m) as (sub & Hsub & Hne & Hin & Hd & Hg); [left|].
    exists (Some sub). rewrite H, Hsub. split_and!; [done..|].
    intros sub' [= <-]. eauto 10.
  - set (m0 := default m _) in H.
    assert (Hm0 : m0 ∈ m :: m' :: ms).
    { subst m0. destruct (List.find _ _) as [m''|] eqn:Hf; simpl; [|left].
      apply find_some in Hf as [Hf _]. by apply list_elem_of_In. }
    destruct (Hcand m0 Hm0) as (sub & Hsub & Hne & Hin & Hd & Hg).
    exists (Some sub). rewrite H, Hsub. split_and!; [done..|].
    intros sub' [= <-]. eauto 10.
Qed.

(** ** White space around the names of the taxonomy *)

Lemma group_matches_padded (dept_name group_name : cell)
    (taxonomy taxonomy' : list Tax.entry) :
  Forall2 (λ t t', ∃ l1 r1 l2 r2,
             blank l1 ∧ blank r1 ∧ blank l2 ∧ blank r2
             ∧ t' = padded l1 r1 l2 r2 t) taxonomy taxonomy' →
  Tax.sub_name <$> group_matches dept_name group_name taxonomy'
  = Tax.sub_name <$> group_matches dept_name group_name taxonomy.
Proof.
  induction 1 as [|t t' taxonomy taxonomy' Ht _ IH]; [done|].
  destruct Ht as (l1 & r1 & l2 & r2 & Hl1 & Hr1 & Hl2 & Hr2 & ->).
  unfold group_matches in *.
  cbn [List.filter Tax.dept_name Tax.grp_name Tax.sub_name padded or_empty].
  rewrite !strip_padded by done.
  destruct (eq_cell _ _ && eq_cell _ _ && truthy _);
    rewrite ?fmap_cons, IH; done.
Qed.

Lemma find_subgroup_by_names (dept_name group_name product_name : cell)
    (taxonomy taxonomy' : list Tax.entry) :
  Tax.sub_name <$> group_matches dept_name group_name taxonomy'
  = Tax.sub_name <$> group_matches dept_name group_name taxonomy →
  find_subgroup lower dept_name group_name product_name taxonomy'
  = find_subgroup lower dept_name group_name product_name taxonomy.
Proof.
  intros Hnames.
  assert (Hfind : ∀ ms ms' : list Tax.entry, ∀ d d' : Tax.entry,
            Tax.sub_name <$> ms' = Tax.sub_name <$> ms →
            Tax.sub_name d' = Tax.sub_name d →
            Tax.sub_name
              (default d' (List.find
                             (word_in_name lower
                                (lower (or_empty product_name))) ms'))
            = Tax.sub_name
                (default d (List.find
                              (word_in_name lower
                                 (lower (or_empty product_name))) ms))).
  { induction ms as [|m ms IH]; intros [|m' ms'] d d' Hms Hd;
      try done.
    injection Hms as Hm Hms. simpl.
    unfold word_in_name at 1 3. rewrite Hm.
    destruct (existsb _ _); [done|]. by apply IH. }
  pose proof (find_subgroup_cases lower dept_name group_name product_name
                taxonomy) as H.
  pose proof (find_subgroup_cases lower dept_name group_name product_name
                taxonomy') as H'.
  destruct (group_matches dept_name group_name taxonomy)
    as [|m [|m1 ms]],
    (group_matches dept_name group_name taxonomy')
    as [|m' [|m1' ms']]; simpl in Hnames; try discriminate Hnames.
  - by rewrite H, H'.
  - rewrite H, H'. injection Hnames as Hm. by rewrite Hm.
  - rewrite H, H'. f_equal. apply Hfind; [done|].
    by injection Hnames as Hm _.
Qed.

(** X6.  White space around the department and group names of the taxonomy
    does not change what [find_subgroup] returns: the names of the taxonomy
    are trimmed before they are compared. *)
Theorem find_subgroup_trims_taxonomy (dept_name group_name product_name : cell)
    (taxonomy taxonomy' : list Tax.entry) :
  Forall2 (λ t t', ∃ l1 r1 l2 r2,
             blank l1 ∧ blank r1 ∧ blank l2 ∧ blank r2
             ∧ t' = padded l1 r1 l2 r2 t) taxonomy taxonomy' →
  find_subgroup lower dept_name group_name product_name taxonomy'
  = find_subgroup lower dept_name group_name product_name taxonomy.
Proof.
  intros H. by apply find_subgroup_by_names, group_matches_padded.
Qed.

End FinderFacts.

(** ** The loop as a map *)

Section CascadeFacts.

Variable lower : pystr → pystr.
Variable taxonomy : list Tax.entry.

Lemma appends_result_for (row : Row.t) :
  appends lower taxonomy row (result_for lower taxonomy row).
Proof.
  unfold result_for. destruct (is_skipped row) eqn:Hs.
  { intros st. by rewrite body_skipped. }
  destruct (resolved_by_subgroup lower taxonomy row) eqn:Hr.
  { intros st.
    destruct (body_subgroup lower taxonomy row st Hs Hr)
      as (found_sub & Hf & _ & ->).
    by rewrite Hf. }
  pose proof (λ st, body_falls_through lower taxonomy row st Hs Hr) as Hb.
  destruct (match_by_keyword lower (Row.item_name row))
    as [[[[new_domain new_dept] new_group] new_sub]|].
  { destruct (has_new_marker _) eqn:Hn; intros st; by rewrite Hb. }
  destruct (truthy (Row.dept row) && negb (truthy (Row.group row)));
    [destruct (dept_matches (Row.dept row) taxonomy) as [|t ts]|];
    intros st; by rewrite Hb.
Qed.

Lemma run_results (rows : list Row.t) :
  ∃ d,
    classify_products lower taxonomy rows
    = Ok (result_for lower taxonomy <$> rows, d,
          list_to_set (new_tuples (result_for lower taxonomy <$> rows)))
    ∧ stats_ok d
    ∧ (∀ k, d !! k
            = (λ n, n + counted k (result_for lower taxonomy <$> rows))%nat
              <$> initial_stats !! k).
Proof.
  destruct (classify_products_run lower taxonomy rows)
    as (rs & d & Hrun & Hd & Hk & Hall).
  assert (Hrs : rs = result_for lower taxonomy <$> rows).
  { clear Hrun Hk. induction Hall as [|row r rows rs [_ Hr] _ IH]; [done|].
    rewrite fmap_cons. f_equal; [|done].
    eapply is_verdict_unique; apply appends_verdict; [done|].
    apply appends_result_for. }
  exists d. by rewrite <-Hrs.
Qed.

Lemma resolved_by_subgroup_candidates (row : Row.t) :
  resolved_by_subgroup lower taxonomy row = true
  ↔ truthy (Row.dept row) = true ∧ truthy (Row.group row) = true
    ∧ group_matches (Row.dept row) (Row.group row) taxonomy ≠ [].
Proof.
  unfold resolved_by_subgroup.
  destruct (find_subgroup_ok lower (Row.dept row) (Row.group row)
              (Row.item_name row) taxonomy) as (found & -> & ->).
  rewrite !andb_true_iff, negb_true_iff, bool_decide_eq_false. tauto.
Qed.

Lemma status_result_for (row : Row.t) :
  Res.status (result_for lower taxonomy row) = status_of lower taxonomy row.
Proof.
  unfold result_for, status_of.
  destruct (is_skipped row); [done|].
  destruct (resolved_by_subgroup lower taxonomy row); [done|].
  destruct (match_by_keyword lower (Row.item_name row)) as [cat|]; [done|].
  destruct (truthy (Row.dept row) && negb (truthy (Row.group row))); [|done].
  by destruct (dept_matches (Row.dept row) taxonomy).
Qed.

(** ** The status of a row *)

Lemma status_of_table (row : Row.t) :
  let s := status_of lower taxonomy row in
  let kw := match_by_keyword lower (Row.item_name row) in
  (s = Skipped ↔ has_sentinel row)
  ∧ (s = AutoSubgroup ↔ ¬ has_sentinel row ∧ has_candidates taxonomy row)
  ∧ (s = NewCategory
     ↔ ¬ has_sentinel row ∧ ¬ has_candidates taxonomy row
       ∧ ∃ cat, kw = Some cat ∧ marked_new cat)
  ∧ (s = AutoFull
     ↔ ¬ has_sentinel row ∧ ¬ has_candidates taxonomy row
       ∧ ∃ cat, kw = Some cat ∧ ¬ marked_new cat)
  ∧ (s = PartialAuto
     ↔ ¬ has_sentinel row ∧ kw = None
       ∧ truthy (Row.dept row) = true ∧ truthy (Row.group row) = false
       ∧ dept_matches (Row.dept row) taxonomy ≠ [])
  ∧ (s = Unknown
     ↔ ¬ has_sentinel row ∧ kw = None
       ∧ (truthy (Row.dept row) = false
          ∨ (truthy (Row.group row) = true
             ∧ group_matches (Row.dept row) (Row.group row) taxonomy = [])
          ∨ (truthy (Row.group row) = false
             ∧ dept_matches (Row.dept row) taxonomy = []))).
Proof.
  intros s kw. subst s kw. unfold status_of.
  pose proof (is_skipped_sentinel row) as Hs.
  pose proof (resolved_by_subgroup_candidates row) as Hr.
  fold (has_candidates taxonomy row) in Hr.
  assert (Hcand : has_candidates taxonomy row →
            truthy (Row.dept row) = true ∧ truthy (Row.group row) = true
            ∧ group_matches (Row.dept row) (Row.group row) taxonomy ≠ [])
    by done.
  assert (Hcand' : truthy (Row.dept row) = true →
            truthy (Row.group row) = true →
            group_matches (Row.dept row) (Row.group row) taxonomy ≠ [] →
            has_candidates taxonomy row)
    by (by intros; split_and!).
  generalize dependent (has_candidates taxonomy row). intros C Hr Hcand Hcand'.
  generalize dependent (has_sentinel row). intros S Hs.
  destruct (is_skipped row).
  { assert (S) by by apply Hs.
    split_and!; (split; [first [discriminate|done|tauto]|tauto]). }
  assert (¬ S) by (intros ?; by apply diff_false_true, Hs).
  clear Hs.
  destruct (resolved_by_subgroup lower taxonomy row).
  { assert (HC : C) by by apply Hr.
    destruct (Hcand HC) as (Hd & Hg & Hm).
    split_and!; (split; [first [discriminate|done|tauto]|]); try tauto.
    - intros (_ & _ & _ & Hg' & _). congruence.
    - intros (_ & _ & [Hd'|[[_ Hm']|[Hg' _]]]); congruence. }
  assert (HC : ¬ C) by (intros ?; by apply diff_false_true, Hr).
  clear Hr Hcand.
  destruct (match_by_keyword lower (Row.item_name row)) as [cat|].
  { pose proof (has_new_marker_marked cat) as Hn.
    destruct (has_new_marker cat).
    - assert (Hm : marked_new cat) by by apply Hn.
      split_and!; (split; [first [discriminate|done|tauto|idtac]|]);
        try tauto.
      + intros _. split_and!; [done..|]. by exists cat.
      + intros (_ & _ & cat' & [= <-] & Hm'). done.
      + intros (_ & [=] & _).
      + intros (_ & [=] & _).
    - assert (Hm : ¬ marked_new cat)
        by (intros ?; by apply diff_false_true, Hn).
      split_and!; (split; [first [discriminate|done|tauto|idtac]|]);
        try tauto.
      + intros (_ & _ & cat' & [= <-] & Hm'). done.
      + intros _. split_and!; [done..|]. by exists cat.
      + intros (_ & [=] & _).
      + intros (_ & [=] & _). }
  assert (Hnone : ∀ P : category → Prop,
            ¬ ∃ cat, (None : option category) = Some cat ∧ P cat)
    by (by intros P (cat & [=] & _)).
  destruct (truthy (Row.dept row)) eqn:Hd, (truthy (Row.group row)) eqn:Hg;
    simpl; try case_bool_decide; simpl.
  all: split_and!;
    (split; [first [discriminate|done|tauto|idtac]|]); try tauto.
  all: try (intros (_ & _ & HP); by apply Hnone in HP).
  all: try (intros (_ & _ & ? & ? & ?); congruence).
  all: try (intros (_ & _ & [?|[[? ?]|[? ?]]]); congruence).
  all: try (intros _; split_and!; try done).
  all: try (right; left; split; [done|];
            destruct (group_matches _ _ _); [done|];
            exfalso; by apply HC, Hcand').
  all: try (by left).
  all: try (right; right; by split).
Qed.

(** X7.  The status of each result is decided by the row at its position
    alone: [Skipped] exactly for a name with the skip sentinel; otherwise
    [AutoSubgroup] exactly when department and group are present and the
    taxonomy has a candidate for them; otherwise [NewCategory] or [AutoFull]
    exactly when a keyword rule matches, according to the marker in its
    category; otherwise [PartialAuto] exactly for a department without group
    that has an entry with a subgroup in the taxonomy; and [Unknown] exactly
    in the remaining cases. *)
Theorem status_decision (rows : list Row.t) :
  ∃ rs d nc,
    classify_products lower taxonomy rows = Ok (rs, d, nc)
    ∧ Forall2
        (λ row r,
           let kw := match_by_keyword lower (Row.item_name row) in
           (Res.status r = Skipped ↔ has_sentinel row)
           ∧ (Res.status r = AutoSubgroup
              ↔ ¬ has_sentinel row ∧ has_candidates taxonomy row)
           ∧ (Res.status r = NewCategory
              ↔ ¬ has_sentinel row ∧ ¬ has_candidates taxonomy row
                ∧ ∃ cat, kw = Some cat ∧ marked_new cat)
           ∧ (Res.status r = AutoFull
              ↔ ¬ has_sentinel row ∧ ¬ has_candidates taxonomy row
                ∧ ∃ cat, kw = Some cat ∧ ¬ marked_new cat)
           ∧ (Res.status r = PartialAuto
              ↔ ¬ has_sentinel row ∧ kw = None
                ∧ truthy (Row.dept row) = true
                ∧ truthy (Row.group row) = false
                ∧ dept_matches (Row.dept row) taxonomy ≠ [])
           ∧ (Res.status r = Unknown
              ↔ ¬ has_sentinel row ∧ kw = None
                ∧ (truthy (Row.dept row) = false
                   ∨ (truthy (Row.group row) = true
                      ∧ group_matches (Row.dept row) (Row.group row)
                          taxonomy = [])
                   ∨ (truthy (Row.group row) = false
                      ∧ dept_matches (Row.dept row) taxonomy = []))))
        rows rs.
Proof.
  destruct (run_results rows) as (d & Hrun & _).
  eexists _, d, _. split; [exact Hrun|].
  apply Forall2_fmap_r, Forall_Forall2_diag, Forall_forall.
  intros row _. unfold compose. cbv beta.
  rewrite status_result_for. apply status_of_table.
Qed.

End CascadeFacts.

(** ** The fields of a result *)

Lemma sentinels_truthy :
  truthy (Some skipped_subgroup) = true
  ∧ truthy (Some manual_review) = true
  ∧ truthy (Some needs_review) = true
  ∧ truthy (Some unknown_domain) = true.
Proof. by vm_compute. Qed.

Lemma truthy_py_or (a b : cell) : truthy b = true → truthy (py_or a b) = true.
Proof. unfold py_or. by destruct (truthy a) eqn:Ha. Qed.

Lemma truthy_suffixed (s : pystr) : truthy (Some (s ++ review_suffix)) = true.
Proof. destruct s; [by vm_compute|done]. Qed.

Lemma RULES_categories_filled :
  forallb
    (λ r : rule,
       truthy (Some r.2.1.1.1) && truthy (Some r.2.1.1.2)
       && truthy (Some r.2.1.2) && truthy (Some r.2.2))
    RULES = true.
Proof. by vm_compute. Qed.

Lemma RULES_keywords_filled :
  forallb (λ r : rule, negb (keyword_in [] r)) RULES = true.
Proof. by vm_compute. Qed.

Lemma match_rules_elem (lower : pystr → pystr) (rules : list rule)
    (name_lower : pystr) (cat : category) :
  match_rules lower rules name_lower = Some cat →
  ∃ r : rule, r ∈ rules ∧ r.2 = cat.
Proof.
  induction rules as [|[keywords cat'] rules IH]; [done|].
  simpl. destruct (existsb _ keywords).
  - intros [= <-]. eexists. split; [left|done].
  - intros H. destruct (IH H) as (r & Hr & Hcat).
    exists r. split; [by right|done].
Qed.

Lemma match_by_keyword_elem (lower : pystr → pystr) (name : cell)
    (cat : category) :
  match_by_keyword lower name = Some cat → ∃ r : rule, r ∈ RULES ∧ r.2 = cat.
Proof. apply match_rules_elem. Qed.

Lemma match_by_keyword_filled (lower : pystr → pystr) (name : cell)
    (cat : category) :
  match_by_keyword lower name = Some cat →
  truthy (Some cat.1.1.2) = true ∧ truthy (Some cat.1.2) = true
  ∧ truthy (Some cat.2) = true.
Proof.
  intros (r & Hr & <-)%match_by_keyword_elem.
  pose proof RULES_categories_filled as H.
  rewrite forallb_forall in H.
  apply list_elem_of_In, H in Hr.
  apply andb_true_iff in Hr as [[[_ ?]%andb_true_iff ?]%andb_true_iff ?].
  done.
Qed.

Lemma match_by_keyword_nameless (lower : pystr → pystr) (name : cell) :
  (∀ s, forallb hebrew_or_space s = true → lower s = s) →
  truthy name = false → match_by_keyword lower name = None.
Proof.
  intros Hlower Hname. unfold match_by_keyword. rewrite Hname.
  rewrite match_rules_find by by apply RULES_keywords_lower.
  rewrite find_nowhere; [done|].
  intros r Hr%list_elem_of_In.
  pose proof RULES_keywords_filled as H. rewrite forallb_forall in H.
  apply H in Hr. by apply negb_true_iff in Hr.
Qed.

Section ResultFacts.

Variable lower : pystr → pystr.
Variable taxonomy : list Tax.entry.

Lemma not_resolved (row : Row.t) :
  ¬ has_candidates taxonomy row →
  resolved_by_subgroup lower taxonomy row = false.
Proof.
  intros H. destruct (resolved_by_subgroup lower taxonomy row) eqn:Hr; [|done].
  by apply resolved_by_subgroup_candidates in Hr.
Qed.

Lemma result_for_filled (row : Row.t) :
  let r := result_for lower taxonomy row in
  truthy (Res.subgroup r) = true
  ∧ (Res.status r ≠ Skipped → truthy (Res.dept r) = true)
  ∧ (Res.status r ≠ Skipped → Res.status r ≠ PartialAuto →
     truthy (Res.group r) = true).
Proof.
  destruct sentinels_truthy as (Hskip & Hmanual & Hreview & _).
  unfold result_for. destruct (is_skipped row).
  { simpl. by split_and!. }
  destruct (resolved_by_subgroup lower taxonomy row) eqn:Hr.
  { pose proof Hr as (Hd & Hg & _)%resolved_by_subgroup_candidates.
    unfold resolved_by_subgroup in Hr.
    apply andb_true_iff in Hr as [_ Hr].
    destruct (find_subgroup _ _ _ _ _); by split_and!. }
  destruct (match_by_keyword lower (Row.item_name row)) as [cat|] eqn:Hkw.
  { apply match_by_keyword_filled in Hkw as (? & ? & ?). by split_and!. }
  destruct (truthy (Row.dept row)) eqn:Hd; simpl.
  - destruct (truthy (Row.group row)) eqn:Hg; simpl.
    + unfold py_or. rewrite Hd, Hg. by split_and!.
    + destruct (dept_matches (Row.dept row) taxonomy) as [|t ts]; simpl.
      * unfold py_or. rewrite Hd, Hg. by split_and!.
      * split_and!; [apply truthy_suffixed|done..].
  - split_and!; [done|intros; by apply truthy_py_or..].
Qed.

(** X8.  Every result of a run has a subgroup that is not empty; unless it is
    skipped it has a department that is not empty; and unless it is skipped
    or of status [PartialAuto] it has a group that is not empty. *)
Theorem results_are_filled (rows : list Row.t) :
  ∃ rs d nc,
    classify_products lower taxonomy rows = Ok (rs, d, nc)
    ∧ Forall
        (λ r,
           truthy (Res.subgroup r) = true
           ∧ (Res.status r ≠ Skipped → truthy (Res.dept r) = true)
           ∧ (Res.status r ≠ Skipped → Res.status r ≠ PartialAuto →
              truthy (Res.group r) = true))
        rs.
Proof.
  destruct (run_results lower taxonomy rows) as (d & Hrun & _).
  eexists _, d, _. split; [exact Hrun|].
  apply Forall_fmap, Forall_forall. intros row _.
  apply result_for_filled.
Qed.

(** X9.  A row that reaches the keyword step (not skipped, no candidate for
    its department and group) and for which [match_by_keyword] returns a
    tuple without the new-category marker gets the status [AutoFull]; its
    resolved domain, department, group and subgroup are those of the rule,
    whatever the row had; on such a row the body only counts it under
    ["auto_full"] and adds no category. *)
Theorem keyword_match_auto_full (rows : list Row.t) (i : nat) (row : Row.t)
    (cat : category) :
  rows !! i = Some row →
  ¬ has_sentinel row →
  ¬ has_candidates taxonomy row →
  match_by_keyword lower (Row.item_name row) = Some cat →
  ¬ marked_new cat →
  let r := carry row (Some cat.1.1.1) (Some cat.1.1.2) (Some cat.1.2)
             (Some cat.2) AutoFull in
  (∃ rs d nc,
     classify_products lower taxonomy rows = Ok (rs, d, nc)
     ∧ rs !! i = Some r)
  ∧ verdict lower taxonomy row
    = Ok {| results := [r];
            stats := <["auto_full" := 1%nat]> initial_stats;
            new_categories := ∅ |}.
Proof.
  intros Hi Hs Hc Hkw Hnew r.
  assert (Hn : has_new_marker cat = false).
  { destruct (has_new_marker cat) eqn:Hn; [|done].
    by apply has_new_marker_marked in Hn. }
  apply not_skipped in Hs. apply not_resolved in Hc.
  split.
  - destruct (run_results lower taxonomy rows) as (d & Hrun & _).
    eexists _, d, _. split; [exact Hrun|].
    rewrite list_lookup_fmap, Hi. simpl. f_equal.
    unfold result_for. by rewrite Hs, Hc, Hkw, Hn.
  - unfold verdict. rewrite body_falls_through by done.
    by rewrite Hkw, Hn.
Qed.

(** X10.  [lower] leaving Hebrew letters and spaces alone, a row without a
    name ([None] or the empty string) matches no keyword rule and is never
    skipped: its status is [AutoSubgroup], [PartialAuto] or [Unknown]. *)
Theorem nameless_rows (rows : list Row.t) :
  (∀ s, forallb hebrew_or_space s = true → lower s = s) →
  ∃ rs d nc,
    classify_products lower taxonomy rows = Ok (rs, d, nc)
    ∧ Forall2
        (λ row r,
           truthy (Row.item_name row) = false →
           match_by_keyword lower (Row.item_name row) = None
           ∧ (Res.status r = AutoSubgroup ∨ Res.status r = PartialAuto
              ∨ Res.status r = Unknown))
        rows rs.
Proof.
  intros Hlower.
  destruct (run_results lower taxonomy rows) as (d & Hrun & _).
  eexists _, d, _. split; [exact Hrun|].
  apply Forall2_fmap_r, Forall_Forall2_diag, Forall_forall.
  intros row _. unfold compose. cbv beta. intros Hname.
  pose proof (match_by_keyword_nameless lower _ Hlower Hname) as Hkw.
  split; [done|].
  rewrite status_result_for. unfold status_of, is_skipped.
  rewrite Hname, Hkw. simpl.
  destruct (resolved_by_subgroup lower taxonomy row); [by left|].
  destruct (_ && _); auto.
Qed.

(** X11.  A result of status [AutoSubgroup] keeps the domain, the department
    and the group of its row, and its subgroup is the subgroup name, not
    empty, of an entry of the taxonomy whose trimmed department and group
    are those of the row. *)
Theorem auto_subgroup_from_taxonomy (rows : list Row.t) :
  ∃ rs d nc,
    classify_products lower taxonomy rows = Ok (rs, d, nc)
    ∧ Forall2
        (λ row r,
           Res.status r = AutoSubgroup →
           Res.domain r = Row.domain row
           ∧ Res.dept r = Row.dept row
           ∧ Res.group r = Row.group row
           ∧ ∃ t, t ∈ taxonomy
                  ∧ Res.subgroup r = Tax.sub_name t
                  ∧ truthy (Tax.sub_name t) = true
                  ∧ Row.dept row = Some (dept_of t)
                  ∧ Row.group row = Some (grp_of t))
        rows rs.
Proof.
  destruct (run_results lower taxonomy rows) as (d & Hrun & _).
  eexists _, d, _. split; [exact Hrun|].
  apply Forall2_fmap_r, Forall_Forall2_diag, Forall_forall.
  intros row _. unfold compose. cbv beta.
  unfold result_for. destruct (is_skipped row); [done|].
  destruct (resolved_by_subgroup lower taxonomy row) eqn:Hr.
  - intros _. split_and!; [done..|]. simpl.
    unfold resolved_by_subgroup in Hr. apply andb_true_iff in Hr as [_ Hr].
    destruct (find_subgroup_found lower (Row.dept row) (Row.group row)
                (Row.item_name row) taxonomy) as (found & Hf & _ & Hsub).
    rewrite Hf in Hr |- *.
    destruct found as [sub|]; [|done].
    destruct (Hsub sub eq_refl) as (_ & t & Ht & Hts & Hd & Hg).
    exists t. rewrite Hts. by split_and!.
  - destruct (match_by_keyword lower (Row.item_name row)) as [cat|].
    { simpl. by destruct (has_new_marker cat). }
    destruct (_ && _); [|done].
    by destruct (dept_matches (Row.dept row) taxonomy).
Qed.

(** X12.  Every tuple of the set of new categories, hence of its sorted
    report, is the category of a rule of [RULES] and has the new-category
    marker in its department, group or subgroup: the engine reports no
    category that the rule table does not hold. *)
Theorem new_categories_from_rules (rows : list Row.t) :
  ∃ rs d nc,
    classify_products lower taxonomy rows = Ok (rs, d, nc)
    ∧ (∀ c, c ∈ sorted nc →
            marked_new c ∧ ∃ r : rule, r ∈ RULES ∧ r.2 = c).
Proof.
  destruct (run_results lower taxonomy rows) as (d & Hrun & _).
  eexists _, d, _. split; [exact Hrun|].
  intros c. rewrite elem_of_sorted, elem_of_list_to_set, elem_of_new_tuples.
  intros (r & (row & -> & _)%list_elem_of_fmap & Hstatus & <-).
  revert Hstatus. unfold result_for.
  destruct (is_skipped row); [done|].
  destruct (resolved_by_subgroup lower taxonomy row); [done|].
  destruct (match_by_keyword lower (Row.item_name row))
    as [[[[new_domain new_dept] new_group] new_sub]|] eqn:Hkw.
  - destruct (has_new_marker _) eqn:Hn; [|done]. intros _. split.
    + by apply has_new_marker_marked.
    + by apply match_by_keyword_elem in Hkw.
  - destruct (_ && _); [|done].
    by destruct (dept_matches (Row.dept row) taxonomy).
Qed.

End ResultFacts.

(** ** The counters of a run *)

Lemma stats_total_five (v1 v2 v3 v4 v5 : nat) :
  stats_total
    (<["auto_full" := v1]> (<["auto_subgroup" := v2]>
    (<["new_category" := v3]> (<["skipped" := v4]>
    (<["unknown" := v5]> ∅)))))
  = (v1 + v2 + v3 + v4 + v5)%nat.
Proof.
  unfold stats_total.
  repeat (rewrite map_fold_insert_L;
          [|intros; lia
           |by rewrite ?lookup_insert_ne, lookup_empty by done]).
  rewrite map_fold_empty. lia.
Qed.

Lemma counted_length (rs : list Res.t) :
  (counted "auto_full" rs + counted "auto_subgroup" rs
   + counted "new_category" rs + counted "skipped" rs
   + counted "unknown" rs)%nat
  = length rs.
Proof.
  induction rs as [|r rs IH]; [done|].
  rewrite !counted_cons. simpl length. rewrite <-IH.
  destruct (Res.status r); simpl; lia.
Qed.

Lemma counted_app (k : string) (rs1 rs2 : list Res.t) :
  counted k (rs1 ++ rs2) = (counted k rs1 + counted k rs2)%nat.
Proof. unfold counted. by rewrite List.filter_app, length_app. Qed.

Lemma counted_Permutation (k : string) (rs rs' : list Res.t) :
  rs ≡ₚ rs' → counted k rs = counted k rs'.
Proof.
  induction 1 as [|r rs rs' _ IH|r1 r2 rs|rs1 rs2 rs3 _ IH1 _ IH2].
  - done.
  - by rewrite !counted_cons, IH.
  - rewrite !counted_cons. lia.
  - by rewrite IH1.
Qed.

Lemma new_tuples_app (rs1 rs2 : list Res.t) :
  new_tuples (rs1 ++ rs2) = new_tuples rs1 ++ new_tuples rs2.
Proof. unfold new_tuples. by rewrite List.filter_app, fmap_app. Qed.

Lemma stats_of_counts (d : gmap string nat) (rs : list Res.t) :
  (∀ k, d !! k = (λ n, n + counted k rs)%nat <$> initial_stats !! k) →
  d = <["auto_full" := counted "auto_full" rs]>
        (<["auto_subgroup" := counted "auto_subgroup" rs]>
        (<["new_category" := counted "new_category" rs]>
        (<["skipped" := counted "skipped" rs]>
        (<["unknown" := counted "unknown" rs]> ∅)))).
Proof.
  intros Hk. apply map_eq. intros k. rewrite Hk. unfold initial_stats.
  destruct (decide (k = "auto_full")) as [->|?];
    [by rewrite !lookup_insert_eq|].
  rewrite !(lookup_insert_ne _ "auto_full") by done.
  destruct (decide (k = "auto_subgroup")) as [->|?];
    [by rewrite !lookup_insert_eq|].
  rewrite !(lookup_insert_ne _ "auto_subgroup") by done.
  destruct (decide (k = "new_category")) as [->|?];
    [by rewrite !lookup_insert_eq|].
  rewrite !(lookup_insert_ne _ "new_category") by done.
  destruct (decide (k = "skipped")) as [->|?];
    [by rewrite !lookup_insert_eq|].
  rewrite !(lookup_insert_ne _ "skipped") by done.
  destruct (decide (k = "unknown")) as [->|?];
    [by rewrite !lookup_insert_eq|].
  by rewrite !(lookup_insert_ne _ "unknown"), !lookup_empty by done.
Qed.

Section RunFacts.

Variable lower : pystr → pystr.
Variable taxonomy : list Tax.entry.

(** X13.  At the end of every run the four counters ["skipped"],
    ["auto_full"], ["new_category"] and ["unknown"] hold the number of
    results of their status, the counter ["auto_subgroup"] holds the number
    of results of status [AutoSubgroup] plus the number of those of status
    [PartialAuto], and there is no counter ["partial_auto"]. *)
Theorem counters_account (rows : list Row.t) :
  ∃ rs d nc,
    classify_products lower taxonomy rows = Ok (rs, d, nc)
    ∧ d !! "skipped" = Some (bearing Skipped rs)
    ∧ d !! "auto_full" = Some (bearing AutoFull rs)
    ∧ d !! "new_category" = Some (bearing NewCategory rs)
    ∧ d !! "unknown" = Some (bearing Unknown rs)
    ∧ d !! "auto_subgroup"
      = Some (bearing AutoSubgroup rs + bearing PartialAuto rs)%nat
    ∧ d !! "partial_auto" = None.
Proof. apply stats_account. Qed.

(** X14.  The total that [main] prints, the sum of the counters, is the
    number of rows classified. *)
Theorem total_is_row_count (rows : list Row.t) :
  ∃ rs d nc,
    classify_products lower taxonomy rows = Ok (rs, d, nc)
    ∧ stats_total d = length rows.
Proof.
  destruct (run_results lower taxonomy rows) as (d & Hrun & _ & Hk).
  eexists _, d, _. split; [exact Hrun|].
  rewrite (stats_of_counts _ _ Hk), stats_total_five, counted_length.
  by rewrite length_fmap.
Qed.

(** X15.  Classifying two lists of rows one after the other is classifying
    them apart and putting the outcomes together: the results are
    concatenated, the sets of new categories united and the counters
    added. *)
Theorem classify_products_app (rows1 rows2 : list Row.t) :
  ∃ rs1 d1 nc1 rs2 d2 nc2 d,
    classify_products lower taxonomy rows1 = Ok (rs1, d1, nc1)
    ∧ classify_products lower taxonomy rows2 = Ok (rs2, d2, nc2)
    ∧ classify_products lower taxonomy (rows1 ++ rows2)
      = Ok (rs1 ++ rs2, d, nc1 ∪ nc2)
    ∧ (∀ k n1 n2, d1 !! k = Some n1 → d2 !! k = Some n2 →
                  d !! k = Some (n1 + n2)%nat).
Proof.
  destruct (run_results lower taxonomy rows1) as (d1 & Hrun1 & _ & Hk1).
  destruct (run_results lower taxonomy rows2) as (d2 & Hrun2 & _ & Hk2).
  destruct (run_results lower taxonomy (rows1 ++ rows2))
    as (d & Hrun & _ & Hk).
  eexists _, d1, _, _, d2, _, d.
  split; [exact Hrun1|]. split; [exact Hrun2|]. split.
  - rewrite Hrun, fmap_app, new_tuples_app. do 2 f_equal.
    apply list_to_set_app_L.
  - intros k n1 n2. rewrite Hk1, Hk2, Hk, fmap_app, counted_app.
    destruct (initial_stats !! k) as [n|] eqn:Hn; [|done]. simpl.
    intros [= <-] [= <-]. f_equal.
    assert (n = 0%nat); [|lia].
    clear -Hn. unfold initial_stats in Hn.
    repeat (apply lookup_insert_Some in Hn as [[_ <-]|[_ Hn]]; [done|]).
    done.
Qed.

(** X16.  The order of the rows matters to the order of the results only:
    on a permutation of the rows the results are permuted, and the counters
    and the set of new categories, hence its sorted report, are the
    same. *)
Theorem classify_products_Permutation (rows rows' : list Row.t) :
  rows ≡ₚ rows' →
  ∃ rs rs' d nc,
    classify_products lower taxonomy rows = Ok (rs, d, nc)
    ∧ classify_products lower taxonomy rows' = Ok (rs', d, nc)
    ∧ rs ≡ₚ rs'.
Proof.
  intros Hperm.
  destruct (run_results lower taxonomy rows) as (d & Hrun & _ & Hk).
  destruct (run_results lower taxonomy rows') as (d' & Hrun' & _ & Hk').
  assert (Hrs : result_for lower taxonomy <$> rows
                ≡ₚ result_for lower taxonomy <$> rows')
    by by apply fmap_Permutation.
  eexists _, _, d, _. split; [exact Hrun|]. split; [|exact Hrs].
  rewrite Hrun'. do 2 f_equal.
  - f_equal. apply map_eq. intros k.
    by rewrite Hk, Hk', (counted_Permutation _ _ _ Hrs).
  - apply set_eq. intros c.
    rewrite !elem_of_list_to_set, !elem_of_new_tuples.
    by setoid_rewrite Hrs.
Qed.

End RunFacts.

(** ** Keywords behind other keywords *)

Lemma substring_trans (a b c : pystr) :
  substring a b → substring b c → substring a c.
Proof.
  intros (l1 & r1 & ->) (l2 & r2 & ->).
  exists (l2 ++ l1), (r1 ++ r2). by rewrite <-!app_assoc.
Qed.

Lemma match_rules_app (lower : pystr → pystr) (rules1 rules2 : list rule)
    (name_lower : pystr) :
  match_rules lower (rules1 ++ rules2) name_lower
  = match match_rules lower rules1 name_lower with
    | Some cat => Some cat
    | None => match_rules lower rules2 name_lower
    end.
Proof.
  induction rules1 as [|[keywords cat] rules1 IH]; [done|].
  simpl. by destruct (existsb _ keywords).
Qed.

Lemma match_rules_none (lower : pystr → pystr) (rules : list rule)
    (name_lower : pystr) (r : rule) (kw : pystr) :
  match_rules lower rules name_lower = None →
  r ∈ rules → kw ∈ r.1 → contains (lower kw) name_lower = false.
Proof.
  induction rules as [|[keywords cat] rules IH]; intros Hnone Hr Hkw.
  - by apply elem_of_nil in Hr.
  - simpl in Hnone.
    destruct (existsb _ keywords) eqn:Hex; [done|].
    apply elem_of_cons in Hr as [->|Hr]; [|by apply IH].
    destruct (contains (lower kw) name_lower) eqn:Hc; [|done].
    assert (existsb (λ kw, contains (lower kw) name_lower) keywords = true);
      [|congruence].
    apply existsb_exists. exists kw. split; [|done].
    by apply list_elem_of_In.
Qed.

(** In any rule table, a rule each keyword of which contains a keyword of a
    rule before it can be taken out without changing any result. *)
Lemma match_rules_dead_rule (lower : pystr → pystr) (before after : list rule)
    (r : rule) (name_lower : pystr) :
  (∀ kw, kw ∈ r.1 →
         ∃ (r' : rule) kw', r' ∈ before ∧ kw' ∈ r'.1
                            ∧ substring (lower kw') (lower kw)) →
  match_rules lower (before ++ r :: after) name_lower
  = match_rules lower (before ++ after) name_lower.
Proof.
  intros Hshadow. rewrite !match_rules_app.
  destruct (match_rules lower before name_lower) eqn:Hbefore; [done|].
  destruct r as [keywords cat]. simpl.
  destruct (existsb _ keywords) eqn:Hex; [|done].
  apply existsb_exists in Hex as (kw & Hkw%list_elem_of_In & Hc).
  destruct (Hshadow kw Hkw) as (r' & kw' & Hr' & Hkw' & Hsub).
  pose proof (match_rules_none lower before name_lower r' kw'
                Hbefore Hr' Hkw') as Hnot.
  apply contains_substring in Hc.
  assert (contains (lower kw') name_lower = true); [|congruence].
  apply contains_substring. by eapply substring_trans.
Qed.

Lemma shadowed_at_decided (lower : pystr → pystr) (kw : pystr) (j : nat)
    (cat : category) (name_lower : pystr) :
  Forall (λ r : rule, Forall (λ kw, lower kw = kw) r.1) RULES →
  shadowed_at kw j = true →
  listed kw cat →
  substring kw name_lower →
  match_rules lower RULES name_lower ≠ Some cat.
Proof.
  intros Hlower Hsh (r0 & Hr0 & Hkw0 & <-) Hsub.
  unfold shadowed_at in Hsh.
  destruct (RULES !! j) as [rj|] eqn:Hj; [|done].
  apply andb_true_iff in Hsh as [Hex Hall].
  apply existsb_exists in Hex as (kw' & Hkw' & Hc).
  apply contains_substring in Hc.
  assert (Hrj : keyword_in name_lower rj = true).
  { apply existsb_exists. exists kw'. split; [done|].
    apply contains_substring. by eapply substring_trans. }
  destruct (find_first _ _ _ _ Hj Hrj) as (k & r & Hk & Hr & _ & _ & Hf).
  rewrite match_rules_find, Hf by done. simpl. intros [= Heq].
  rewrite forallb_forall in Hall.
  apply list_elem_of_In, Hall in Hr0.
  apply orb_true_iff in Hr0 as [Hr0|Hr0].
  - apply negb_true_iff, bool_decide_eq_false in Hr0. done.
  - rewrite forallb_forall in Hr0.
    assert (Hin : In r (take (S j) RULES)).
    { apply list_elem_of_In, list_elem_of_lookup. exists k.
      rewrite lookup_take_lt by lia. done. }
    apply Hr0, negb_true_iff, bool_decide_eq_false in Hin. done.
Qed.

Lemma shadowed_keywords_shadowed (kw : pystr) :
  kw ∈ shadowed_keywords → ∃ j, shadowed_at kw j = true.
Proof.
  unfold shadowed_keywords. rewrite !elem_of_cons, elem_of_nil.
  intros [->|[->|[->|[->|[->|[]]]]]].
  - exists 26%nat. by vm_compute.
  - exists 26%nat. by vm_compute.
  - exists 33%nat. by vm_compute.
  - exists 45%nat. by vm_compute.
  - exists 28%nat. by vm_compute.
Qed.

Lemma dead_rule_split :
  ∃ (before after : list rule) (r : rule),
    RULES = before ++ r :: after
    ∧ delete 20%nat RULES = before ++ after
    ∧ forallb
        (λ kw, existsb
                 (λ r' : rule, existsb (λ kw', contains kw' kw) r'.1)
                 before)
        r.1 = true.
Proof.
  exists (take 20 RULES), (drop 21 RULES),
    ([u "גרעינים דלעת"; u "גרעיני אבטיח זריפה"],
     (u "פירות וירקות", u "פיצוחים", u "גרעינים *חדש*", u "גרעינים *חדש*")).
  by vm_compute.
Qed.

Section KeywordFacts.

Variable lower : pystr → pystr.

(** X17.  [lower] leaving Hebrew letters and spaces alone: a name that
    contains one of the keywords "פילה ארוז", "פילה בקר", "הודו טחון",
    "כבל טעינה", "מגרד לשון" is never given the category of the rule that
    lists this keyword, because a shorter keyword of an earlier rule, of
    another category, occurs in it and decides first. *)
Theorem shadowed_keyword_never_wins (name : cell) (kw : pystr)
    (cat : category) :
  (∀ s, forallb hebrew_or_space s = true → lower s = s) →
  kw ∈ shadowed_keywords →
  listed kw cat →
  substring kw (lower_name lower name) →
  match_by_keyword lower name ≠ Some cat.
Proof.
  intros Hlower Hkw Hlisted Hsub.
  destruct (shadowed_keywords_shadowed kw Hkw) as [j Hj].
  unfold match_by_keyword. fold (lower_name lower name).
  eapply shadowed_at_decided; [|done..].
  by apply RULES_keywords_lower.
Qed.

(** X18.  [lower] leaving Hebrew letters and spaces alone: the rule at
    position 20 of [RULES] (the second rule for seeds) never decides, each of
    its two keywords containing a keyword of the rule before it: for every
    name [match_by_keyword] returns what the table without this rule
    returns. *)
Theorem second_seed_rule_is_dead (name : cell) :
  (∀ s, forallb hebrew_or_space s = true → lower s = s) →
  match_by_keyword lower name
  = match_rules lower (delete 20%nat RULES) (lower_name lower name).
Proof.
  intros Hlower.
  destruct dead_rule_split as (before & after & r & HR & -> & Hsh).
  unfold match_by_keyword. fold (lower_name lower name). rewrite HR.
  apply match_rules_dead_rule. intros kw Hkw.
  rewrite forallb_forall in Hsh.
  pose proof Hkw as Hkw1%list_elem_of_In%Hsh.
  apply existsb_exists in Hkw1 as (r' & Hr' & Hex).
  apply existsb_exists in Hex as (kw' & Hkw' & Hc).
  exists r', kw'. rewrite !list_elem_of_In. split_and!; [done..|].
  pose proof (RULES_keywords_lower lower Hlower) as HF.
  rewrite HR, Forall_forall in HF.
  assert (Hl : lower kw = kw).
  { assert (Hr : r ∈ before ++ r :: after) by set_solver.
    apply HF in Hr. rewrite Forall_forall in Hr. by apply Hr. }
  assert (Hl' : lower kw' = kw').
  { assert (Hr : r' ∈ before ++ r :: after)
      by (apply elem_of_app; left; by apply list_elem_of_In).
    apply HF in Hr. rewrite Forall_forall in Hr.
    by apply Hr, list_elem_of_In. }
  rewrite Hl, Hl'. by apply contains_substring.
Qed.

End KeywordFacts.

(** ** What is written for a status *)

(** X19.  Each of the six statuses has a label in [STATUS_LABELS] and a
    colour in [STATUS_COLORS], so that [write_output] never falls back on
    the status string or on white; labels and colours are pairwise
    distinct: the status of a row can be read back from its last cell or
    from its fill colour, which is never the colour of the header row. *)
Theorem status_marks_distinct (r1 r2 : Res.t) :
  STATUS_LABELS !! status_key (Res.status r1)
  = Some (status_label (Res.status r1))
  ∧ STATUS_COLORS !! status_key (Res.status r1)
    = Some (status_color (Res.status r1))
  ∧ (row_data r1 !! 8%nat = row_data r2 !! 8%nat →
     Res.status r1 = Res.status r2)
  ∧ (status_color (Res.status r1) = status_color (Res.status r2) →
     Res.status r1 = Res.status r2)
  ∧ status_color (Res.status r1) ≠ "4472C4"%string.
Proof.
  unfold row_data. simpl.
  destruct (Res.status r1), (Res.status r2).
  all: split_and!; [by vm_compute|by vm_compute|..].
  all: try done.
  all: try (intros H; apply (bool_decide_pack _) in H; by vm_compute in H).
Qed.

(** ** The further statements on concrete rows *)

(** The index on a taxonomy that spells one department in two ways: the
    exact match for ["Bakery"], ["Loaves"] is under the lower-cased key. *)
Lemma group_matches_indexed_witness :
  let taxonomy := [entry "bakery" "loaves" "Rolls";
                   entry "Bakery" "Loaves" "Bread"] in
  ∃ l,
    (build_lookup ascii_lower taxonomy).1
      !! (ascii_lower (u "Bakery"), ascii_lower (u "Loaves")) = Some l
    ∧ entry "Bakery" "Loaves" "Bread" ∈ l.
Proof.
  intros taxonomy.
  apply (group_matches_indexed ascii_lower taxonomy (u "Bakery") (u "Loaves")
           (entry "Bakery" "Loaves" "Bread")).
  - vm_compute. discriminate.
  - vm_compute. discriminate.
  - apply (list_elem_of_lookup_2 _ 0%nat). vm_compute. reflexivity.
  - vm_compute. discriminate.
Defined.

(** The bakery taxonomy with white space around its names. *)
Lemma find_subgroup_trims_taxonomy_witness :
  find_subgroup ascii_lower (Some (u "Bakery")) (Some (u "Loaves"))
    (Some (u "Rye"))
    [padded (u " ") (u "  ") [] (u " ") (entry "Bakery" "Loaves" "Bread")]
  = find_subgroup ascii_lower (Some (u "Bakery")) (Some (u "Loaves"))
      (Some (u "Rye")) bakery.
Proof.
  apply (find_subgroup_trims_taxonomy ascii_lower (Some (u "Bakery"))
           (Some (u "Loaves")) (Some (u "Rye")) bakery).
  constructor; [|constructor].
  exists (u " "), (u "  "), [], (u " ").
  split_and!; [vm_compute; repeat constructor..|reflexivity].
Defined.

(** A mask for the holiday, filed under a department and a group the
    taxonomy does not have: the rule for costumes gives all four names. *)
Lemma keyword_match_auto_full_witness :
  let row := product 20 (Some (u "מסכה לפורים")) (Some (u "Toys"))
               (Some (u "Masks")) in
  let r := carry row (Some costumes.1.1.1) (Some costumes.1.1.2)
             (Some costumes.1.2) (Some costumes.2) AutoFull in
  (∃ rs d nc,
     classify_products ascii_lower bakery [row] = Ok (rs, d, nc)
     ∧ rs !! 0%nat = Some r)
  ∧ verdict ascii_lower bakery row
    = Ok {| results := [r];
            stats := <["auto_full" := 1%nat]> initial_stats;
            new_categories := ∅ |}.
Proof.
  intros row r.
  apply (keyword_match_auto_full ascii_lower bakery [row] 0 row costumes).
  - reflexivity.
  - apply not_skipped_row. vm_compute. reflexivity.
  - intros (_ & _ & H). apply H. vm_compute. reflexivity.
  - vm_compute. reflexivity.
  - intros H%has_new_marker_marked. vm_compute in H. discriminate H.
Defined.

(** A row without a name that the taxonomy resolves, and one with an empty
    name and nothing else. *)
Lemma nameless_rows_witness :
  let rows := [product 21 None (Some (u "Bakery")) (Some (u "Loaves"));
               product 22 (Some []) None None] in
  ∃ rs d nc,
    classify_products ascii_lower bakery rows = Ok (rs, d, nc)
    ∧ Forall2
        (λ row r,
           truthy (Row.item_name row) = false →
           match_by_keyword ascii_lower (Row.item_name row) = None
           ∧ (Res.status r = AutoSubgroup ∨ Res.status r = PartialAuto
              ∨ Res.status r = Unknown))
        rows rs.
Proof.
  intros rows.
  apply (nameless_rows ascii_lower bakery rows ascii_lower_hebrew).
Defined.

(** Two rows, in one order and in the other. *)
Lemma classify_products_Permutation_witness :
  let a := product 23 (Some (u "בוטנים קלויים")) None None in
  let b := product 24 (Some (u "Rye")) (Some (u "Bakery"))
             (Some (u "Loaves")) in
  ∃ rs rs' d nc,
    classify_products ascii_lower bakery [a; b] = Ok (rs, d, nc)
    ∧ classify_products ascii_lower bakery [b; a] = Ok (rs', d, nc)
    ∧ rs ≡ₚ rs'.
Proof.
  intros a b.
  apply (classify_products_Permutation ascii_lower bakery [a; b] [b; a]).
  apply perm_swap.
Defined.

(** A fresh fillet of beef is not given the category of the rule that lists
    the fillet of beef: the rule for fresh fish, with its keyword for any
    fillet, is two rules earlier. *)
Lemma shadowed_keyword_never_wins_witness :
  match_by_keyword ascii_lower (Some (u "פילה בקר טרי"))
  ≠ Some (u "מצוננים", u "קצביה בקר טרי", u "חלקי בשר טרי",
          u "נתחי בקר *חדש*").
Proof.
  apply (shadowed_keyword_never_wins ascii_lower (Some (u "פילה בקר טרי"))
           (u "פילה בקר")
           (u "מצוננים", u "קצביה בקר טרי", u "חלקי בשר טרי",
            u "נתחי בקר *חדש*")
           ascii_lower_hebrew).
  - apply (list_elem_of_lookup_2 _ 1%nat). vm_compute. reflexivity.
  - exists ([u "אנטריקוט"; u "סינטה"; u "פילה בקר"; u "אסאדו"; u "שפונדרה";
             u "צלעות בקר"; u "כתף בקר"; u "שייטל"; u "לשון"],
            (u "מצוננים", u "קצביה בקר טרי", u "חלקי בשר טרי",
             u "נתחי בקר *חדש*")).
    split_and!.
    + apply (list_elem_of_lookup_2 _ 28%nat). vm_compute. reflexivity.
    + apply (list_elem_of_lookup_2 _ 2%nat). vm_compute. reflexivity.
    + reflexivity.
  - apply contains_substring. vm_compute. reflexivity.
Defined.

(** A name with a keyword of the second rule for seeds: the table without
    this rule gives the same category. *)
Lemma second_seed_rule_is_dead_witness :
  match_by_keyword ascii_lower (Some (u "גרעיני אבטיח זריפה 200 גרם"))
  = match_rules ascii_lower (delete 20%nat RULES)
      (lower_name ascii_lower (Some (u "גרעיני אבטיח זריפה 200 גרם"))).
Proof.
  apply (second_seed_rule_is_dead ascii_lower
           (Some (u "גרעיני אבטיח זריפה 200 גרם")) ascii_lower_hebrew).
Defined.

(** ** The columns the cascade reads *)

Lemma size_list_to_set_le (l : list category) :
  (size (list_to_set l : gset category) ≤ length l)%nat.
Proof.
  induction l as [|c l IH]; [by rewrite list_to_set_nil, size_empty|].
  rewrite list_to_set_cons, size_union_alt, size_singleton. simpl.
  assert (size (list_to_set l ∖ {[c]} : gset category)
          ≤ size (list_to_set l : gset category))%nat; [|lia].
  apply subseteq_size. set_solver.
Qed.

Lemma length_new_tuples (rs : list Res.t) :
  length (new_tuples rs) = bearing NewCategory rs.
Proof. unfold new_tuples, bearing. by rewrite length_fmap. Qed.

Lemma length_sorted (s : gset category) : length (sorted s) = size s.
Proof. unfold sorted. by rewrite merge_sort_Permutation. Qed.

Lemma counted_statuses (k : string) (rs rs' : list Res.t) :
  Forall2 (λ r r', Res.status r = Res.status r') rs rs' →
  counted k rs = counted k rs'.
Proof.
  induction 1 as [|r r' rs rs' Hr _ IH]; [done|].
  by rewrite !counted_cons, Hr, IH.
Qed.

Lemma new_tuples_agree (rs rs' : list Res.t) :
  Forall2 (λ r r', Res.status r = Res.status r'
                   ∧ (Res.status r = NewCategory → resolved r = resolved r'))
    rs rs' →
  new_tuples rs = new_tuples rs'.
Proof.
  unfold new_tuples.
  induction 1 as [|r r' rs rs' [Hs Hr] _ IH]; [done|].
  simpl. rewrite <-Hs. case_bool_decide; [|done].
  by rewrite !fmap_cons, Hr, IH.
Qed.

Section ColumnFacts.

Variable lower : pystr → pystr.
Variable taxonomy : list Tax.entry.

Lemma result_for_agree (row row' : Row.t) :
  same_request row row' →
  let r := result_for lower taxonomy row in
  let r' := result_for lower taxonomy row' in
  Res.status r = Res.status r'
  ∧ Res.dept r = Res.dept r' ∧ Res.group r = Res.group r'
  ∧ Res.subgroup r = Res.subgroup r'
  ∧ (Res.status r = NewCategory → resolved r = resolved r').
Proof.
  intros (Hn & Hd & Hg). unfold result_for, is_skipped, resolved_by_subgroup.
  rewrite <-Hn, <-Hd, <-Hg.
  destruct (truthy (Row.item_name row) && _); [done|].
  destruct (truthy (Row.dept row) && truthy (Row.group row) && _); [done|].
  destruct (match_by_keyword lower (Row.item_name row)) as [cat|]; [done|].
  destruct (truthy (Row.dept row) && negb (truthy (Row.group row))); [|done].
  by destruct (dept_matches (Row.dept row) taxonomy).
Qed.

(** X20.  The cascade reads the name, the department and the group of a
    row, and nothing else: two lists of rows that agree on these three
    columns, whatever their identifiers, domains, subgroups and suppliers,
    get the same statuses, resolved departments, groups and subgroups, the
    same counters and the same set of new categories.  The subgroup a row
    came with is never read. *)
Theorem decision_reads_three_columns (rows rows' : list Row.t) :
  Forall2 same_request rows rows' →
  ∃ rs rs' d nc,
    classify_products lower taxonomy rows = Ok (rs, d, nc)
    ∧ classify_products lower taxonomy rows' = Ok (rs', d, nc)
    ∧ Forall2
        (λ r r',
           Res.status r = Res.status r' ∧ Res.dept r = Res.dept r'
           ∧ Res.group r = Res.group r'
           ∧ Res.subgroup r = Res.subgroup r')
        rs rs'.
Proof.
  intros Hrows.
  destruct (run_results lower taxonomy rows) as (d & Hrun & _ & Hk).
  destruct (run_results lower taxonomy rows') as (d' & Hrun' & _ & Hk').
  assert (Hall : Forall2
            (λ r r',
               Res.status r = Res.status r'
               ∧ Res.dept r = Res.dept r' ∧ Res.group r = Res.group r'
               ∧ Res.subgroup r = Res.subgroup r'
               ∧ (Res.status r = NewCategory → resolved r = resolved r'))
            (result_for lower taxonomy <$> rows)
            (result_for lower taxonomy <$> rows')).
  { apply Forall2_fmap. eapply Forall2_impl; [exact Hrows|].
    intros row row' H. by apply result_for_agree. }
  eexists _, _, d, _. split; [exact Hrun|]. split.
  - rewrite Hrun'. do 2 f_equal.
    + f_equal. apply map_eq. intros k. rewrite Hk, Hk'.
      assert (Hc : counted k (result_for lower taxonomy <$> rows)
                   = counted k (result_for lower taxonomy <$> rows')).
      { apply counted_statuses.
        eapply Forall2_impl; [exact Hall|]. by intros r r' (? & _). }
      by rewrite Hc.
    + f_equal. symmetry. apply new_tuples_agree.
      eapply Forall2_impl; [exact Hall|]. by intros r r' (? & _ & _ & _ & ?).
  - eapply Forall2_impl; [exact Hall|].
    by intros r r' (? & ? & ? & ? & _).
Qed.

(** X21.  The counter ["new_category"] and the set of new categories go
    together: the set is empty exactly when the counter is zero, so [main]
    lists new categories exactly when it counts a row for them; the set, and
    the list [main] prints, have at most as many tuples as the counter
    says. *)
Theorem new_categories_and_counter (rows : list Row.t) :
  ∃ rs d nc n,
    classify_products lower taxonomy rows = Ok (rs, d, nc)
    ∧ d !! "new_category" = Some n
    ∧ (nc = ∅ ↔ n = 0%nat)
    ∧ (length (sorted nc) ≤ n)%nat.
Proof.
  destruct (run_results lower taxonomy rows) as (d & Hrun & _ & Hk).
  eexists _, d, _, (bearing NewCategory (result_for lower taxonomy <$> rows)).
  split; [exact Hrun|]. split.
  { rewrite Hk. unfold initial_stats.
    rewrite lookup_insert_ne, lookup_insert_ne, lookup_insert_eq by done.
    simpl. f_equal.
    by destruct (counted_bearing (result_for lower taxonomy <$> rows))
      as (_ & _ & -> & _). }
  rewrite <-length_new_tuples, length_sorted. split.
  - destruct (new_tuples _) as [|c l]; [done|].
    split; [|done]. intros H.
    assert (Hc : c ∈ (list_to_set (c :: l) : gset category)) by set_solver.
    rewrite H in Hc. set_solver.
  - apply size_list_to_set_le.
Qed.

End ColumnFacts.

(** The same product from two suppliers, under two identifiers, with and
    without a domain and a subgroup. *)
Lemma decision_reads_three_columns_witness :
  let row := product 25 (Some (u "Rye")) (Some (u "Bakery"))
               (Some (u "Loaves")) in
  let row' :=
    {| Row.item_id := VStr (u "A-25"); Row.item_name := Some (u "Rye");
       Row.domain := Some (u "Food"); Row.dept := Some (u "Bakery");
       Row.group := Some (u "Loaves"); Row.subgroup := Some (u "Buns");
       Row.supplier_id := VNone; Row.supplier_name := VNone |} in
  ∃ rs rs' d nc,
    classify_products ascii_lower bakery [row] = Ok (rs, d, nc)
    ∧ classify_products ascii_lower bakery [row'] = Ok (rs', d, nc)
    ∧ Forall2
        (λ r r',
           Res.status r = Res.status r' ∧ Res.dept r = Res.dept r'
           ∧ Res.group r = Res.group r'
           ∧ Res.subgroup r = Res.subgroup r')
        rs rs'.
Proof.
  intros row row'.
  apply (decision_reads_three_columns ascii_lower bakery [row] [row']).
  constructor; [|constructor].
  split_and!; reflexivity.
Defined.

(** * The engine on cells *)

(** ** Sheets of text: the two engines agree *)

Lemma text_of_cell (c : cell) : Raw.text (of_cell c).
Proof. by destruct c. Qed.

Lemma text_is_of_cell (v : value) : Raw.text v → ∃ c, v = of_cell c.
Proof.
  destruct v as [|z|s]; [by exists None|done|by exists (Some s)].
Qed.

Lemma text_row_of_row (row : RawRow.t) :
  Raw.text_row row
  ↔ ∃ r : Row.t,
      RawRow.item_name row = of_cell (Row.item_name r)
      ∧ RawRow.domain row = of_cell (Row.domain r)
      ∧ RawRow.dept row = of_cell (Row.dept r)
      ∧ RawRow.group row = of_cell (Row.group r)
      ∧ RawRow.subgroup row = of_cell (Row.subgroup r)
      ∧ row = of_row r.
Proof.
  split.
  - intros (Hn & Hdo & Hd & Hg & Hs).
    apply text_is_of_cell in Hn as [n Hn], Hdo as [do Hdo], Hd as [d Hd],
      Hg as [g Hg], Hs as [s Hs].
    exists {| Row.item_id := RawRow.item_id row; Row.item_name := n;
              Row.domain := do; Row.dept := d; Row.group := g;
              Row.subgroup := s;
              Row.supplier_id := RawRow.supplier_id row;
              Row.supplier_name := RawRow.supplier_name row |}.
    split_and!; [done..|].
    destruct row. simpl in *. unfold of_row. simpl. congruence.
  - intros (r & Hn & Hdo & Hd & Hg & Hs & _).
    unfold Raw.text_row. rewrite Hn, Hdo, Hd, Hg, Hs.
    split_and!; apply text_of_cell.
Qed.

Lemma text_entry_of_entry (t : RawTax.entry) :
  Raw.text_entry t ↔ ∃ t' : Tax.entry, t = of_entry t'.
Proof.
  split.
  - intros (Hdo & Hd & Hg & Hs).
    apply text_is_of_cell in Hdo as [do Hdo], Hd as [d Hd], Hg as [g Hg],
      Hs as [s Hs].
    exists {| Tax.domain_id := RawTax.domain_id t; Tax.domain_name := do;
              Tax.dept_id := RawTax.dept_id t; Tax.dept_name := d;
              Tax.grp_id := RawTax.grp_id t; Tax.grp_name := g;
              Tax.sub_id := RawTax.sub_id t; Tax.sub_name := s |}.
    destruct t. simpl in *. unfold of_entry. simpl. congruence.
  - intros [t' ->]. unfold Raw.text_entry, of_entry. simpl.
    split_and!; apply text_of_cell.
Qed.

Lemma truthy_of_cell (c : cell) : Raw.truthy (of_cell c) = truthy c.
Proof. by destruct c as [[|x s]|]. Qed.

Lemma py_or_of_cell (a b : cell) :
  Raw.py_or (of_cell a) (of_cell b) = of_cell (py_or a b).
Proof.
  unfold Raw.py_or, py_or. rewrite truthy_of_cell. by destruct (truthy a).
Qed.

Lemma or_empty_of_cell (c : cell) :
  Raw.py_or (of_cell c) (VStr []) = VStr (or_empty c).
Proof. by destruct c as [[|x s]|]. Qed.

Lemma eq_str_of_cell (s : pystr) (c : cell) :
  Raw.eq_str s (of_cell c) = eq_cell s c.
Proof. by destruct c. Qed.

Lemma skip_test_of_cell (c : cell) :
  Raw.truthy (of_cell c) && contains skip_sentinel (Raw.str (of_cell c))
  = truthy c && contains skip_sentinel (str c).
Proof. by destruct c as [[|x s]|]. Qed.

Lemma filterM_fmap {A B} (f : B → M bool) (g : A → bool) (h : A → B)
    (l : list A) :
  (∀ x, f (h x) = Ok (g x)) →
  Raw.filterM f (h <$> l) = Ok (h <$> List.filter g l).
Proof.
  intros H. induction l as [|x l IH]; [done|].
  rewrite fmap_cons. simpl. rewrite H, IH. simpl. by destruct (g x).
Qed.

Lemma first_fmap {A B} (h : A → B) (l : list A) :
  first (h <$> l) = h <$> first l.
Proof. by destruct l. Qed.

Lemma fmap_eq_nil {A B} (h : A → B) (l : list A) :
  bool_decide (h <$> l = []) = bool_decide (l = []).
Proof. by destruct l. Qed.

Section Refinement.

Variable lower : pystr → pystr.

Lemma match_by_keyword_refines (name : cell) :
  Raw.match_by_keyword lower (of_cell name)
  = Ok (match_by_keyword lower name).
Proof.
  unfold Raw.match_by_keyword, match_by_keyword.
  rewrite truthy_of_cell. by destruct name as [[|x s]|].
Qed.

Lemma group_test_refines (dept_name group_name : cell) (t : Tax.entry) :
  Raw.group_test (of_cell dept_name) (of_cell group_name) (of_entry t)
  = Ok (eq_cell (strip (or_empty (Tax.dept_name t))) dept_name
        && eq_cell (strip (or_empty (Tax.grp_name t))) group_name
        && truthy (Tax.sub_name t)).
Proof.
  unfold Raw.group_test, of_entry. simpl.
  rewrite !or_empty_of_cell. simpl. rewrite !eq_str_of_cell.
  destruct (eq_cell _ dept_name); [|done]. simpl.
  destruct (eq_cell _ group_name); [|done]. simpl.
  by rewrite truthy_of_cell.
Qed.

Lemma group_matches_refines (dept_name group_name : cell)
    (taxonomy : list Tax.entry) :
  Raw.filterM (Raw.group_test (of_cell dept_name) (of_cell group_name))
    (of_entry <$> taxonomy)
  = Ok (of_entry <$> group_matches dept_name group_name taxonomy).
Proof. apply filterM_fmap. intros t. apply group_test_refines. Qed.

Lemma dept_matches_refines (dept : cell) (taxonomy : list Tax.entry) :
  Raw.filterM (Raw.dept_test (of_cell dept)) (of_entry <$> taxonomy)
  = Ok (of_entry <$> dept_matches dept taxonomy).
Proof.
  apply filterM_fmap. intros t. unfold Raw.dept_test, of_entry. simpl.
  rewrite or_empty_of_cell. simpl.
  by rewrite eq_str_of_cell, truthy_of_cell.
Qed.

Lemma word_in_name_refines (name_lower : pystr) (m : Tax.entry) :
  Raw.word_in_name lower name_lower (of_entry m)
  = Ok (word_in_name lower name_lower m).
Proof.
  unfold Raw.word_in_name, word_in_name, of_entry. simpl.
  by rewrite or_empty_of_cell.
Qed.

Lemma first_by_words_refines (name_lower : pystr) (ms : list Tax.entry) :
  Raw.first_by_words lower name_lower (of_entry <$> ms)
  = Ok (of_entry <$> first_by_words lower name_lower ms).
Proof.
  induction ms as [|m ms IH]; [done|].
  rewrite fmap_cons. simpl. rewrite word_in_name_refines. simpl.
  by destruct (word_in_name lower name_lower m).
Qed.

Lemma find_subgroup_refines (dept_name group_name product_name : cell)
    (taxonomy : list Tax.entry) :
  Raw.find_subgroup lower (of_cell dept_name) (of_cell group_name)
    (of_cell product_name) (of_entry <$> taxonomy)
  = of_cell <$> find_subgroup lower dept_name group_name product_name
                  taxonomy.
Proof.
  unfold Raw.find_subgroup, find_subgroup.
  rewrite group_matches_refines. simpl.
  rewrite fmap_eq_nil, length_fmap, first_fmap.
  destruct (bool_decide _); [done|].
  destruct (length _ =? 1)%nat.
  { by destruct (first _). }
  rewrite or_empty_of_cell. simpl. rewrite first_by_words_refines. simpl.
  destruct (first_by_words _ _ _); [done|]. simpl.
  by destruct (first _).
Qed.

Lemma count_and_append_refines (k : string) (r : Res.t) (st : state) :
  Raw.count_and_append k (of_res r) (of_state st)
  = of_state <$> count_and_append k r st.
Proof.
  unfold Raw.count_and_append, count_and_append, of_state. simpl.
  destruct (incr k (stats st)); [|done]. simpl.
  by rewrite fmap_app.
Qed.

Lemma dept_matches_sub (dept : cell) (taxonomy : list Tax.entry)
    (t : Tax.entry) (ts : list Tax.entry) :
  dept_matches dept taxonomy = t :: ts →
  ∃ c sub, Tax.sub_name t = Some (c :: sub).
Proof.
  intros H.
  assert (Ht : In t (dept_matches dept taxonomy)) by (rewrite H; by left).
  apply filter_In in Ht as [_ Ht]. apply andb_true_iff in Ht as [_ Ht].
  destruct (Tax.sub_name t) as [[|c sub]|]; try done. eauto.
Qed.

Lemma loop_body_refines (taxonomy : list Tax.entry) (row : Row.t)
    (st : state) :
  Raw.loop_body lower (of_entry <$> taxonomy) (of_row row) (of_state st)
  = of_state <$> loop_body lower taxonomy row st.
Proof.
  assert (Happ : ∀ k r r' st',
            r' = of_res r →
            Raw.count_and_append k r' (of_state st')
            = of_state <$> count_and_append k r st').
  { intros k r r' st' ->. apply count_and_append_refines. }
  assert (Hor : ∀ a s, Raw.py_or (of_cell a) (VStr s)
                       = of_cell (py_or a (Some s)))
    by (intros a s; apply (py_or_of_cell a (Some s))).
  unfold Raw.loop_body, loop_body.
  cbn [of_row RawRow.item_id RawRow.item_name RawRow.domain RawRow.dept
       RawRow.group RawRow.supplier_id RawRow.supplier_name].
  rewrite skip_test_of_cell, !truthy_of_cell, !Hor.
  destruct (truthy (Row.item_name row) && _); [by apply Happ|].
  rewrite match_by_keyword_refines, find_subgroup_refines,
    dept_matches_refines.
  cbn [mbind M_bind fmap M_fmap].
  rewrite fmap_eq_nil.
  destruct (match_by_keyword lower (Row.item_name row))
    as [[[[new_domain new_dept] new_group] new_sub]|];
    cbn [mbind M_bind fmap M_fmap].
  - destruct (truthy (Row.dept row) && truthy (Row.group row));
      [destruct (find_subgroup lower _ _ _ taxonomy) as [found_sub|e];
       [|done]; cbn [mbind M_bind fmap M_fmap]; rewrite truthy_of_cell;
       destruct (truthy found_sub); [by apply Happ|]|];
      (destruct (has_new_marker _);
       [change (Raw.add_category (new_domain, new_dept, new_group, new_sub)
                  (of_state st))
          with (of_state
                  (add_category (new_domain, new_dept, new_group, new_sub)
                     st))|];
       by apply Happ).
  - assert (Hrest :
      (if truthy (Row.dept row) && negb (truthy (Row.group row)) then
         if negb (bool_decide (dept_matches (Row.dept row) taxonomy = []))
         then
           first (of_entry <$> dept_matches (Row.dept row) taxonomy) ≫= λ t,
           incr "auto_subgroup" (Raw.stats (of_state st)) ≫= λ d,
           Raw.add_str (RawTax.sub_name t) review_suffix ≫= λ sub,
           mret
             {| Raw.results :=
                  Raw.results (of_state st)
                  ++ [{| RawRes.item_id := Row.item_id row;
                         RawRes.item_name := of_cell (Row.item_name row);
                         RawRes.domain :=
                           Raw.py_or (of_cell (Row.domain row))
                             (RawTax.domain_name t);
                         RawRes.dept := of_cell (Row.dept row);
                         RawRes.group := RawTax.grp_name t;
                         RawRes.subgroup := sub;
                         RawRes.supplier_id := Row.supplier_id row;
                         RawRes.supplier_name := Row.supplier_name row;
                         RawRes.status := PartialAuto |}];
                Raw.stats := d;
                Raw.new_categories := Raw.new_categories (of_state st) |}
         else
           Raw.count_and_append "unknown"
             {| RawRes.item_id := Row.item_id row;
                RawRes.item_name := of_cell (Row.item_name row);
                RawRes.domain :=
                  of_cell (py_or (Row.domain row) (Some unknown_domain));
                RawRes.dept :=
                  of_cell (py_or (Row.dept row) (Some needs_review));
                RawRes.group :=
                  of_cell (py_or (Row.group row) (Some needs_review));
                RawRes.subgroup := VStr manual_review;
                RawRes.supplier_id := Row.supplier_id row;
                RawRes.supplier_name := Row.supplier_name row;
                RawRes.status := Unknown |} (of_state st)
       else
         Raw.count_and_append "unknown"
           {| RawRes.item_id := Row.item_id row;
              RawRes.item_name := of_cell (Row.item_name row);
              RawRes.domain :=
                of_cell (py_or (Row.domain row) (Some unknown_domain));
              RawRes.dept :=
                of_cell (py_or (Row.dept row) (Some needs_review));
              RawRes.group :=
                of_cell (py_or (Row.group row) (Some needs_review));
              RawRes.subgroup := VStr manual_review;
              RawRes.supplier_id := Row.supplier_id row;
              RawRes.supplier_name := Row.supplier_name row;
              RawRes.status := Unknown |} (of_state st))
      = of_state <$>
          (if truthy (Row.dept row) && negb (truthy (Row.group row)) then
             if negb (bool_decide (dept_matches (Row.dept row) taxonomy
                                   = []))
             then
               first (dept_matches (Row.dept row) taxonomy) ≫= λ t,
               add_str (Tax.sub_name t) review_suffix ≫= λ sub,
               count_and_append "auto_subgroup"
                 {| Res.item_id := Row.item_id row;
                    Res.item_name := Row.item_name row;
                    Res.domain := py_or (Row.domain row) (Tax.domain_name t);
                    Res.dept := Row.dept row;
                    Res.group := Tax.grp_name t;
                    Res.subgroup := sub;
                    Res.supplier_id := Row.supplier_id row;
                    Res.supplier_name := Row.supplier_name row;
                    Res.status := PartialAuto |} st
             else
               count_and_append "unknown"
                 {| Res.item_id := Row.item_id row;
                    Res.item_name := Row.item_name row;
                    Res.domain :=
                      py_or (Row.domain row) (Some unknown_domain);
                    Res.dept := py_or (Row.dept row) (Some needs_review);
                    Res.group := py_or (Row.group row) (Some needs_review);
                    Res.subgroup := Some manual_review;
                    Res.supplier_id := Row.supplier_id row;
                    Res.supplier_name := Row.supplier_name row;
                    Res.status := Unknown |} st
           else
             count_and_append "unknown"
               {| Res.item_id := Row.item_id row;
                  Res.item_name := Row.item_name row;
                  Res.domain := py_or (Row.domain row) (Some unknown_domain);
                  Res.dept := py_or (Row.dept row) (Some needs_review);
                  Res.group := py_or (Row.group row) (Some needs_review);
                  Res.subgroup := Some manual_review;
                  Res.supplier_id := Row.supplier_id row;
                  Res.supplier_name := Row.supplier_name row;
                  Res.status := Unknown |} st)).
    { destruct (truthy (Row.dept row) && negb (truthy (Row.group row)));
        [|by apply Happ].
      destruct (dept_matches (Row.dept row) taxonomy) as [|t ts] eqn:Hm;
        [by apply Happ|].
      destruct (dept_matches_sub _ _ _ _ Hm) as (c & sub & Hsub).
      simpl. rewrite Hsub. simpl. unfold count_and_append. simpl.
      destruct (incr "auto_subgroup" (stats st)); [|done]. simpl.
      unfold of_state. simpl. rewrite fmap_app. simpl.
      unfold of_res at 2. simpl. by rewrite py_or_of_cell. }
    destruct (truthy (Row.dept row) && truthy (Row.group row));
      [|exact Hrest].
    destruct (find_subgroup lower _ _ _ taxonomy) as [found_sub|e]; [|done].
    cbn [mbind M_bind fmap M_fmap]. rewrite truthy_of_cell.
    destruct (truthy found_sub); [by apply Happ|exact Hrest].
Qed.

Lemma loop_refines (taxonomy : list Tax.entry) (rows : list Row.t)
    (st : state) :
  Raw.loop lower (of_entry <$> taxonomy) (of_row <$> rows) (of_state st)
  = of_state <$> loop lower taxonomy rows st.
Proof.
  revert st. induction rows as [|row rows IH]; intros st; [done|].
  rewrite fmap_cons. simpl. rewrite loop_body_refines.
  destruct (loop_body lower taxonomy row st) as [st'|e]; [|done].
  simpl. apply IH.
Qed.

(** On a taxonomy and a sheet of products whose text columns hold text, the
    engine on cells does what the engine of the first part does. *)
Lemma classify_products_refines (taxonomy : list Tax.entry)
    (rows : list Row.t) :
  Raw.classify_products lower (of_entry <$> taxonomy) (of_row <$> rows)
  = of_outcome <$> classify_products lower taxonomy rows.
Proof.
  unfold Raw.classify_products, classify_products.
  change Raw.initial with (of_state initial).
  rewrite loop_refines.
  by destruct (loop lower taxonomy rows initial).
Qed.

End Refinement.

(** ** Numbers in the text columns *)

Lemma contains_absent (c : N) (p s : pystr) :
  Forall (λ x, x ≠ c) s → contains (c :: p) s = false.
Proof.
  induction 1 as [|x s Hx _ IH]; [done|].
  simpl. rewrite IH, orb_false_r.
  apply andb_false_iff. left. by apply N.eqb_neq.
Qed.

Lemma digits_ascii (d : Decimal.uint) :
  Forall (λ x, x < 128) (Raw.digits d).
Proof. induction d; simpl; constructor; done || lia. Qed.

(** The text of a number does not hold the skip sentinel. *)
Lemma number_not_skipped (z : Z) :
  contains skip_sentinel (Raw.str (VInt z)) = false.
Proof.
  assert (Hs : ∃ tl, skip_sentinel = 1508 :: tl)
    by (eexists; vm_compute; reflexivity).
  destruct Hs as [tl ->]. apply contains_absent.
  unfold Raw.str. destruct (Z.to_int z) as [d|d].
  - eapply Forall_impl; [apply digits_ascii|]. intros x Hx. simpl in Hx. lia.
  - constructor; [done|].
    eapply Forall_impl; [apply digits_ascii|]. intros x Hx. simpl in Hx. lia.
Qed.

Lemma text_rows_typed (rows : list RawRow.t) :
  Forall Raw.text_row rows → ∃ rows' : list Row.t, rows = of_row <$> rows'.
Proof.
  induction 1 as [|row rows Hrow _ [rows' ->]]; [by exists []|].
  apply text_row_of_row in Hrow as (r & _ & _ & _ & _ & _ & ->).
  by exists (r :: rows').
Qed.

Lemma text_entries_typed (taxonomy : list RawTax.entry) :
  Forall Raw.text_entry taxonomy →
  ∃ taxonomy' : list Tax.entry, taxonomy = of_entry <$> taxonomy'.
Proof.
  induction 1 as [|t taxonomy Ht _ [taxonomy' ->]]; [by exists []|].
  apply text_entry_of_entry in Ht as [t' ->].
  by exists (t' :: taxonomy').
Qed.

Lemma dept_test_exact (dept : pystr) (t : Tax.entry) :
  eq_cell (strip (or_empty (Tax.dept_name t))) (Some dept)
  && truthy (Tax.sub_name t) = true
  ↔ exactly_under dept t.
Proof.
  unfold exactly_under, dept_of. simpl.
  by rewrite andb_true_iff, str_eqb_eq.
Qed.

Lemma dept_matches_none (dept : pystr) (taxonomy : list Tax.entry) :
  Forall (λ t', ¬ exactly_under dept t') taxonomy →
  dept_matches (Some dept) taxonomy = [].
Proof.
  unfold dept_matches.
  induction 1 as [|t' taxonomy Ht' _ IH]; [done|].
  cbn [List.filter]. rewrite IH.
  destruct (_ && _) eqn:Heq; [|done].
  by apply dept_test_exact in Heq.
Qed.

Lemma dept_matches_first (dept : pystr) (before after : list Tax.entry)
    (t : Tax.entry) :
  Forall (λ t', ¬ exactly_under dept t') before →
  exactly_under dept t →
  dept_matches (Some dept) (before ++ t :: after)
  = t :: dept_matches (Some dept) after.
Proof.
  intros Hbefore Ht%dept_test_exact.
  pose proof (dept_matches_none dept before Hbefore) as Hnone.
  unfold dept_matches in *.
  rewrite List.filter_app, Hnone. cbn [List.filter app]. by rewrite Ht.
Qed.

Section CellFacts.

Variable lower : pystr → pystr.

Lemma loop_app (taxonomy : list RawTax.entry) (rows1 rows2 : list RawRow.t)
    (st : Raw.state) :
  Raw.loop lower taxonomy (rows1 ++ rows2) st
  = Raw.loop lower taxonomy rows1 st ≫= Raw.loop lower taxonomy rows2.
Proof.
  revert st. induction rows1 as [|row rows1 IH]; intros st; [done|].
  simpl. destruct (Raw.loop_body lower taxonomy row st); [|done].
  simpl. apply IH.
Qed.

(** The body of the loop on a row named by a number, when the subgroup step
    does not run: [name.lower()] in [match_by_keyword] raises. *)
Lemma body_of_numbered_row (taxonomy : list RawTax.entry) (row : RawRow.t)
    (st : Raw.state) (z : Z) :
  RawRow.item_name row = VInt z → z ≠ 0%Z →
  Raw.truthy (RawRow.dept row) && Raw.truthy (RawRow.group row) = false →
  Raw.loop_body lower taxonomy row st = Raise AttributeError.
Proof.
  intros Hname Hz Hstep. unfold Raw.loop_body.
  rewrite Hname, Hstep, number_not_skipped, andb_false_r.
  unfold Raw.match_by_keyword. simpl.
  by rewrite (proj2 (Z.eqb_neq z 0) Hz).
Qed.

(** C1.  A number in the name column stops the run: on a sheet one row of
    which is named by a number other than zero and has no department or no
    group, the rows before it holding text, [classify_products] raises
    [AttributeError] at [name.lower()] and returns no result at all,
    whatever the rows after it; the rows are not preserved. *)
Theorem numeric_name_raises (taxonomy : list Tax.entry)
    (before : list Row.t) (row : RawRow.t) (after : list RawRow.t) (z : Z) :
  RawRow.item_name row = VInt z → z ≠ 0%Z →
  Raw.truthy (RawRow.dept row) && Raw.truthy (RawRow.group row) = false →
  Raw.classify_products lower (of_entry <$> taxonomy)
    ((of_row <$> before) ++ row :: after)
  = Raise AttributeError.
Proof.
  intros Hname Hz Hstep. unfold Raw.classify_products.
  rewrite loop_app. change Raw.initial with (of_state initial).
  rewrite loop_refines.
  destruct (loop_run lower taxonomy before initial stats_ok_initial)
    as (rs & d & -> & _).
  simpl. by rewrite (body_of_numbered_row _ _ _ z).
Qed.

(** X22.  On a taxonomy and a sheet of products whose text columns hold
    text or are empty, [classify_products] does not raise: it returns as
    many results as there are rows, each with the identifier, the name and
    the supplier of the row at its position, and counters that add up to the
    number of rows. *)
Theorem text_sheets_preserved (taxonomy : list RawTax.entry)
    (rows : list RawRow.t) :
  Forall Raw.text_entry taxonomy →
  Forall Raw.text_row rows →
  ∃ rs d nc,
    Raw.classify_products lower taxonomy rows = Ok (rs, d, nc)
    ∧ length rs = length rows
    ∧ Forall2 same_cells rows rs
    ∧ stats_total d = length rows.
Proof.
  intros [taxonomy' ->]%text_entries_typed [rows' ->]%text_rows_typed.
  destruct (run_results lower taxonomy' rows') as (d & Hrun & _ & Hk).
  rewrite classify_products_refines, Hrun.
  eexists _, _, _. split; [reflexivity|]. simpl. split_and!.
  - by rewrite !length_fmap.
  - apply Forall2_fmap, Forall2_fmap_r, Forall_Forall2_diag, Forall_forall.
    intros row _. unfold compose, same_cells, of_res, of_row. simpl.
    assert (Hitem : same_item row (result_for lower taxonomy' row)).
    { unfold result_for, same_item.
      destruct (is_skipped row); [done|].
      destruct (resolved_by_subgroup lower taxonomy' row); [done|].
      destruct (match_by_keyword lower (Row.item_name row)); [done|].
      destruct (_ && _); [|done].
      by destruct (dept_matches (Row.dept row) taxonomy'). }
    destruct Hitem as (-> & -> & -> & ->). done.
  - rewrite (stats_of_counts _ _ Hk), stats_total_five, counted_length.
    by rewrite !length_fmap.
Qed.

(** C9, amended.  A row of text whose name does not contain the skip
    sentinel, with no department, no group and a name matching no keyword
    rule, gets the status [Unknown]: the domain is that of the row or else
    the unknown-domain sentinel, department and group are the review
    sentinel, and the subgroup is the manual-review sentinel.  The body of
    the loop does not raise on such a row, whatever the cells of the
    taxonomy; and on a taxonomy and a sheet of text the run does not
    raise. *)
Theorem unknown_fallback (taxonomy : list Tax.entry) (rows : list Row.t)
    (i : nat) (row : Row.t) :
  rows !! i = Some row →
  ¬ has_sentinel row →
  truthy (Row.dept row) = false →
  truthy (Row.group row) = false →
  match_by_keyword lower (Row.item_name row) = None →
  let r := carry row (py_or (Row.domain row) (Some unknown_domain))
             (Some needs_review) (Some needs_review)
             (Some manual_review) Unknown in
  (∃ rs d nc,
     Raw.classify_products lower (of_entry <$> taxonomy) (of_row <$> rows)
     = Ok (rs, d, nc)
     ∧ rs !! i = Some (of_res r))
  ∧ (∀ cells_taxonomy : list RawTax.entry,
       Raw.loop_body lower cells_taxonomy (of_row row) Raw.initial
       = Ok {| Raw.results := [of_res r];
               Raw.stats := <["unknown" := 1%nat]> initial_stats;
               Raw.new_categories := ∅ |}).
Proof.
  intros Hi Hs Hdept Hgroup Hkw r. split.
  - destruct (unknown_of_text_row lower taxonomy rows i row Hi Hs Hdept
                Hgroup Hkw) as (rs & d & nc & Hrun & Hr).
    exists (of_res <$> rs), d, nc.
    rewrite classify_products_refines, Hrun. split; [done|].
    by rewrite list_lookup_fmap, Hr.
  - intros cells_taxonomy. unfold Raw.loop_body.
    cbn [of_row RawRow.item_id RawRow.item_name RawRow.domain RawRow.dept
         RawRow.group RawRow.supplier_id RawRow.supplier_name].
    rewrite skip_test_of_cell, !truthy_of_cell.
    apply not_skipped in Hs. unfold is_skipped in Hs. rewrite Hs.
    rewrite Hdept, Hgroup, match_by_keyword_refines, Hkw. simpl.
    unfold Raw.count_and_append.
    assert (Hn : incr "unknown" (Raw.stats Raw.initial)
                 = Ok (<["unknown" := 1%nat]> initial_stats))
      by (by vm_compute).
    rewrite Hn. simpl. do 2 f_equal.
    subst r. unfold of_res, carry. simpl.
    rewrite <-(py_or_of_cell _ (Some unknown_domain)).
    unfold Raw.py_or. rewrite !truthy_of_cell, Hdept, Hgroup. done.
Qed.

(** X23.  The department-only fallback compares the department of the row,
    as it is written, with the trimmed department names of the taxonomy.
    For a row of text that is not skipped and matches no keyword rule, with
    the department [dept] and no group: if [t] is the first entry of the
    taxonomy whose trimmed department is [dept], character for character,
    and that has a subgroup, the result is [PartialAuto] with the group and
    the subgroup of [t], the latter followed by the review suffix; if the
    taxonomy has no such entry the result is [Unknown], with the department
    of the row and the sentinels. *)
Theorem department_fallback_exact (taxonomy : list Tax.entry)
    (rows : list Row.t) (i : nat) (row : Row.t) (dept : pystr) :
  rows !! i = Some row →
  ¬ has_sentinel row →
  match_by_keyword lower (Row.item_name row) = None →
  Row.dept row = Some dept → dept ≠ [] →
  truthy (Row.group row) = false →
  ∃ rs d nc,
    Raw.classify_products lower (of_entry <$> taxonomy) (of_row <$> rows)
    = Ok (rs, d, nc)
    ∧ (∀ before t after,
         taxonomy = before ++ t :: after →
         Forall (λ t', ¬ exactly_under dept t') before →
         exactly_under dept t →
         ∃ sub,
           Tax.sub_name t = Some sub
           ∧ rs !! i
             = Some (of_res
                       (carry row
                          (py_or (Row.domain row) (Tax.domain_name t))
                          (Some dept) (Tax.grp_name t)
                          (Some (sub ++ review_suffix)) PartialAuto)))
    ∧ (Forall (λ t', ¬ exactly_under dept t') taxonomy →
       rs !! i
       = Some (of_res
                 (carry row (py_or (Row.domain row) (Some unknown_domain))
                    (Some dept) (Some needs_review) (Some manual_review)
                    Unknown))).
Proof.
  intros Hi Hs Hkw Hdept Hne Hgroup.
  assert (Htd : truthy (Row.dept row) = true)
    by (rewrite Hdept; by destruct dept).
  destruct (run_results lower taxonomy rows) as (d & Hrun & _).
  rewrite classify_products_refines, Hrun.
  eexists _, _, _. split; [reflexivity|]. simpl.
  rewrite !list_lookup_fmap, Hi. simpl.
  assert (Hres : ∀ ms,
            dept_matches (Some dept) taxonomy = ms →
            result_for lower taxonomy row
            = match ms with
              | t :: _ =>
                  carry row (py_or (Row.domain row) (Tax.domain_name t))
                    (Some dept) (Tax.grp_name t)
                    (Some (or_empty (Tax.sub_name t) ++ review_suffix))
                    PartialAuto
              | [] =>
                  carry row (py_or (Row.domain row) (Some unknown_domain))
                    (Some dept) (Some needs_review) (Some manual_review)
                    Unknown
              end).
  { intros ms Hms. unfold result_for.
    rewrite (not_skipped _ Hs),
      (not_resolved_without_group lower taxonomy row Hgroup), Hkw, Htd,
      Hgroup, Hdept, Hms. simpl.
    destruct ms; [|done].
    unfold py_or at 2 3. rewrite <-Hdept, Htd, Hgroup. by rewrite Hdept. }
  split.
  - intros before t after -> Hbefore Ht.
    pose proof Ht as [_ Hsub].
    destruct (Tax.sub_name t) as [sub|] eqn:Hsn; [|done].
    exists sub. split; [done|].
    rewrite (Hres _ (dept_matches_first _ _ _ _ Hbefore Ht)).
    by rewrite Hsn.
  - intros Hnone. by rewrite (Hres _ (dept_matches_none _ _ Hnone)).
Qed.

(** X5.  On a taxonomy whose names are text or empty, [find_subgroup] does
    not raise for a product name that is text or empty: it returns [None]
    exactly when the taxonomy has no candidate, and otherwise the subgroup
    name, not empty, of an entry of the taxonomy whose trimmed department
    and group are the ones asked for.  For a product name that is a number
    other than zero it raises [AttributeError] as soon as there are two
    candidates. *)
Theorem find_subgroup_sound (dept_name group_name product_name : cell)
    (taxonomy : list Tax.entry) :
  (∃ found : cell,
     Raw.find_subgroup lower (of_cell dept_name) (of_cell group_name)
       (of_cell product_name) (of_entry <$> taxonomy)
     = Ok (of_cell found)
     ∧ (found = None ↔ group_matches dept_name group_name taxonomy = [])
     ∧ (∀ sub, found = Some sub →
          sub ≠ []
          ∧ ∃ t, t ∈ taxonomy ∧ Tax.sub_name t = Some sub
                 ∧ dept_name = Some (dept_of t)
                 ∧ group_name = Some (grp_of t)))
  ∧ (∀ z : Z,
       z ≠ 0%Z →
       (2 ≤ length (group_matches dept_name group_name taxonomy))%nat →
       Raw.find_subgroup lower (of_cell dept_name) (of_cell group_name)
         (VInt z) (of_entry <$> taxonomy)
       = Raise AttributeError).
Proof.
  split.
  - destruct (find_subgroup_found lower dept_name group_name product_name
                taxonomy) as (found & Hf & Hnone & Hsome).
    exists found. rewrite find_subgroup_refines, Hf. by split_and!.
  - intros z Hz Hlen. unfold Raw.find_subgroup.
    rewrite group_matches_refines. simpl.
    rewrite fmap_eq_nil, length_fmap.
    destruct (group_matches dept_name group_name taxonomy)
      as [|m [|m' ms]]; simpl in Hlen; [lia..|].
    simpl. unfold Raw.py_or. simpl.
    by rewrite (proj2 (Z.eqb_neq z 0) Hz).
Qed.

End CellFacts.

(** *** The department-only fallback *)

(** C7.  The department-only fallback does not look the department up as
    the specification has it, lower-cased in the index by department: it
    compares the department of the row, as written, with the trimmed names
    of the taxonomy.  On a taxonomy with two entries of the department
    ["Bakery"] after one of another department, the index of [build_lookup]
    holds both under the lower-cased key of ["BAKERY"] and of ["Bakery"];
    the row of department ["Bakery"] without group gets [PartialAuto] with
    the first of the two, and the rows of department ["BAKERY"] and
    [" Bakery"] get [Unknown]. *)
Theorem department_fallback_is_case_sensitive :
  let row dept := product 14 (Some (u "Rye")) (Some (u dept)) None in
  let out dept :=
    Raw.classify_products ascii_lower (of_entry <$> pantry)
      [of_row (row dept)] in
  (build_lookup ascii_lower pantry).2 !! ascii_lower (u "BAKERY")
  = Some [entry "Bakery" "Loaves" "Bread"; entry "Bakery" "Cakes" "Muffins"]
  ∧ (build_lookup ascii_lower pantry).2 !! ascii_lower (u "Bakery")
    = Some [entry "Bakery" "Loaves" "Bread";
            entry "Bakery" "Cakes" "Muffins"]
  ∧ Raw.results_of (out "Bakery")
    = [of_res (carry (row "Bakery") (Some (u "Food")) (Some (u "Bakery"))
                 (Some (u "Loaves")) (Some (u "Bread" ++ review_suffix))
                 PartialAuto)]
  ∧ Raw.results_of (out "BAKERY")
    = [of_res (carry (row "BAKERY") (Some unknown_domain)
                 (Some (u "BAKERY")) (Some needs_review)
                 (Some manual_review) Unknown)]
  ∧ Raw.results_of (out " Bakery")
    = [of_res (carry (row " Bakery") (Some unknown_domain)
                 (Some (u " Bakery")) (Some needs_review)
                 (Some manual_review) Unknown)].
Proof. by vm_compute. Qed.

Lemma department_fallback_exact_witness :
  let row dept := product 14 (Some (u "Rye")) (Some (u dept)) None in
  (∃ rs d nc,
     Raw.classify_products ascii_lower (of_entry <$> pantry)
       (of_row <$> [row "Bakery"]) = Ok (rs, d, nc)
     ∧ rs !! 0%nat
       = Some (of_res
                 (carry (row "Bakery") (py_or None (Some (u "Food")))
                    (Some (u "Bakery")) (Some (u "Loaves"))
                    (Some (u "Bread" ++ review_suffix)) PartialAuto)))
  ∧ (∃ rs d nc,
       Raw.classify_products ascii_lower (of_entry <$> pantry)
         (of_row <$> [row "BAKERY"]) = Ok (rs, d, nc)
       ∧ rs !! 0%nat
         = Some (of_res
                   (carry (row "BAKERY") (py_or None (Some unknown_domain))
                      (Some (u "BAKERY")) (Some needs_review)
                      (Some manual_review) Unknown))).
Proof.
  intros row. split.
  - destruct (department_fallback_exact ascii_lower pantry [row "Bakery"]
                0 (row "Bakery") (u "Bakery"))
      as (rs & d & nc & Hrun & Hfirst & _).
    + reflexivity.
    + apply not_skipped_row. vm_compute. reflexivity.
    + vm_compute. reflexivity.
    + reflexivity.
    + vm_compute. discriminate.
    + reflexivity.
    + exists rs, d, nc. split; [exact Hrun|].
      destruct (Hfirst [entry "Dairy" "Milk" "Cream"]
                  (entry "Bakery" "Loaves" "Bread")
                  [entry "Bakery" "Cakes" "Muffins"])
        as (sub & Hsub & Hr).
      * reflexivity.
      * constructor; [|constructor].
        intros [H _]. vm_compute in H. discriminate H.
      * split; vm_compute; reflexivity.
      * injection Hsub as <-. exact Hr.
  - destruct (department_fallback_exact ascii_lower pantry [row "BAKERY"]
                0 (row "BAKERY") (u "BAKERY"))
      as (rs & d & nc & Hrun & _ & Hnone).
    + reflexivity.
    + apply not_skipped_row. vm_compute. reflexivity.
    + vm_compute. reflexivity.
    + reflexivity.
    + vm_compute. discriminate.
    + reflexivity.
    + exists rs, d, nc. split; [exact Hrun|].
      apply Hnone.
      repeat constructor; intros [H _]; vm_compute in H; discriminate H.
Defined.

(** *** Rows named by a number *)

(** A sheet of three rows, the second named by the number 4711: the run
    raises, and returns nothing for the first row either. *)
Lemma numeric_name_raises_witness :
  Raw.classify_products ascii_lower (of_entry <$> bakery)
    ((of_row <$> [product 15 (Some (u "Rye")) (Some (u "Bakery"))
                    (Some (u "Loaves"))])
     ++ cells 16 (VInt 4711) (VStr (u "Bakery")) VNone
     :: [cells 17 (VStr (u "Rye")) VNone VNone])
  = Raise AttributeError.
Proof.
  apply (numeric_name_raises ascii_lower bakery
           [product 15 (Some (u "Rye")) (Some (u "Bakery"))
              (Some (u "Loaves"))]
           (cells 16 (VInt 4711) (VStr (u "Bakery")) VNone)
           [cells 17 (VStr (u "Rye")) VNone VNone] 4711).
  - reflexivity.
  - discriminate.
  - vm_compute. reflexivity.
Defined.

(** The same sheet with the number written as text. *)
Lemma text_sheets_preserved_witness :
  let rows := [cells 15 (VStr (u "Rye")) (VStr (u "Bakery"))
                 (VStr (u "Loaves"));
               cells 16 (VStr (u "4711")) (VStr (u "Bakery")) VNone;
               cells 17 (VStr (u "Rye")) VNone VNone] in
  ∃ rs d nc,
    Raw.classify_products ascii_lower (of_entry <$> bakery) rows
    = Ok (rs, d, nc)
    ∧ length rs = length rows
    ∧ Forall2 same_cells rows rs
    ∧ stats_total d = length rows.
Proof.
  intros rows.
  apply (text_sheets_preserved ascii_lower (of_entry <$> bakery) rows).
  - repeat constructor.
  - repeat constructor.
Defined.

(** *** The unknown fallback *)

(** A row with a name and nothing else, on the bakery taxonomy and on a
    taxonomy that holds numbers only. *)
Lemma unknown_fallback_witness :
  let row := product 3 (Some (u "Widget")) None (Some []) in
  let r := carry row (py_or None (Some unknown_domain))
             (Some needs_review) (Some needs_review)
             (Some manual_review) Unknown in
  (∃ rs d nc,
     Raw.classify_products ascii_lower (of_entry <$> bakery)
       (of_row <$> [row]) = Ok (rs, d, nc)
     ∧ rs !! 0%nat = Some (of_res r))
  ∧ Raw.loop_body ascii_lower [numbered_entry] (of_row row) Raw.initial
    = Ok {| Raw.results := [of_res r];
            Raw.stats := <["unknown" := 1%nat]> initial_stats;
            Raw.new_categories := ∅ |}.
Proof.
  intros row r.
  destruct (unknown_fallback ascii_lower bakery [row] 0 row) as [Hrun Hbody].
  - reflexivity.
  - apply not_skipped_row. reflexivity.
  - reflexivity.
  - reflexivity.
  - vm_compute. reflexivity.
  - split; [exact Hrun|apply Hbody].
Defined.
